(** * A reliable-transfer protocol over UDP: initiator and responder

    Shallow embedding of [udpClient.py] (class [UDPClient]) and
    [udpServer.py] (class [UDPServer]).

    Conventions of the embedding.
    - Python [int] is [Z]; [bytes] is [list Byte.byte].
    - Python [float] (time stamps, time-outs, drop rates) is the exact
      value of the float, a rational [Q]. Comparisons are exact. The
      rounding of binary64 arithmetic is written out where its result is
      turned into an integer, [int(self.drop_rate * 100)]; it is not
      modelled for the time stamps and the time-outs.
    - A method is a computation in a state-and-exception monad: the
      mutation of [self] done before an exception is raised is kept, as in
      Python.
    - The socket, the clock and the random generator are an explicit
      environment carried next to [self]: datagrams that arrive, readings
      of [time.time()], draws of [random], and the trace of what was sent. *)

From Stdlib Require Import ZArith QArith Qround List Bool Lia Lqa Sorting.Sorted
  Sorting.Permutation Strings.Byte Strings.String.
From stdpp Require Import gmap strings.
Import ListNotations.

#[local] Open Scope Z_scope.

(* ------------------------------------------------------------------ *)
(** ** Python values                                                    *)
(* ------------------------------------------------------------------ *)

Abbreviation bytes := (list Byte.byte).

Definition byte_to_Z (b : Byte.byte) : Z := Z.of_N (Byte.to_N b).

Definition byte_of_Z (z : Z) : Byte.byte :=
  match Byte.of_N (Z.to_N z) with
  | Some b => b
  | None => Byte.x00
  end.

(** [len(x)] *)
Definition len {A} (l : list A) : Z := Z.of_nat (List.length l).

(** Index normalisation of a slice bound, as CPython does it: a negative
    bound counts from the end, and the result is clamped to [0, len]. *)
Definition slice_bound {A} (l : list A) (i : Z) : Z :=
  if i <? 0 then Z.max 0 (i + len l) else Z.min i (len l).

(** [l[a:b]] *)
Definition slice {A} (l : list A) (a b : Z) : list A :=
  let a' := slice_bound l a in
  let b' := slice_bound l b in
  firstn (Z.to_nat (b' - a')) (skipn (Z.to_nat a') l).

(** [l[:b]] *)
Definition slice_to {A} (l : list A) (b : Z) : list A := slice l 0 b.

(** [l[a:]] *)
Definition slice_from {A} (l : list A) (a : Z) : list A := slice l a (len l).

(** Exceptions the two programs can raise. *)
Inductive exn : Set :=
| StructError      (* struct.error *)
| SocketTimeout    (* socket.timeout *)
| KeyError
| IndexError
| OverflowError.

Inductive outcome (A : Type) : Type :=
| Return (a : A)
| Raise (e : exn).
Arguments Return {A} a.
Arguments Raise {A} e.

(* ------------------------------------------------------------------ *)
(** ** The header codec                                                 *)
(* ------------------------------------------------------------------ *)

Module Codec.

(** [struct.pack] of one ['B'] field: one byte, [struct.error] outside
    0..255. *)
Definition pack_B (x : Z) : outcome bytes :=
  if (0 <=? x) && (x <=? 255) then Return [byte_of_Z x] else Raise StructError.

(** [struct.pack] of one ['!H'] field: two bytes, most significant first,
    [struct.error] outside 0..65535. *)
Definition pack_H (x : Z) : outcome bytes :=
  if (0 <=? x) && (x <=? 65535)
  then Return [byte_of_Z (Z.shiftr x 8); byte_of_Z (Z.land x 255)]
  else Raise StructError.

Definition cat (a b : outcome bytes) : outcome bytes :=
  match a, b with
  | Return x, Return y => Return (x ++ y)
  | Raise e, _ => Raise e
  | _, Raise e => Raise e
  end.

(** [struct.pack('!BHHHB', b0, h1, h2, h3, b4)] *)
Definition pack_BHHHB (b0 h1 h2 h3 b4 : Z) : outcome bytes :=
  cat (pack_B b0) (cat (pack_H h1) (cat (pack_H h2) (cat (pack_H h3) (pack_B b4)))).

(** [struct.unpack('!BHHHB', buf)]: the buffer must hold exactly 8 bytes. *)
Definition unpack_BHHHB (buf : bytes) : outcome (Z * Z * Z * Z * Z) :=
  match buf with
  | [b0; s1; s0; a1; a0; w1; w0; l0] =>
      Return (byte_to_Z b0,
              Z.lor (Z.shiftl (byte_to_Z s1) 8) (byte_to_Z s0),
              Z.lor (Z.shiftl (byte_to_Z a1) 8) (byte_to_Z a0),
              Z.lor (Z.shiftl (byte_to_Z w1) 8) (byte_to_Z w0),
              byte_to_Z l0)
  | _ => Raise StructError
  end.

(** [build_header], the same in both classes. *)
Definition build_header (ptype seq ack window length : Z) : outcome bytes :=
  pack_BHHHB (Z.lor (Z.shiftl ptype 4) 15) seq ack window length.

(** [parse_header], the same in both classes. *)
Definition parse_header (data : bytes) : outcome (Z * Z * Z * Z * Z) :=
  match unpack_BHHHB (slice_to data 8) with
  | Return (b0, seq, ack, window, length) =>
      Return (Z.shiftr b0 4, seq, ack, window, length)
  | Raise e => Raise e
  end.

(** The first byte of a header whose type is [ptype] and whose reserved
    nibble is [reserved]. *)
Definition first_byte (ptype reserved : Z) : Z :=
  Z.lor (Z.shiftl ptype 4) reserved.

End Codec.

(* ------------------------------------------------------------------ *)
(** ** Methods as computations                                          *)
(* ------------------------------------------------------------------ *)

(** A method run on a state [S]: it ends with a value or with an exception,
    and in both cases leaves a state behind. *)
Definition M (S A : Type) : Type := S -> outcome A * S.

Definition ret {S A} (a : A) : M S A := fun s => (Return a, s).

Definition bind {S A B} (m : M S A) (k : A -> M S B) : M S B :=
  fun s =>
    match m s with
    | (Return a, s') => k a s'
    | (Raise e, s') => (Raise e, s')
    end.

Definition raise {S A} (e : exn) : M S A := fun s => (Raise e, s).

Definition gets {S A} (f : S -> A) : M S A := fun s => (Return (f s), s).

Definition modify {S} (f : S -> S) : M S unit := fun s => (Return tt, f s).

(** A pure computation that may raise, run inside a method. *)
Definition lift {S A} (o : outcome A) : M S A := fun s => (o, s).

Definition exn_eqb (a b : exn) : bool :=
  match a, b with
  | StructError, StructError | SocketTimeout, SocketTimeout
  | KeyError, KeyError | IndexError, IndexError => true
  | _, _ => false
  end.

(** [try: m  except e: h] *)
Definition try_except {S A} (m : M S A) (e : exn) (h : M S A) : M S A :=
  fun s =>
    match m s with
    | (Raise e', s') => if exn_eqb e e' then h s' else (Raise e', s')
    | r => r
    end.

Definition exec {S A} (m : M S A) (s : S) : S := snd (m s).
Definition result {S A} (m : M S A) (s : S) : outcome A := fst (m s).

Notation "'let*' x ':=' m 'in' k" := (bind m (fun x => k))
  (at level 10, x strict pattern, m at level 100, k at level 200).
Notation "m ';;;' k" := (bind m (fun _ => k))
  (at level 100, k at level 200, right associativity).

(** [if c: m], with no [else]. *)
Definition when {S} (c : bool) (m : M S unit) : M S unit :=
  if c then m else ret tt.

(* ------------------------------------------------------------------ *)
(** ** Python containers                                                *)
(* ------------------------------------------------------------------ *)

(** [l[i]] for [0 <= i]; [IndexError] past the end. *)
Definition index {A} (l : list A) (i : Z) : outcome A :=
  match nth_error l (Z.to_nat i) with
  | Some x => Return x
  | None => Raise IndexError
  end.

(** A [dict] with integer keys, in insertion order: the order in which
    [keys()] lists them. *)
Module Dict.
Section Dict.
Context {V : Type}.

Abbreviation t := (list (Z * V)).

Fixpoint get (d : t) (k : Z) : option V :=
  match d with
  | [] => None
  | (k', v) :: d' => if k' =? k then Some v else get d' k
  end.

(** [k in d] *)
Definition mem (d : t) (k : Z) : bool :=
  match get d k with Some _ => true | None => false end.

(** [d[k] = v]: a key already present keeps its place. *)
Fixpoint set (d : t) (k : Z) (v : V) : t :=
  match d with
  | [] => [(k, v)]
  | (k', v') :: d' => if k' =? k then (k, v) :: d' else (k', v') :: set d' k v
  end.

(** [del d[k]], for a key that is present. *)
Fixpoint del (d : t) (k : Z) : t :=
  match d with
  | [] => []
  | (k', v') :: d' => if k' =? k then d' else (k', v') :: del d' k
  end.

(** [list(d.keys())] *)
Definition keys (d : t) : list Z := map fst d.

(** [d[k]] *)
Definition item (d : t) (k : Z) : outcome V :=
  match get d k with
  | Some v => Return v
  | None => Raise KeyError
  end.
End Dict.
End Dict.

(** [sorted] on integers and on rationals: insertion into a sorted list,
    an element going after the ones equal to it ([sorted] is stable). *)
Fixpoint insert_Z (x : Z) (l : list Z) : list Z :=
  match l with
  | [] => [x]
  | y :: l' => if x <? y then x :: l else y :: insert_Z x l'
  end.

Definition sorted_Z (l : list Z) : list Z := fold_left (fun acc x => insert_Z x acc) l [].

Definition Qltb (x y : Q) : bool := negb (Qle_bool y x).

Fixpoint insert_Q (x : Q) (l : list Q) : list Q :=
  match l with
  | [] => [x]
  | y :: l' => if Qltb x y then x :: l else y :: insert_Q x l'
  end.

Definition sorted_Q (l : list Q) : list Q := fold_left (fun acc x => insert_Q x acc) l [].

(** [int(x)]: truncation toward zero. *)
Definition int_of_Q (x : Q) : Z := Z.quot (Qnum x) (Z.pos (Qden x)).

(** A Python [float] is a binary64 number. The model holds the exact value
    of a float, a rational, and where the result of an operation is turned
    into an integer the rounding of the operation is written out: the result
    is the exact one rounded to the nearest binary64 number, ties to the
    even significand, and [inf] ([None]) when it is too large.
    [pow2 e] is 2 to the power [e]; [ilog2 x], for a positive [x], is the [k]
    such that [2^k <= x < 2^(k+1)]. *)
Definition pow2 (e : Z) : Q :=
  if 0 <=? e then inject_Z (2 ^ e) else (1 / inject_Z (2 ^ (- e)))%Q.

Definition ilog2 (x : Q) : Z :=
  let k := Z.log2 (Qnum x) - Z.log2 (Z.pos (Qden x)) in
  if Qle_bool (pow2 k) x then k else k - 1.

Definition round_half_even (x : Q) : Z :=
  let f := Qfloor x in
  match ((x - inject_Z f) ?= 1 # 2)%Q with
  | Lt => f
  | Gt => f + 1
  | Eq => if Z.even f then f else f + 1
  end.

(** The binary64 number nearest to [x]: 53 bits of significand, the least
    exponent of the subnormal numbers being -1074. *)
Definition binary64 (x : Q) : option Q :=
  if Qeq_bool x 0 then Some 0%Q
  else
    let a := if Qle_bool 0 x then x else (- x)%Q in
    let e := Z.max (ilog2 a - 52) (-1074) in
    let r := (inject_Z (round_half_even (a / pow2 e)) * pow2 e)%Q in
    if Qle_bool (pow2 1024) r then None
    else Some (if Qle_bool 0 x then r else (- r)%Q).

(** [x * y] on floats. *)
Definition float_mul (x y : Q) : option Q := binary64 (x * y).

(** [int(x)] on a float: [int(inf)] raises [OverflowError]. *)
Definition int_of_float (x : option Q) : outcome Z :=
  match x with
  | Some q => Return (int_of_Q q)
  | None => Raise OverflowError
  end.

(* ------------------------------------------------------------------ *)
(** ** The initiator: class [UDPClient]                                 *)
(* ------------------------------------------------------------------ *)

(** A socket address [(host, port)]. *)
Abbreviation address := (string * Z)%type.

Module Client.

(** One entry of [self.buffer]: a sent packet that is not yet evicted. *)
Record packet_info : Type := mkInfo {
  packet : bytes;
  send_time : Q;
  acked : bool;
  start : Z;
  end_ : Z;
  retries : Z
}.

Definition set_acked (v : bool) (p : packet_info) : packet_info :=
  {| packet := packet p; send_time := send_time p; acked := v;
     start := start p; end_ := end_ p; retries := retries p |}.

Definition set_send_time (v : Q) (p : packet_info) : packet_info :=
  {| packet := packet p; send_time := v; acked := acked p;
     start := start p; end_ := end_ p; retries := retries p |}.

Definition set_retries (v : Z) (p : packet_info) : packet_info :=
  {| packet := packet p; send_time := send_time p; acked := acked p;
     start := start p; end_ := end_ p; retries := v |}.

(** The attributes of [self] that the methods below read or write.
    [rtt_alpha], [smoothed_rtt], [rtt_var] and [server_drop_rate] are
    written by [__init__] only and left out; [lock] is taken and released
    by the one thread of the initiator and has no effect. *)
Record UDPClient : Type := mkClient {
  server_addr : address;
  window_size_bytes : Z;
  current_window_usage : Z;
  min_packet_size : Z;
  max_packet_size : Z;
  initial_timeout : Q;
  timeout : Q;
  base : Z;
  next_seq : Z;
  buffer : list (Z * packet_info);
  target_packets : Z;
  data : bytes;
  rtt_list : list Q;
  retransmit_count : Z;
  sent_count : Z;
  initial_sent : Z;
  timer_running : bool;
  timer_start : Q
}.

Definition set_current_window_usage (v : Z) (c : UDPClient) : UDPClient :=
  {| server_addr := server_addr c; window_size_bytes := window_size_bytes c;
     current_window_usage := v; min_packet_size := min_packet_size c;
     max_packet_size := max_packet_size c;
     initial_timeout := initial_timeout c; timeout := timeout c;
     base := base c; next_seq := next_seq c; buffer := buffer c;
     target_packets := target_packets c; data := data c;
     rtt_list := rtt_list c; retransmit_count := retransmit_count c;
     sent_count := sent_count c; initial_sent := initial_sent c;
     timer_running := timer_running c; timer_start := timer_start c |}.

Definition set_timeout (v : Q) (c : UDPClient) : UDPClient :=
  {| server_addr := server_addr c; window_size_bytes := window_size_bytes c;
     current_window_usage := current_window_usage c;
     min_packet_size := min_packet_size c;
     max_packet_size := max_packet_size c;
     initial_timeout := initial_timeout c; timeout := v; base := base c;
     next_seq := next_seq c; buffer := buffer c;
     target_packets := target_packets c; data := data c;
     rtt_list := rtt_list c; retransmit_count := retransmit_count c;
     sent_count := sent_count c; initial_sent := initial_sent c;
     timer_running := timer_running c; timer_start := timer_start c |}.

Definition set_base (v : Z) (c : UDPClient) : UDPClient :=
  {| server_addr := server_addr c; window_size_bytes := window_size_bytes c;
     current_window_usage := current_window_usage c;
     min_packet_size := min_packet_size c;
     max_packet_size := max_packet_size c;
     initial_timeout := initial_timeout c; timeout := timeout c; base := v;
     next_seq := next_seq c; buffer := buffer c;
     target_packets := target_packets c; data := data c;
     rtt_list := rtt_list c; retransmit_count := retransmit_count c;
     sent_count := sent_count c; initial_sent := initial_sent c;
     timer_running := timer_running c; timer_start := timer_start c |}.

Definition set_next_seq (v : Z) (c : UDPClient) : UDPClient :=
  {| server_addr := server_addr c; window_size_bytes := window_size_bytes c;
     current_window_usage := current_window_usage c;
     min_packet_size := min_packet_size c;
     max_packet_size := max_packet_size c;
     initial_timeout := initial_timeout c; timeout := timeout c;
     base := base c; next_seq := v; buffer := buffer c;
     target_packets := target_packets c; data := data c;
     rtt_list := rtt_list c; retransmit_count := retransmit_count c;
     sent_count := sent_count c; initial_sent := initial_sent c;
     timer_running := timer_running c; timer_start := timer_start c |}.

Definition set_buffer (v : list (Z * packet_info)) (c : UDPClient) : UDPClient :=
  {| server_addr := server_addr c; window_size_bytes := window_size_bytes c;
     current_window_usage := current_window_usage c;
     min_packet_size := min_packet_size c;
     max_packet_size := max_packet_size c;
     initial_timeout := initial_timeout c; timeout := timeout c;
     base := base c; next_seq := next_seq c; buffer := v;
     target_packets := target_packets c; data := data c;
     rtt_list := rtt_list c; retransmit_count := retransmit_count c;
     sent_count := sent_count c; initial_sent := initial_sent c;
     timer_running := timer_running c; timer_start := timer_start c |}.

Definition set_rtt_list (v : list Q) (c : UDPClient) : UDPClient :=
  {| server_addr := server_addr c; window_size_bytes := window_size_bytes c;
     current_window_usage := current_window_usage c;
     min_packet_size := min_packet_size c;
     max_packet_size := max_packet_size c;
     initial_timeout := initial_timeout c; timeout := timeout c;
     base := base c; next_seq := next_seq c; buffer := buffer c;
     target_packets := target_packets c; data := data c; rtt_list := v;
     retransmit_count := retransmit_count c; sent_count := sent_count c;
     initial_sent := initial_sent c; timer_running := timer_running c;
     timer_start := timer_start c |}.

Definition set_retransmit_count (v : Z) (c : UDPClient) : UDPClient :=
  {| server_addr := server_addr c; window_size_bytes := window_size_bytes c;
     current_window_usage := current_window_usage c;
     min_packet_size := min_packet_size c;
     max_packet_size := max_packet_size c;
     initial_timeout := initial_timeout c; timeout := timeout c;
     base := base c; next_seq := next_seq c; buffer := buffer c;
     target_packets := target_packets c; data := data c;
     rtt_list := rtt_list c; retransmit_count := v;
     sent_count := sent_count c; initial_sent := initial_sent c;
     timer_running := timer_running c; timer_start := timer_start c |}.

Definition set_sent_count (v : Z) (c : UDPClient) : UDPClient :=
  {| server_addr := server_addr c; window_size_bytes := window_size_bytes c;
     current_window_usage := current_window_usage c;
     min_packet_size := min_packet_size c;
     max_packet_size := max_packet_size c;
     initial_timeout := initial_timeout c; timeout := timeout c;
     base := base c; next_seq := next_seq c; buffer := buffer c;
     target_packets := target_packets c; data := data c;
     rtt_list := rtt_list c; retransmit_count := retransmit_count c;
     sent_count := v; initial_sent := initial_sent c;
     timer_running := timer_running c; timer_start := timer_start c |}.

Definition set_initial_sent (v : Z) (c : UDPClient) : UDPClient :=
  {| server_addr := server_addr c; window_size_bytes := window_size_bytes c;
     current_window_usage := current_window_usage c;
     min_packet_size := min_packet_size c;
     max_packet_size := max_packet_size c;
     initial_timeout := initial_timeout c; timeout := timeout c;
     base := base c; next_seq := next_seq c; buffer := buffer c;
     target_packets := target_packets c; data := data c;
     rtt_list := rtt_list c; retransmit_count := retransmit_count c;
     sent_count := sent_count c; initial_sent := v;
     timer_running := timer_running c; timer_start := timer_start c |}.

Definition set_timer_running (v : bool) (c : UDPClient) : UDPClient :=
  {| server_addr := server_addr c; window_size_bytes := window_size_bytes c;
     current_window_usage := current_window_usage c;
     min_packet_size := min_packet_size c;
     max_packet_size := max_packet_size c;
     initial_timeout := initial_timeout c; timeout := timeout c;
     base := base c; next_seq := next_seq c; buffer := buffer c;
     target_packets := target_packets c; data := data c;
     rtt_list := rtt_list c; retransmit_count := retransmit_count c;
     sent_count := sent_count c; initial_sent := initial_sent c;
     timer_running := v; timer_start := timer_start c |}.

Definition set_timer_start (v : Q) (c : UDPClient) : UDPClient :=
  {| server_addr := server_addr c; window_size_bytes := window_size_bytes c;
     current_window_usage := current_window_usage c;
     min_packet_size := min_packet_size c;
     max_packet_size := max_packet_size c;
     initial_timeout := initial_timeout c; timeout := timeout c;
     base := base c; next_seq := next_seq c; buffer := buffer c;
     target_packets := target_packets c; data := data c;
     rtt_list := rtt_list c; retransmit_count := retransmit_count c;
     sent_count := sent_count c; initial_sent := initial_sent c;
     timer_running := timer_running c; timer_start := v |}.

(** What the initiator does to its socket, in order. *)
Inductive syscall : Type :=
| Sendto (pkt : bytes) (addr : address)
| Settimeout (t : Q).

(** The world around [self]: the clock read by [time.time()], the draws of
    [random.randint], what the socket will deliver to the successive
    [recvfrom] calls ([None]: the time-out expires first; past the end of
    the list nothing arrives any more), and the calls made on the socket
    so far. *)
Record Env : Type := mkEnv {
  time_src : nat -> Q;
  time_ix : nat;
  rand_src : nat -> Z;
  rand_ix : nat;
  inbox : list (option bytes);
  wire : list syscall
}.

Record Sys : Type := mkSys { self : UDPClient; env : Env }.

Definition on_self (f : UDPClient -> UDPClient) : M Sys unit :=
  modify (fun s => {| self := f (self s); env := env s |}).

Definition on_env (f : Env -> Env) : M Sys unit :=
  modify (fun s => {| self := self s; env := f (env s) |}).

Definition attr {A} (f : UDPClient -> A) : M Sys A := gets (fun s => f (self s)).

(** [time.time()] *)
Definition time_time : M Sys Q :=
  let* e := gets env in
  on_env (fun e =>
    {| time_src := time_src e; time_ix := S (time_ix e);
       rand_src := rand_src e; rand_ix := rand_ix e;
       inbox := inbox e; wire := wire e |}) ;;;
  ret (time_src e (time_ix e)).

(** [random.randint(a, b)]: some integer of [a..b]. *)
Definition randint (a b : Z) : M Sys Z :=
  let* e := gets env in
  on_env (fun e =>
    {| time_src := time_src e; time_ix := time_ix e;
       rand_src := rand_src e; rand_ix := S (rand_ix e);
       inbox := inbox e; wire := wire e |}) ;;;
  ret (a + rand_src e (rand_ix e) mod (b - a + 1)).

Definition emit (c : syscall) : M Sys unit :=
  on_env (fun e =>
    {| time_src := time_src e; time_ix := time_ix e;
       rand_src := rand_src e; rand_ix := rand_ix e;
       inbox := inbox e; wire := wire e ++ [c] |}).

(** [self.client_socket.sendto(pkt, self.server_addr)] *)
Definition sendto (pkt : bytes) : M Sys unit :=
  let* a := attr server_addr in emit (Sendto pkt a).

(** [self.client_socket.settimeout(t)] *)
Definition settimeout (t : Q) : M Sys unit := emit (Settimeout t).

(** [data, _ = self.client_socket.recvfrom(1024)] *)
Definition recvfrom : M Sys bytes :=
  let* e := gets env in
  match inbox e with
  | [] => raise SocketTimeout
  | ev :: rest =>
      on_env (fun e =>
        {| time_src := time_src e; time_ix := time_ix e;
           rand_src := rand_src e; rand_ix := rand_ix e;
           inbox := rest; wire := wire e |}) ;;;
      match ev with
      | Some d => ret (slice_to d 1024)
      | None => raise SocketTimeout
      end
  end.

(** [b'TestData' * 1000] *)
Definition test_data : bytes :=
  concat (repeat [x54; x65; x73; x74; x44; x61; x74; x61]%byte 1000).

(** [__init__] *)
Definition init (server_ip : string) (server_port : Z) (target : Z) : UDPClient :=
  {| server_addr := (server_ip, server_port);
     window_size_bytes := 400; current_window_usage := 0;
     min_packet_size := 40; max_packet_size := 80;
     initial_timeout := 0.3; timeout := 0.3;
     base := 0; next_seq := 0; buffer := [];
     target_packets := target; data := test_data;
     rtt_list := []; retransmit_count := 0; sent_count := 0;
     initial_sent := 0; timer_running := false; timer_start := 0 |}.

Definition build_header (ptype seq ack window length : Z) : M Sys bytes :=
  lift (Codec.build_header ptype seq ack window length).

Definition parse_header (d : bytes) : M Sys (Z * Z * Z * Z * Z) :=
  lift (Codec.parse_header d).

(** [calculate_data_range] *)
Definition calculate_data_range (seq packet_size : Z) : M Sys (Z * Z) :=
  let* mps := attr min_packet_size in
  let* d := attr data in
  let start := seq * mps in
  let end_ := start + Z.min packet_size (len d - start) in
  ret (start, end_).

(** How one pass of the loop of [connect] ends: the method returns, or the
    loop goes on with the new value of the local [retries]. *)
Inductive flow : Type :=
| Returns (b : bool)
| Continue (retries : Z).

Definition max_retries : Z := 5.

(** One pass of [while retries < max_retries] in [connect]. *)
Definition connect_pass (my_seq retries : Z) : M Sys flow :=
  let* w := attr window_size_bytes in
  let* syn := build_header 1 my_seq 0 w 0 in
  sendto syn ;;;
  let* t := attr timeout in
  settimeout t ;;;
  try_except
    (let* d := recvfrom in
     let* (ptype, server_seq, ack, _, _) := parse_header d in
     if (ptype =? 2) && (ack =? my_seq + 1) then
       let* w := attr window_size_bytes in
       let* ack_pkt := build_header 4 (my_seq + 1) (server_seq + 1) w 0 in
       sendto ack_pkt ;;;
       on_self (set_base 0) ;;;
       on_self (set_next_seq 0) ;;;
       ret (Returns true)
     else ret (Continue retries))
    SocketTimeout
    (let* t := attr timeout in
     on_self (set_timeout (t * 2)%Q) ;;;
     ret (Continue (retries + 1))).

Fixpoint connect_loop (fuel : nat) (my_seq retries : Z) : M Sys bool :=
  match fuel with
  | O => ret false
  | S fuel' =>
      if retries <? max_retries then
        let* f := connect_pass my_seq retries in
        match f with
        | Returns b => ret b
        | Continue retries' => connect_loop fuel' my_seq retries'
        end
      else ret false
  end.

(** The number of passes [connect] can make: every pass consumes an entry
    of the inbox or, the inbox being empty, counts a retry. *)
Definition connect_fuel (s : Sys) : nat := (List.length (inbox (env s)) + 5)%nat.

(** [connect] *)
Definition connect : M Sys bool :=
  let* my_seq := randint 0 65535 in
  let* fuel := gets connect_fuel in
  connect_loop fuel my_seq 0.

(** [start_timer] *)
Definition start_timer : M Sys unit :=
  let* now := time_time in
  on_self (set_timer_start now) ;;;
  on_self (set_timer_running true).

(** [stop_timer] *)
Definition stop_timer : M Sys unit := on_self (set_timer_running false).

(** [check_timer] *)
Definition check_timer : M Sys bool :=
  let* running := attr timer_running in
  if running then
    let* now := time_time in
    let* ts := attr timer_start in
    let* t := attr timeout in
    ret (Qltb t (now - ts)%Q)
  else ret false.

Definition nonempty {A} (l : list A) : bool :=
  match l with [] => false | _ => true end.

(** [self.buffer[seq]] *)
Definition buffer_item (seq : Z) : M Sys packet_info :=
  let* b := attr buffer in lift (Dict.item b seq).

(** [self.buffer[seq] = info] *)
Definition buffer_set (seq : Z) (info : packet_info) : M Sys unit :=
  on_self (fun c => set_buffer (Dict.set (buffer c) seq info) c).

(** One pass of the [while] of [send_window_packets]. *)
Definition send_window_pass : M Sys unit :=
  let* w := attr window_size_bytes in
  let* u := attr current_window_usage in
  let remaining_window := w - u in
  let* lo := attr min_packet_size in
  let* hi := attr max_packet_size in
  let* r := randint lo hi in
  let packet_size := Z.min r remaining_window in
  let* ns := attr next_seq in
  let* (start, end_) := calculate_data_range ns packet_size in
  let* d := attr data in
  let chunk := slice d start end_ in
  let* hdr := build_header 3 ns 0 w (len chunk) in
  let packet := hdr ++ chunk in
  sendto packet ;;;
  let* send_time := time_time in
  buffer_set ns {| packet := packet; send_time := send_time; acked := false;
                   start := start; end_ := end_; retries := 0 |} ;;;
  on_self (fun c => set_sent_count (sent_count c + 1) c) ;;;
  on_self (fun c => set_initial_sent (initial_sent c + 1) c) ;;;
  on_self (fun c => set_next_seq (next_seq c + 1) c) ;;;
  on_self (fun c => set_current_window_usage (current_window_usage c + len chunk) c) ;;;
  let* running := attr timer_running in
  let* b := attr buffer in
  when (negb running && nonempty b) start_timer.

Fixpoint send_window_loop (fuel : nat) : M Sys unit :=
  match fuel with
  | O => ret tt
  | S fuel' =>
      let* ns := attr next_seq in
      let* tp := attr target_packets in
      let* u := attr current_window_usage in
      let* w := attr window_size_bytes in
      if (ns <? tp) && (u <? w) then send_window_pass ;;; send_window_loop fuel'
      else ret tt
  end.

(** The number of passes [send_window_packets] can make: every pass
    increments [next_seq]. *)
Definition send_window_fuel (s : Sys) : nat :=
  Z.to_nat (target_packets (self s) - next_seq (self s)).

(** [send_window_packets] *)
Definition send_window_packets : M Sys unit :=
  let* fuel := gets send_window_fuel in send_window_loop fuel.

(** [handle_timeout]: the body of [for seq in sorted(self.buffer.keys())]. *)
Definition retransmit_one (seq : Z) : M Sys unit :=
  let* info := buffer_item seq in
  if negb (acked info) then
    sendto (packet info) ;;;
    let* now := time_time in
    let* info := buffer_item seq in
    buffer_set seq (set_send_time now info) ;;;
    let* info := buffer_item seq in
    buffer_set seq (set_retries (retries info + 1) info) ;;;
    on_self (fun c => set_sent_count (sent_count c + 1) c) ;;;
    on_self (fun c => set_retransmit_count (retransmit_count c + 1) c)
  else ret tt.

Fixpoint retransmit_loop (keys : list Z) : M Sys unit :=
  match keys with
  | [] => ret tt
  | seq :: rest => retransmit_one seq ;;; retransmit_loop rest
  end.

(** [handle_timeout] *)
Definition handle_timeout : M Sys unit :=
  stop_timer ;;;
  let* b := attr buffer in
  retransmit_loop (sorted_Z (Dict.keys b)) ;;;
  let* b := attr buffer in
  when (nonempty b) start_timer.

(** [adjust_timeout] *)
Definition adjust_timeout : M Sys unit :=
  let* rl := attr rtt_list in
  if 10 <=? len rl then
    let sorted_rtt := sorted_Q (slice rl (-10) (len rl)) in
    let* median_rtt := lift (index sorted_rtt 5) in
    on_self (set_timeout (5 * median_rtt / 1000)%Q)
  else ret tt.

(** [receive_ack]: the body of [for seq in list(self.buffer.keys())]. *)
Definition ack_one (ack seq : Z) : M Sys unit :=
  if seq <? ack then
    let* info := buffer_item seq in
    if negb (acked info) then
      let* now := time_time in
      let rtt := ((now - send_time info) * 1000)%Q in
      on_self (fun c => set_rtt_list (rtt_list c ++ [rtt]) c) ;;;
      let* info := buffer_item seq in
      let start := start info in
      let end_ := end_ info in
      buffer_set seq (set_acked true info) ;;;
      on_self (fun c =>
        set_current_window_usage (current_window_usage c - (end_ - start + 1)) c)
    else ret tt
  else ret tt.

Fixpoint ack_loop (ack : Z) (keys : list Z) : M Sys unit :=
  match keys with
  | [] => ret tt
  | seq :: rest => ack_one ack seq ;;; ack_loop ack rest
  end.

(** [receive_ack]: [while self.base in self.buffer and
    self.buffer[self.base]['acked']]. Every pass deletes an entry, so the
    number of entries bounds the number of passes. *)
Fixpoint slide_loop (fuel : nat) : M Sys unit :=
  match fuel with
  | O => ret tt
  | S fuel' =>
      let* b := attr base in
      let* buf := attr buffer in
      match Dict.get buf b with
      | Some info =>
          if acked info then
            on_self (fun c => set_buffer (Dict.del (buffer c) b) c) ;;;
            on_self (fun c => set_base (base c + 1) c) ;;;
            slide_loop fuel'
          else ret tt
      | None => ret tt
      end
  end.

(** [receive_ack]: what is done [with self.lock] for an ACK whose ack field
    is [ack]. *)
Definition process_ack (ack : Z) : M Sys unit :=
  let* old_base := attr base in
  let* buf := attr buffer in
  ack_loop ack (Dict.keys buf) ;;;
  let* buf := attr buffer in
  slide_loop (List.length buf) ;;;
  let* b := attr base in
  let* buf := attr buffer in
  when (negb (old_base =? b) && nonempty buf) (stop_timer ;;; start_timer) ;;;
  adjust_timeout.

(** [receive_ack] *)
Definition receive_ack : M Sys unit :=
  try_except
    (settimeout 0.1 ;;;
     let* d := recvfrom in
     if len d <? 8 then ret tt
     else
       let* (ptype, _, ack, _, length) := parse_header d in
       when ((ptype =? 4) && (0 <? ack)) (process_ack ack))
    SocketTimeout
    (ret tt).

(** One pass of the [while] of [send_data]. *)
Definition send_data_pass : M Sys unit :=
  send_window_packets ;;;
  receive_ack ;;;
  let* expired := check_timer in
  when expired handle_timeout.

(** Sum of the payload sizes of the packets of the buffer that are not
    acknowledged; the payload of a packet is what follows its 8-byte
    header. *)
Definition unacked_payload (buf : list (Z * packet_info)) : Z :=
  fold_right (fun kv acc =>
    if acked (snd kv) then acc else (len (packet (snd kv)) - 8) + acc) 0 buf.

End Client.

(* ------------------------------------------------------------------ *)
(** ** The responder: class [UDPServer]                                 *)
(* ------------------------------------------------------------------ *)

Module Server.

(** The three values that [connections[addr]['state']] takes. *)
Inductive conn_state : Set := CLOSED | SYN_RECEIVED | ESTABLISHED.

Definition conn_state_eqb (a b : conn_state) : bool :=
  match a, b with
  | CLOSED, CLOSED | SYN_RECEIVED, SYN_RECEIVED | ESTABLISHED, ESTABLISHED => true
  | _, _ => false
  end.

(** One value of [self.connections]. *)
Record connection : Type := mkConn {
  state : conn_state;
  expected_seq : Z;
  my_seq : Z
}.

(** [self.stats] *)
Record statistics : Type := mkStats {
  client_to_server_sent : Z;
  client_to_server_dropped : Z;
  server_to_client_sent : Z
}.

Record UDPServer : Type := mkServer {
  drop_rate : Q;
  connections : gmap address connection;
  stats : statistics
}.

(** The world around [self]: the draws of [random.randint] and of
    [random.random], the clock read by [datetime.now()] (microseconds since
    midnight), and the datagrams sent so far with their destinations. *)
Record Env : Type := mkEnv {
  rand_src : nat -> Z;
  rand_ix : nat;
  unif_src : nat -> Q;
  unif_ix : nat;
  clock_src : nat -> Z;
  clock_ix : nat;
  wire : list (bytes * address)
}.

Record Sys : Type := mkSys { self : UDPServer; env : Env }.

Definition on_self (f : UDPServer -> UDPServer) : M Sys unit :=
  modify (fun s => {| self := f (self s); env := env s |}).

Definition on_env (f : Env -> Env) : M Sys unit :=
  modify (fun s => {| self := self s; env := f (env s) |}).

Definition attr {A} (f : UDPServer -> A) : M Sys A := gets (fun s => f (self s)).

Definition set_connections (v : gmap address connection) (c : UDPServer) : UDPServer :=
  {| drop_rate := drop_rate c; connections := v; stats := stats c |}.

Definition set_stats (v : statistics) (c : UDPServer) : UDPServer :=
  {| drop_rate := drop_rate c; connections := connections c; stats := v |}.

(** [random.randint(a, b)]: some integer of [a..b]. *)
Definition randint (a b : Z) : M Sys Z :=
  let* e := gets env in
  on_env (fun e =>
    {| rand_src := rand_src e; rand_ix := S (rand_ix e);
       unif_src := unif_src e; unif_ix := unif_ix e;
       clock_src := clock_src e; clock_ix := clock_ix e; wire := wire e |}) ;;;
  ret (a + rand_src e (rand_ix e) mod (b - a + 1)).

(** [random.random()]: some number of the interval from 0 to 1, 1 excluded. *)
Definition random_random : M Sys Q :=
  let* e := gets env in
  on_env (fun e =>
    {| rand_src := rand_src e; rand_ix := rand_ix e;
       unif_src := unif_src e; unif_ix := S (unif_ix e);
       clock_src := clock_src e; clock_ix := clock_ix e; wire := wire e |}) ;;;
  let x := unif_src e (unif_ix e) in
  ret (x - inject_Z (Qfloor x))%Q.

Definition digit (n : Z) : Byte.byte := byte_of_Z (48 + n mod 10).

Definition two_digits (n : Z) : bytes := [digit (n / 10); digit n].

Definition six_digits (n : Z) : bytes :=
  [digit (n / 100000); digit (n / 10000); digit (n / 1000);
   digit (n / 100); digit (n / 10); digit n].

(** [datetime.now().strftime('%H:%M:%S.%f')], as the bytes of the string. *)
Definition now_strftime : M Sys bytes :=
  let* e := gets env in
  on_env (fun e =>
    {| rand_src := rand_src e; rand_ix := rand_ix e;
       unif_src := unif_src e; unif_ix := unif_ix e;
       clock_src := clock_src e; clock_ix := S (clock_ix e); wire := wire e |}) ;;;
  let t := clock_src e (clock_ix e) in
  ret (two_digits (t / 3600000000 mod 24) ++ [x3a]%byte ++
       two_digits (t / 60000000 mod 60) ++ [x3a]%byte ++
       two_digits (t / 1000000 mod 60) ++ [x2e]%byte ++
       six_digits (t mod 1000000)).

(** [self.server_socket.sendto(pkt, addr)] *)
Definition sendto (pkt : bytes) (addr : address) : M Sys unit :=
  on_env (fun e =>
    {| rand_src := rand_src e; rand_ix := rand_ix e;
       unif_src := unif_src e; unif_ix := unif_ix e;
       clock_src := clock_src e; clock_ix := clock_ix e;
       wire := wire e ++ [(pkt, addr)] |}).

(** [__init__] *)
Definition init (rate : Q) : UDPServer :=
  {| drop_rate := rate; connections := ∅;
     stats := {| client_to_server_sent := 0; client_to_server_dropped := 0;
                 server_to_client_sent := 0 |} |}.

Definition build_header (ptype seq ack window length : Z) : M Sys bytes :=
  lift (Codec.build_header ptype seq ack window length).

Definition parse_header (d : bytes) : M Sys (Z * Z * Z * Z * Z) :=
  lift (Codec.parse_header d).

(** [addr in self.connections] *)
Definition known (addr : address) : M Sys bool :=
  let* cs := attr connections in
  ret (match cs !! addr with Some _ => true | None => false end).

(** [self.connections[addr]] *)
Definition conn_item (addr : address) : M Sys connection :=
  let* cs := attr connections in
  match cs !! addr with
  | Some c => ret c
  | None => raise KeyError
  end.

(** [self.connections[addr] = c] *)
Definition conn_set (addr : address) (c : connection) : M Sys unit :=
  on_self (fun sv => set_connections (<[addr := c]> (connections sv)) sv).

(** [del self.connections[addr]] *)
Definition conn_del (addr : address) : M Sys unit :=
  let* _ := conn_item addr in
  on_self (fun sv => set_connections (delete addr (connections sv)) sv).

(** [self.stats['server_to_client']['sent'] += 1] *)
Definition count_server_sent : M Sys unit :=
  on_self (fun sv => set_stats
    {| client_to_server_sent := client_to_server_sent (stats sv);
       client_to_server_dropped := client_to_server_dropped (stats sv);
       server_to_client_sent := server_to_client_sent (stats sv) + 1 |} sv).

(** [self.stats['client_to_server']['sent'] += 1] *)
Definition count_client_sent : M Sys unit :=
  on_self (fun sv => set_stats
    {| client_to_server_sent := client_to_server_sent (stats sv) + 1;
       client_to_server_dropped := client_to_server_dropped (stats sv);
       server_to_client_sent := server_to_client_sent (stats sv) |} sv).

(** [self.stats['client_to_server']['dropped'] += 1] *)
Definition count_client_dropped : M Sys unit :=
  on_self (fun sv => set_stats
    {| client_to_server_sent := client_to_server_sent (stats sv);
       client_to_server_dropped := client_to_server_dropped (stats sv) + 1;
       server_to_client_sent := server_to_client_sent (stats sv) |} sv).

(** [handle_client], the branch of a SYN. *)
Definition on_syn (seq : Z) (addr : address) : M Sys unit :=
  let* my_seq := randint 0 65535 in
  let* syn_ack := build_header 2 my_seq (seq + 1) 400 0 in
  sendto syn_ack addr ;;;
  count_server_sent ;;;
  conn_set addr {| state := SYN_RECEIVED; expected_seq := 0; my_seq := my_seq |}.

(** [handle_client], the branch of an ACK. *)
Definition on_ack (addr : address) : M Sys unit :=
  let* c := conn_item addr in
  when (conn_state_eqb (state c) SYN_RECEIVED)
    (let* c := conn_item addr in
     conn_set addr {| state := ESTABLISHED; expected_seq := expected_seq c;
                      my_seq := my_seq c |} ;;;
     let* c := conn_item addr in
     conn_set addr {| state := state c; expected_seq := 0; my_seq := my_seq c |} ;;;
     let* hdr := build_header 6 0 0 400 1 in
     let* rate := attr drop_rate in
     let* percent := lift (int_of_float (float_mul rate 100)) in
     let* b := lift (Codec.pack_B percent) in
     let config_pkt := hdr ++ b in
     sendto config_pkt addr ;;;
     count_server_sent).

(** [handle_client], the branch of a DATA packet. *)
Definition on_data (seq : Z) (addr : address) : M Sys unit :=
  let* c := conn_item addr in
  if negb (conn_state_eqb (state c) ESTABLISHED) then ret tt
  else
    count_client_sent ;;;
    let* c := conn_item addr in
    let expected_seq_ := expected_seq c in
    let* r := random_random in
    let* rate := attr drop_rate in
    if Qltb r rate then count_client_dropped
    else
      (if seq =? expected_seq_ then
         let* c := conn_item addr in
         conn_set addr {| state := state c; expected_seq := expected_seq c + 1;
                          my_seq := my_seq c |}
       else ret tt) ;;;
      let* server_time := now_strftime in
      let* c := conn_item addr in
      let* ack_pkt := build_header 4 0 (expected_seq c) 400 (len server_time) in
      sendto (ack_pkt ++ server_time) addr ;;;
      count_server_sent.

(** [handle_client], the branch of a FIN. *)
Definition on_fin (seq : Z) (addr : address) : M Sys unit :=
  let* fin_ack := build_header 5 0 (seq + 1) 400 0 in
  sendto fin_ack addr ;;;
  count_server_sent ;;;
  conn_del addr.

(** [handle_client] *)
Definition handle_client (data : bytes) (addr : address) : M Sys unit :=
  let header := slice_to data 8 in
  let payload := slice_from data 8 in
  let* (ptype, seq, ack, window, length) := parse_header header in
  let* k := known addr in
  when (negb k)
    (conn_set addr {| state := CLOSED; expected_seq := 0; my_seq := 0 |}) ;;;
  let* k := known addr in
  if ptype =? 1 then on_syn seq addr
  else if (ptype =? 4) && k then on_ack addr
  else if (ptype =? 3) && k then on_data seq addr
  else if (ptype =? 5) && k then on_fin seq addr
  else ret tt.

(** [start]: every datagram received is handed to [handle_client] in a
    thread of its own, and an exception raised there ends that thread only.
    The handlers are run here one after the other, in the order of arrival,
    each to its end. *)
Fixpoint start (arrivals : list (bytes * address)) (s : Sys) : Sys :=
  match arrivals with
  | [] => s
  | (data, addr) :: rest => start rest (exec (handle_client (slice_to data 1024) addr) s)
  end.

End Server.

(* ------------------------------------------------------------------ *)
(** ** Vocabulary of the statements                                     *)
(* ------------------------------------------------------------------ *)

(** The socket delivers nothing: every wait ends by the time-out. *)
Definition silent (inbox : list (option bytes)) : Prop :=
  Forall (fun ev => ev = None) inbox.

(** The state after a pass of [connect] that sent [syn] and whose wait
    consumed the first entry of the inbox. *)
Definition after_pass (syn : bytes) (c' : Client.UDPClient) (s : Client.Sys) : Client.Sys :=
  {| Client.self := c';
     Client.env :=
       {| Client.time_src := Client.time_src (Client.env s);
          Client.time_ix := Client.time_ix (Client.env s);
          Client.rand_src := Client.rand_src (Client.env s);
          Client.rand_ix := Client.rand_ix (Client.env s);
          Client.inbox := tl (Client.inbox (Client.env s));
          Client.wire := Client.wire (Client.env s) ++
            [Client.Sendto syn (Client.server_addr (Client.self s));
             Client.Settimeout (Client.timeout (Client.self s))] |} |}.

(** The state after the draw of [my_seq]. *)
Definition after_draw (s : Client.Sys) : Client.Sys :=
  {| Client.self := Client.self s;
     Client.env :=
       {| Client.time_src := Client.time_src (Client.env s);
          Client.time_ix := Client.time_ix (Client.env s);
          Client.rand_src := Client.rand_src (Client.env s);
          Client.rand_ix := S (Client.rand_ix (Client.env s));
          Client.inbox := Client.inbox (Client.env s);
          Client.wire := Client.wire (Client.env s) |} |}.

(** An environment in which the responder is silent. *)
Definition quiet_env : Client.Env :=
  {| Client.time_src := fun n => inject_Z (Z.of_nat n);
     Client.time_ix := 0;
     Client.rand_src := fun _ => 7;
     Client.rand_ix := 0;
     Client.inbox := [None; None];
     Client.wire := [] |}.

(** Two replies to a SYN of sequence number 7: a SYN_ACK whose ack field is
    99, and the SYN_ACK whose ack field is 8; both carry the sequence
    number 100 and the window 400. *)
Definition stray_syn_ack : bytes := [x2f; x00; x64; x00; x63; x01; x90; x00]%byte.
Definition valid_syn_ack : bytes := [x2f; x00; x64; x00; x08; x01; x90; x00]%byte.

(** The SYN of sequence number 7 and the ACK that ends its handshake. *)
Definition syn_7 : bytes := [x1f; x00; x07; x00; x00; x01; x90; x00]%byte.
Definition ack_8 : bytes := [x4f; x00; x08; x00; x65; x01; x90; x00]%byte.

(** An environment in which a stray reply comes before the valid one. *)
Definition stray_env : Client.Env :=
  {| Client.time_src := fun n => inject_Z (Z.of_nat n);
     Client.time_ix := 0;
     Client.rand_src := fun _ => 7;
     Client.rand_ix := 0;
     Client.inbox := [Some stray_syn_ack; Some valid_syn_ack];
     Client.wire := [] |}.

(** The environment after [n] more readings of the clock. *)
Definition tick (n : nat) (e : Client.Env) : Client.Env :=
  {| Client.time_src := Client.time_src e;
     Client.time_ix := (n + Client.time_ix e)%nat;
     Client.rand_src := Client.rand_src e;
     Client.rand_ix := Client.rand_ix e;
     Client.inbox := Client.inbox e;
     Client.wire := Client.wire e |}.

(** The state after the [for] loop of [receive_ack]: a new buffer, samples
    added to [rtt_list], a new window usage, and [n] readings of the clock. *)
Definition acked_form (buf : list (Z * Client.packet_info)) (rtts : list Q)
    (usage : Z) (n : nat) (s : Client.Sys) : Client.Sys :=
  {| Client.self :=
       Client.set_current_window_usage usage
         (Client.set_buffer buf (Client.set_rtt_list rtts (Client.self s)));
     Client.env := tick n (Client.env s) |}.

(** The state after the [while] loop of [receive_ack]: entries evicted and
    [base] moved. *)
Definition slid_form (buf : list (Z * Client.packet_info)) (b : Z)
    (s : Client.Sys) : Client.Sys :=
  {| Client.self := Client.set_base b (Client.set_buffer buf (Client.self s));
     Client.env := Client.env s |}.

(** The RTT that [receive_ack] records for an entry of the buffer when the
    clock reads [now]. *)
Definition rtt_of (now : Q) (info : Client.packet_info) : Q :=
  ((now - Client.send_time info) * 1000)%Q.

(** The ten most recent samples of a list of samples. *)
Definition last_ten (rl : list Q) : list Q := skipn (List.length rl - 10) rl.

(** The state after [adjust_timeout] when it assigns [t]. *)
Definition adjusted_form (t : Q) (s : Client.Sys) : Client.Sys :=
  {| Client.self := Client.set_timeout t (Client.self s); Client.env := Client.env s |}.

(** The state of [receive_ack] once [recvfrom] has returned: the time-out of
    the socket was set to 0.1 and the first entry of the inbox is consumed. *)
Definition received (s : Client.Sys) : Client.Sys :=
  {| Client.self := Client.self s;
     Client.env :=
       {| Client.time_src := Client.time_src (Client.env s);
          Client.time_ix := Client.time_ix (Client.env s);
          Client.rand_src := Client.rand_src (Client.env s);
          Client.rand_ix := Client.rand_ix (Client.env s);
          Client.inbox := tl (Client.inbox (Client.env s));
          Client.wire := Client.wire (Client.env s) ++ [Client.Settimeout 0.1] |} |}.

(** The state after [stop_timer(); start_timer()]. *)
Definition restarted (s : Client.Sys) : Client.Sys :=
  {| Client.self :=
       Client.set_timer_running true
         (Client.set_timer_start
            (Client.time_src (Client.env s) (Client.time_ix (Client.env s)))
            (Client.self s));
     Client.env := tick 1 (Client.env s) |}.

(** [process_ack ack], step by step, from the state [s]. *)
Definition after_ack_loop (ack : Z) (s : Client.Sys) : Client.Sys :=
  exec (Client.ack_loop ack (Dict.keys (Client.buffer (Client.self s)))) s.

Definition after_slide (ack : Z) (s : Client.Sys) : Client.Sys :=
  exec (Client.slide_loop (List.length (Client.buffer (Client.self (after_ack_loop ack s)))))
       (after_ack_loop ack s).

Definition after_timer (ack : Z) (s : Client.Sys) : Client.Sys :=
  if negb (Client.base (Client.self s) =? Client.base (Client.self (after_slide ack s)))
     && Client.nonempty (Client.buffer (Client.self (after_slide ack s)))
  then restarted (after_slide ack s)
  else after_slide ack s.

(** A clock that advances by one millisecond at every reading, and a
    random generator that always draws the least value. *)
Definition demo_env (inb : list (option bytes)) : Client.Env :=
  {| Client.time_src := fun n => (inject_Z (Z.of_nat n) / 1000)%Q;
     Client.time_ix := 0;
     Client.rand_src := fun _ => 0;
     Client.rand_ix := 0;
     Client.inbox := inb;
     Client.wire := [] |}.

(** ACK datagrams whose ack fields are 1, 10 and 11. *)
Definition ack_1 : bytes := [x4f; x00; x00; x00; x01; x01; x90; x00]%byte.
Definition ack_10 : bytes := [x4f; x00; x00; x00; x0a; x01; x90; x00]%byte.
Definition ack_11 : bytes := [x4f; x00; x00; x00; x0b; x01; x90; x00]%byte.

(** A new initiator with 30 packets to send, and what its socket will
    deliver. *)
Definition demo (inb : list (option bytes)) : Client.Sys :=
  {| Client.self := Client.init "10.0.0.1" 8080 30; Client.env := demo_env inb |}.

(** The initiator after the first call of [send_window_packets]: ten
    packets of 40 bytes fill the window. *)
Definition filled (inb : list (option bytes)) : Client.Sys :=
  exec Client.send_window_packets (demo inb).

(** The ten samples of the example, in milliseconds. *)
Definition ten_samples : list Q := [10; 12; 11; 13; 9; 15; 14; 8; 16; 17]%Q.

(** An initiator that has recorded the ten samples. *)
Definition sampled : Client.Sys :=
  {| Client.self := Client.set_rtt_list ten_samples (Client.init "10.0.0.1" 8080 30);
     Client.env := demo_env [] |}.

(** The value that the next call of [random.random()] returns. *)
Definition next_draw (s : Server.Sys) : Q :=
  let x := Server.unif_src (Server.env s) (Server.unif_ix (Server.env s)) in
  (x - inject_Z (Qfloor x))%Q.

(** [expected_seq] after a DATA packet of sequence number [seq] that is not
    dropped. *)
Definition next_expected (seq : Z) (c : Server.connection) : Z :=
  if seq =? Server.expected_seq c then Server.expected_seq c + 1
  else Server.expected_seq c.

(** A responder that drops nothing, with a peer in a given state. *)
Definition peer : address := ("10.0.0.2"%string, 5000).

Definition server_env : Server.Env :=
  {| Server.rand_src := fun _ => 100;
     Server.rand_ix := 0;
     Server.unif_src := fun _ => 0.5%Q;
     Server.unif_ix := 0;
     Server.clock_src := fun _ => 45296000123;
     Server.clock_ix := 0;
     Server.wire := [] |}.

Definition fresh_server : Server.Sys :=
  {| Server.self := Server.init 0; Server.env := server_env |}.

Definition established (expected : Z) : Server.Sys :=
  {| Server.self :=
       Server.set_connections
         {[ peer := {| Server.state := Server.ESTABLISHED;
                       Server.expected_seq := expected;
                       Server.my_seq := 100 |} ]}
         (Server.init 0);
     Server.env := server_env |}.

(** Datagrams of a peer: a SYN of sequence number 7, the ACK of the
    handshake, DATA packets of sequence numbers 1, 2 and 65535 with no
    payload, and a datagram of two bytes. *)
Definition syn_dgram : bytes := [x1f; x00; x07; x00; x00; x01; x90; x00]%byte.
Definition ack_dgram : bytes := [x4f; x00; x08; x00; x65; x01; x90; x00]%byte.
Definition data_1 : bytes := [x3f; x00; x01; x00; x00; x01; x90; x00]%byte.
Definition data_2 : bytes := [x3f; x00; x02; x00; x00; x01; x90; x00]%byte.
Definition data_65535 : bytes := [x3f; xff; xff; x00; x00; x01; x90; x00]%byte.
Definition short_dgram : bytes := [x1f; x00]%byte.

(** [a] has sent a datagram that holds a full header. *)
Definition header_from (arrivals : list (bytes * address)) (a : address) : Prop :=
  exists d, In (d, a) arrivals /\ 8 <= len d.

(** [a] has sent a SYN. *)
Definition syn_from (arrivals : list (bytes * address)) (a : address) : Prop :=
  exists d sq ak w l,
    In (d, a) arrivals /\ Codec.parse_header d = Return (1, sq, ak, w, l).

(** What a datagram of [addr] that is not a SYN can do to the table of
    connections: the records of the other addresses stay, and the record of
    [addr] is out of the state CLOSED afterwards only if it was before. *)
Definition conn_step (addr : address) (cs cs' : gmap address Server.connection) : Prop :=
  (forall a, a <> addr -> cs' !! a = cs !! a) /\
  (forall c', cs' !! addr = Some c' -> Server.state c' <> Server.CLOSED ->
     exists c, cs !! addr = Some c /\ Server.state c <> Server.CLOSED).

(** The table of connections of a state. *)
Definition table (s : Server.Sys) : gmap address Server.connection :=
  Server.connections (Server.self s).

(** Every address of the table has sent a datagram that holds a full
    header, and every address whose record is out of the state CLOSED has
    sent a SYN. *)
Definition accounted (arrivals : list (bytes * address)) (s : Server.Sys) : Prop :=
  forall a c,
    table s !! a = Some c ->
    header_from arrivals a /\
    (Server.state c <> Server.CLOSED -> syn_from arrivals a).

(** The record that [handle_client] creates for an address it does not
    know. *)
Definition closed_record : Server.connection :=
  {| Server.state := Server.CLOSED; Server.expected_seq := 0; Server.my_seq := 0 |}.

(** A FIN of sequence number 30 and a CONFIG packet, as datagrams. *)
Definition fin_dgram : bytes := [x5f; x00; x1e; x00; x00; x01; x90; x00]%byte.
Definition config_dgram : bytes := [x6f; x00; x00; x00; x00; x01; x90; x01; x1e]%byte.

(** What bounds the number of passes that [connect] can still make. *)
Definition connect_measure (retries : Z) (s : Client.Sys) : nat :=
  (List.length (Client.inbox (Client.env s)) + Z.to_nat (5 - retries))%nat.

(** The test of the [while] of [send_window_packets]. *)
Definition window_open (s : Client.Sys) : bool :=
  (Client.next_seq (Client.self s) <? Client.target_packets (Client.self s))
  && (Client.current_window_usage (Client.self s)
      <? Client.window_size_bytes (Client.self s)).

(** The DATA packet of sequence number [n], with no payload. *)
Definition data_dgram (n : Z) : bytes :=
  match Codec.build_header 3 n 0 400 0 with
  | Return hdr => hdr
  | Raise _ => []
  end.

(** The DATA packets of sequence numbers [from], [from + 1], ..., [count] of
    them, sent by the peer in this order. *)
Definition in_order (from count : nat) : list (bytes * address) :=
  map (fun k => (data_dgram (Z.of_nat k), peer)) (seq from count).

(** The responder after the handshake of the peer and 65535 DATA packets
    received in order. *)
Definition worn : Server.Sys :=
  Server.start
    ((syn_dgram, peer) :: (ack_dgram, peer) :: in_order 0 (Z.to_nat 65535))
    fresh_server.

(** The peer is ESTABLISHED and expects [n]; the responder drops nothing. *)
Definition expecting (n : Z) (s : Server.Sys) : Prop :=
  (exists c, table s !! peer = Some c /\ Server.state c = Server.ESTABLISHED /\
             Server.expected_seq c = n) /\
  Server.drop_rate (Server.self s) = 0%Q /\
  Server.unif_src (Server.env s) = (fun _ => 0.5%Q).

(* ------------------------------------------------------------------ *)
(** ** Tactics                                                          *)
(* ------------------------------------------------------------------ *)

(** Unfolding of the monad, of the primitives of the two classes, and
    reduction of the projections of the state of the responder. *)
Ltac unfold_m :=
  unfold bind, ret, raise, gets, modify, lift, when, try_except, exec, result in *.

Ltac unfold_client :=
  unfold Client.attr, Client.on_self, Client.on_env, Client.sendto,
    Client.settimeout, Client.emit, Client.recvfrom, Client.time_time,
    Client.randint, Client.build_header, Client.parse_header,
    Client.buffer_item, Client.buffer_set, Client.start_timer,
    Client.stop_timer in *.

Ltac unfold_server :=
  unfold Server.on_data, Server.on_syn, Server.on_ack, Server.on_fin,
    Server.conn_del, Server.conn_item, Server.conn_set, Server.known,
    Server.count_client_sent, Server.count_client_dropped,
    Server.count_server_sent, Server.random_random, Server.randint,
    Server.now_strftime, Server.sendto, Server.build_header,
    Server.parse_header, Server.attr, Server.on_self, Server.on_env in *.

Ltac server_simpl :=
  cbn [Server.self Server.env Server.connections Server.drop_rate Server.stats
       Server.set_connections Server.set_stats Server.rand_src Server.rand_ix
       Server.unif_src Server.unif_ix Server.clock_src Server.clock_ix
       Server.wire Server.state Server.expected_seq Server.my_seq
       Server.conn_state_eqb negb fst snd] in *.

(** The bounds of the window state: [base] is at most [next_seq], the usage
    is at most the size of the window, and every entry of the buffer has a
    sequence number below [next_seq] and releases no negative number of
    bytes. *)
Definition entries_ok (c : Client.UDPClient) : Prop :=
  forall k info,
    In (k, info) (Client.buffer c) ->
    k < Client.next_seq c /\ Client.start info <= Client.end_ info + 1.

Definition window_ok (s : Client.Sys) : Prop :=
  0 <= Client.base (Client.self s) <= Client.next_seq (Client.self s) /\
  Client.current_window_usage (Client.self s) <= Client.window_size_bytes (Client.self s) /\
  entries_ok (Client.self s).

(** The packet sizes are ordered and the data is long enough for the
    packets that remain to be sent. *)
Definition supply_ok (s : Client.Sys) : Prop :=
  0 <= Client.min_packet_size (Client.self s) <= Client.max_packet_size (Client.self s) /\
  (Client.target_packets (Client.self s) - 1) * Client.min_packet_size (Client.self s)
    <= len (Client.data (Client.self s)) + 1.

(** The five fields of a header are in the ranges that the format
    ['!BHHHB'] and the 4 bits of the type accept. *)
Definition fields_in_range (ptype seq ack window length : Z) : bool :=
  (0 <=? ptype) && (ptype <=? 15) && (0 <=? seq) && (seq <=? 65535)
  && (0 <=? ack) && (ack <=? 65535) && (0 <=? window) && (window <=? 65535)
  && (0 <=? length) && (length <=? 255).

(** The eight bytes that encode a header. *)
Definition header_bytes (ptype seq ack window length : Z) : bytes :=
  [byte_of_Z (Codec.first_byte ptype 15);
   byte_of_Z (Z.shiftr seq 8); byte_of_Z (Z.land seq 255);
   byte_of_Z (Z.shiftr ack 8); byte_of_Z (Z.land ack 255);
   byte_of_Z (Z.shiftr window 8); byte_of_Z (Z.land window 255);
   byte_of_Z length].

(** A byte with its four low bits set. *)
Definition reserve (b : Byte.byte) : Byte.byte := byte_of_Z (Z.lor (byte_to_Z b) 15).

(** The state in which [handle_client] looks at the type of a datagram of
    [addr]: an address without a record has got one. *)
Definition with_record (addr : address) (s : Server.Sys) : Server.Sys :=
  match table s !! addr with
  | Some _ => s
  | None =>
      {| Server.self :=
           Server.set_connections (<[addr := closed_record]> (table s)) (Server.self s);
         Server.env := Server.env s |}
  end.

(** What handling one datagram does to the counters: [sent] datagrams are
    sent, 0 or 1, and counted as sent to the client; a DATA packet counted
    as dropped is counted as received; the drop rate does not change. *)
Definition tally (s s' : Server.Sys) : Prop :=
  let sent := len (Server.wire (Server.env s')) - len (Server.wire (Server.env s)) in
  0 <= sent <= 1 /\
  Server.server_to_client_sent (Server.stats (Server.self s')) =
    Server.server_to_client_sent (Server.stats (Server.self s)) + sent /\
  0 <= Server.client_to_server_dropped (Server.stats (Server.self s'))
       - Server.client_to_server_dropped (Server.stats (Server.self s))
    <= Server.client_to_server_sent (Server.stats (Server.self s'))
       - Server.client_to_server_sent (Server.stats (Server.self s)) /\
  Server.client_to_server_sent (Server.stats (Server.self s'))
    - Server.client_to_server_sent (Server.stats (Server.self s)) <= 1 /\
  Server.drop_rate (Server.self s') = Server.drop_rate (Server.self s).

(** The sequence number that the responder draws for itself on a SYN. *)
Definition drawn_seq (s : Server.Sys) : Z :=
  0 + Server.rand_src (Server.env s) (Server.rand_ix (Server.env s)) mod (65535 - 0 + 1).

(** [int(self.drop_rate * 100)], the byte that the CONFIG packet carries;
    -1 stands for a product that is not finite, of which [int] raises. *)
Definition rate_percent (s : Server.Sys) : Z :=
  match int_of_float (float_mul (Server.drop_rate (Server.self s)) 100) with
  | Return percent => percent
  | Raise _ => -1
  end.

(** The floats [0.3], the default drop rate, and [0.29]: their exact
    values. *)
Definition float_0_3 : Q := 5404319552844595 # 18014398509481984.
Definition float_0_29 : Q := 5224175567749775 # 18014398509481984.

(** A responder with the default drop rate. *)
Definition default_server : Server.Sys :=
  {| Server.self := Server.init float_0_3; Server.env := server_env |}.

(** A responder that drops everything, with the peer ESTABLISHED. *)
Definition dropping : Server.Sys :=
  {| Server.self :=
       Server.set_connections
         {[ peer := {| Server.state := Server.ESTABLISHED;
                       Server.expected_seq := 1;
                       Server.my_seq := 100 |} ]}
         (Server.init 1);
     Server.env := server_env |}.

(** Another address. *)
Definition stranger : address := ("10.0.0.3"%string, 6000).

(** The sequence number that [connect] draws. *)
Definition initial_seq (s : Client.Sys) : Z :=
  0 + Client.rand_src (Client.env s) (Client.rand_ix (Client.env s)) mod (65535 - 0 + 1).

(** An environment whose generator draws 65535, and in which a SYN_ACK
    arrives (it acknowledges 0). *)
Definition unlucky_env : Client.Env :=
  {| Client.time_src := fun n => inject_Z (Z.of_nat n);
     Client.time_ix := 0;
     Client.rand_src := fun _ => 65535;
     Client.rand_ix := 0;
     Client.inbox := [Some [x2f; x00; x64; x00; x00; x01; x90; x00]%byte];
     Client.wire := [] |}.

(** An environment in which a datagram of two bytes arrives. *)
Definition runt_env : Client.Env :=
  {| Client.time_src := fun n => inject_Z (Z.of_nat n);
     Client.time_ix := 0;
     Client.rand_src := fun _ => 7;
     Client.rand_ix := 0;
     Client.inbox := [Some short_dgram];
     Client.wire := [] |}.

(** An environment in which the valid SYN_ACK arrives at once. *)
Definition prompt_env : Client.Env :=
  {| Client.time_src := fun n => inject_Z (Z.of_nat n);
     Client.time_ix := 0;
     Client.rand_src := fun _ => 7;
     Client.rand_ix := 0;
     Client.inbox := [Some valid_syn_ack];
     Client.wire := [] |}.

(** The number of datagrams among the system calls [w]. *)
Fixpoint sendtos (w : list Client.syscall) : Z :=
  match w with
  | [] => 0
  | Client.Sendto _ _ :: rest => 1 + sendtos rest
  | Client.Settimeout _ :: rest => sendtos rest
  end.

(** The attributes that [__init__] sets and that the sending loop only
    reads. *)
Definition same_config (c c' : Client.UDPClient) : Prop :=
  Client.server_addr c' = Client.server_addr c /\
  Client.window_size_bytes c' = Client.window_size_bytes c /\
  Client.min_packet_size c' = Client.min_packet_size c /\
  Client.max_packet_size c' = Client.max_packet_size c /\
  Client.initial_timeout c' = Client.initial_timeout c /\
  Client.target_packets c' = Client.target_packets c /\
  Client.data c' = Client.data c.

(** How the counters of the initiator and the wire move from [s] to [s']:
    [base] and [next_seq] do not go back, [initial_sent] follows
    [next_seq], and [sent_count] grows by the number of datagrams put on
    the wire, which are first transmissions and retransmissions. *)
Definition ledger (s s' : Client.Sys) : Prop :=
  same_config (Client.self s) (Client.self s') /\
  Client.base (Client.self s) <= Client.base (Client.self s') /\
  Client.next_seq (Client.self s) <= Client.next_seq (Client.self s') /\
  Client.initial_sent (Client.self s') - Client.initial_sent (Client.self s) =
    Client.next_seq (Client.self s') - Client.next_seq (Client.self s) /\
  Client.retransmit_count (Client.self s) <= Client.retransmit_count (Client.self s') /\
  exists out,
    Client.wire (Client.env s') = Client.wire (Client.env s) ++ out /\
    sendtos out =
      Client.sent_count (Client.self s') - Client.sent_count (Client.self s) /\
    sendtos out =
      (Client.initial_sent (Client.self s') - Client.initial_sent (Client.self s)) +
      (Client.retransmit_count (Client.self s')
       - Client.retransmit_count (Client.self s)).

(** The first [n] passes of the [while] of [send_data]. *)
Fixpoint send_data_passes (n : nat) : M Client.Sys unit :=
  match n with
  | O => ret tt
  | S n' =>
      let* b := Client.attr Client.base in
      let* tp := Client.attr Client.target_packets in
      if b <? tp then Client.send_data_pass ;;; send_data_passes n' else ret tt
  end.

(** The locals [packet_size] and [chunk] of the pass of the [while] of
    [send_window_packets] that starts in [s]. *)
Definition packet_size (s : Client.Sys) : Z :=
  Z.min
    (Client.min_packet_size (Client.self s) +
     Client.rand_src (Client.env s) (Client.rand_ix (Client.env s))
       mod (Client.max_packet_size (Client.self s)
            - Client.min_packet_size (Client.self s) + 1))
    (Client.window_size_bytes (Client.self s)
     - Client.current_window_usage (Client.self s)).

Definition chunk (s : Client.Sys) : bytes :=
  let start := Client.next_seq (Client.self s) * Client.min_packet_size (Client.self s) in
  slice (Client.data (Client.self s)) start
    (start + Z.min (packet_size s) (len (Client.data (Client.self s)) - start)).

(** The integers [b], [b + 1], ..., [b + n - 1]. *)
Fixpoint Zseq (b : Z) (n : nat) : list Z :=
  match n with
  | O => []
  | S n' => b :: Zseq (b + 1) n'
  end.

(** The buffer holds the packets [base], ..., [next_seq - 1], in this
    order, and none of them is marked as acknowledged. *)
Definition in_flight (s : Client.Sys) : Prop :=
  Client.base (Client.self s) <= Client.next_seq (Client.self s) /\
  Dict.keys (Client.buffer (Client.self s)) =
    Zseq (Client.base (Client.self s))
         (Z.to_nat (Client.next_seq (Client.self s) - Client.base (Client.self s))) /\
  Forall (fun e => Client.acked (snd e) = false) (Client.buffer (Client.self s)).

(** What [receive_ack] takes off the window usage for the entries [es]:
    [end - start + 1] for each. *)
Fixpoint released (es : list (Z * Client.packet_info)) : Z :=
  match es with
  | [] => 0
  | (_, info) :: rest => (Client.end_ info - Client.start info + 1) + released rest
  end.

(** The test of the [for] loop of [receive_ack] on an entry of the buffer,
    and what the loop makes of the entry. *)
Definition marked (ack : Z) (e : Z * Client.packet_info) : bool :=
  (fst e <? ack) && negb (Client.acked (snd e)).

Definition mark (ack : Z) (e : Z * Client.packet_info) : Z * Client.packet_info :=
  if marked ack e then (fst e, Client.set_acked true (snd e)) else e.

(** Nothing is in the buffer and nothing is awaited. *)
Definition blank (s : Client.Sys) : Prop :=
  Client.buffer (Client.self s) = [] /\
  Client.base (Client.self s) = Client.next_seq (Client.self s).

(** The entries [es] once [handle_timeout] has retransmitted them, the
    clock being read at the index [ix] for the first of them: a new
    [send_time] and one more retry for each. *)
Fixpoint resent (t : nat -> Q) (ix : nat) (es : list (Z * Client.packet_info))
    : list (Z * Client.packet_info) :=
  match es with
  | [] => []
  | (k, i) :: rest =>
      (k, Client.set_retries (Client.retries i + 1) (Client.set_send_time (t ix) i))
      :: resent t (S ix) rest
  end.

(** The datagrams that retransmit the entries [es]. *)
Definition resends (addr : address) (es : list (Z * Client.packet_info))
    : list Client.syscall :=
  map (fun e => Client.Sendto (Client.packet (snd e)) addr) es.

(** The state after the [for] loop of [handle_timeout]: a new buffer, [n]
    retransmissions counted, [n] readings of the clock and the datagrams
    [out] on the wire. *)
Definition resent_form (buf : list (Z * Client.packet_info)) (n : nat)
    (out : list Client.syscall) (s : Client.Sys) : Client.Sys :=
  {| Client.self :=
       Client.set_retransmit_count
         (Client.retransmit_count (Client.self s) + Z.of_nat n)
         (Client.set_sent_count (Client.sent_count (Client.self s) + Z.of_nat n)
            (Client.set_buffer buf (Client.self s)));
     Client.env :=
       {| Client.time_src := Client.time_src (Client.env s);
          Client.time_ix := (n + Client.time_ix (Client.env s))%nat;
          Client.rand_src := Client.rand_src (Client.env s);
          Client.rand_ix := Client.rand_ix (Client.env s);
          Client.inbox := Client.inbox (Client.env s);
          Client.wire := Client.wire (Client.env s) ++ out |} |}.

(** The datagram [d] decodes as an ACK whose ack field is positive. *)
Definition positive_ack (d : bytes) : Prop :=
  exists sq ack w l, Codec.parse_header d = Return (4, sq, ack, w, l) /\ 0 < ack.

(** The packet that the buffer of [s] holds for [base], and an initiator
    whose window is full and to which the responder has answered the first
    packet. *)
Definition oldest (s : Client.Sys) : Client.packet_info :=
  match Dict.get (Client.buffer (Client.self s)) (Client.base (Client.self s)) with
  | Some info => info
  | None => {| Client.packet := []; Client.send_time := 0; Client.acked := false;
               Client.start := 0; Client.end_ := 0; Client.retries := 0 |}
  end.

Definition answered : Client.Sys :=
  filled (map (fun p => Some (fst p))
            (Server.wire (Server.env
               (Server.start [(Client.packet (oldest (filled [])), peer)]
                  (established 0))))).

(* ------------------------------------------------------------------ *)
(** ** Facts on bytes and slices                                        *)
(* ------------------------------------------------------------------ *)

Lemma byte_to_of_Z z : 0 <= z < 256 -> byte_to_Z (byte_of_Z z) = z.
Proof.
  intros Hz. unfold byte_to_Z, byte_of_Z.
  destruct (Byte.of_N (Z.to_N z)) as [b|] eqn:E.
  - apply Byte.to_of_N in E. rewrite E. lia.
  - apply Byte.of_N_None_iff in E. lia.
Qed.

Lemma byte_to_Z_range b : 0 <= byte_to_Z b < 256.
Proof.
  unfold byte_to_Z. pose proof (Byte.to_N_bounded b) as H. lia.
Qed.

Lemma len_nonneg {A} (l : list A) : 0 <= len l.
Proof. unfold len. lia. Qed.

Lemma slice_to_short {A} (l : list A) n : len l <= n -> slice_to l n = l.
Proof.
  intros H. pose proof (len_nonneg l) as Hl.
  unfold slice_to, slice, slice_bound.
  replace (0 <? 0) with false by reflexivity.
  destruct (n <? 0) eqn:En; [apply Z.ltb_lt in En; lia|].
  rewrite (Z.min_l 0) by lia. rewrite (Z.min_r n) by lia. cbn [Z.to_nat skipn].
  rewrite Z.sub_0_r. unfold len. rewrite Nat2Z.id. apply firstn_all.
Qed.

Lemma slice_to_length {A} (l : list A) n :
  0 <= n -> len (slice_to l n) = Z.min n (len l).
Proof.
  intros H. pose proof (len_nonneg l) as Hl.
  unfold slice_to, slice, slice_bound.
  replace (0 <? 0) with false by reflexivity.
  destruct (n <? 0) eqn:En; [apply Z.ltb_lt in En; lia|].
  rewrite (Z.min_l 0) by lia. cbn [Z.to_nat skipn]. rewrite Z.sub_0_r.
  change (Z.to_nat 0) with 0%nat. rewrite skipn_O. unfold len in *. rewrite length_firstn. lia.
Qed.

Lemma shift_or_split hi lo :
  0 <= hi -> 0 <= lo < 256 ->
  Z.lor (Z.shiftl hi 8) lo = hi * 256 + lo.
Proof.
  intros Hhi Hlo. rewrite Z.shiftl_mul_pow2 by lia.
  change (2 ^ 8) with 256.
  rewrite <- Z.lxor_lor.
  - rewrite <- Z.add_nocarry_lxor; [reflexivity|].
    apply Z.bits_inj'. intros n Hn. rewrite Z.land_spec, Z.bits_0.
    destruct (Z.lt_ge_cases n 8).
    + replace (hi * 256) with (hi * 2 ^ 8) by reflexivity.
      rewrite Z.mul_pow2_bits_low by lia. reflexivity.
    + rewrite (Z.bits_above_log2 lo n); [apply andb_false_r|lia|].
      destruct (Z.eq_dec lo 0) as [->|]; [simpl; lia|].
      apply Z.log2_lt_pow2; [lia|].
      apply Z.lt_le_trans with (2 ^ 8); [simpl; lia|].
      apply Z.pow_le_mono_r; lia.
  - apply Z.bits_inj'. intros n Hn. rewrite Z.land_spec, Z.bits_0.
    destruct (Z.lt_ge_cases n 8).
    + replace (hi * 256) with (hi * 2 ^ 8) by reflexivity.
      rewrite Z.mul_pow2_bits_low by lia. reflexivity.
    + rewrite (Z.bits_above_log2 lo n); [apply andb_false_r|lia|].
      destruct (Z.eq_dec lo 0) as [->|]; [simpl; lia|].
      apply Z.log2_lt_pow2; [lia|].
      apply Z.lt_le_trans with (2 ^ 8); [simpl; lia|].
      apply Z.pow_le_mono_r; lia.
Qed.

Lemma pack_unpack_H x :
  0 <= x <= 65535 ->
  Z.lor (Z.shiftl (byte_to_Z (byte_of_Z (Z.shiftr x 8))) 8)
        (byte_to_Z (byte_of_Z (Z.land x 255))) = x.
Proof.
  intros Hx.
  rewrite Z.shiftr_div_pow2 by lia. change (2 ^ 8) with 256.
  change 255 with (Z.ones 8). rewrite Z.land_ones by lia.
  change (2 ^ 8) with 256.
  assert (0 <= x / 256 < 256).
  { split; [apply Z.div_pos; lia|apply Z.div_lt_upper_bound; lia]. }
  assert (0 <= x mod 256 < 256) by (apply Z.mod_pos_bound; lia).
  rewrite !byte_to_of_Z by lia.
  rewrite shift_or_split by lia.
  pose proof (Z.div_mod x 256). lia.
Qed.

Lemma first_byte_split ptype reserved :
  0 <= ptype -> 0 <= reserved < 16 ->
  Codec.first_byte ptype reserved = ptype * 16 + reserved.
Proof.
  intros Hp Hr. unfold Codec.first_byte.
  rewrite Z.shiftl_mul_pow2 by lia. change (2 ^ 4) with 16.
  assert (Hland : Z.land (ptype * 16) reserved = 0).
  { apply Z.bits_inj'. intros n Hn. rewrite Z.land_spec, Z.bits_0.
    destruct (Z.lt_ge_cases n 4).
    - replace (ptype * 16) with (ptype * 2 ^ 4) by reflexivity.
      rewrite Z.mul_pow2_bits_low by lia. reflexivity.
    - rewrite (Z.bits_above_log2 reserved n); [apply andb_false_r|lia|].
      destruct (Z.eq_dec reserved 0) as [->|]; [simpl; lia|].
      apply Z.log2_lt_pow2; [lia|].
      apply Z.lt_le_trans with (2 ^ 4); [simpl; lia|].
      apply Z.pow_le_mono_r; lia. }
  rewrite <- Z.lxor_lor by exact Hland.
  rewrite <- Z.add_nocarry_lxor by exact Hland. reflexivity.
Qed.

Lemma first_byte_type ptype reserved :
  0 <= ptype -> 0 <= reserved < 16 ->
  Z.shiftr (Codec.first_byte ptype reserved) 4 = ptype.
Proof.
  intros Hp Hr. rewrite first_byte_split by lia.
  rewrite Z.shiftr_div_pow2 by lia. change (2 ^ 4) with 16.
  rewrite Z.div_add_l by lia. rewrite Z.div_small by lia. lia.
Qed.

(* ------------------------------------------------------------------ *)
(** ** The header codec: round trip                                     *)
(* ------------------------------------------------------------------ *)

Lemma build_header_ok ptype seq ack window length :
  0 <= ptype <= 15 -> 0 <= seq <= 65535 -> 0 <= ack <= 65535 ->
  0 <= window <= 65535 -> 0 <= length <= 255 ->
  Codec.build_header ptype seq ack window length =
  Return [byte_of_Z (Codec.first_byte ptype 15);
          byte_of_Z (Z.shiftr seq 8); byte_of_Z (Z.land seq 255);
          byte_of_Z (Z.shiftr ack 8); byte_of_Z (Z.land ack 255);
          byte_of_Z (Z.shiftr window 8); byte_of_Z (Z.land window 255);
          byte_of_Z length].
Proof.
  intros Hp Hs Ha Hw Hl.
  unfold Codec.build_header, Codec.pack_BHHHB, Codec.pack_B, Codec.pack_H.
  fold (Codec.first_byte ptype 15).
  rewrite (first_byte_split ptype 15) by lia.
  repeat match goal with
  | |- context [(0 <=? ?x) && (?x <=? ?m)] =>
      replace ((0 <=? x) && (x <=? m)) with true
        by (symmetry; apply andb_true_iff; split; apply Z.leb_le; lia)
  end.
  reflexivity.
Qed.

Lemma parse_built ptype seq ack window length hdr :
  0 <= ptype <= 15 -> 0 <= seq <= 65535 -> 0 <= ack <= 65535 ->
  0 <= window <= 65535 -> 0 <= length <= 255 ->
  Codec.build_header ptype seq ack window length = Return hdr ->
  len hdr = 8 /\
  Codec.parse_header hdr = Return (ptype, seq, ack, window, length).
Proof.
  intros Hp Hs Ha Hw Hl Hb.
  rewrite build_header_ok in Hb by assumption. injection Hb as <-.
  split; [reflexivity|].
  unfold Codec.parse_header. rewrite slice_to_short by (unfold len; simpl; lia).
  unfold Codec.unpack_BHHHB.
  rewrite !pack_unpack_H by assumption.
  rewrite (first_byte_split ptype 15) by lia.
  rewrite !byte_to_of_Z by lia.
  rewrite <- (first_byte_split ptype 15) by lia.
  rewrite first_byte_type by lia. reflexivity.
Qed.

(** C1. Decoding the 8-byte encoding of a header whose fields are in range
    gives the five fields back; the type is recovered by the shift alone,
    whatever the reserved low nibble of the first byte holds. *)
Theorem header_roundtrip ptype seq ack window length :
  0 <= ptype <= 15 -> 0 <= seq <= 65535 -> 0 <= ack <= 65535 ->
  0 <= window <= 65535 -> 0 <= length <= 255 ->
  (exists hdr,
      Codec.build_header ptype seq ack window length = Return hdr /\
      len hdr = 8 /\
      Codec.parse_header hdr = Return (ptype, seq, ack, window, length)) /\
  (forall reserved rest,
      0 <= reserved <= 15 ->
      Codec.parse_header
        (byte_of_Z (Codec.first_byte ptype reserved) :: rest) =
      match Codec.parse_header (byte_of_Z (Codec.first_byte ptype 15) :: rest) with
      | Return (_, s, a, w, l) => Return (ptype, s, a, w, l)
      | Raise e => Raise e
      end).
Proof.
  intros Hp Hs Ha Hw Hl. split.
  - eexists. split; [apply build_header_ok; assumption|].
    eapply parse_built; try eassumption. apply build_header_ok; assumption.
  - intros reserved rest Hr.
    assert (Hfb : forall r, 0 <= r <= 15 ->
              Z.shiftr (byte_to_Z (byte_of_Z (Codec.first_byte ptype r))) 4 = ptype).
    { intros r Hr'. rewrite byte_to_of_Z.
      - apply first_byte_type; lia.
      - rewrite first_byte_split by lia. lia. }
    unfold Codec.parse_header.
    assert (Hsl : forall (b : Byte.byte), slice_to (b :: rest) 8 = b :: slice_to rest 7).
    { intros b. unfold slice_to, slice, slice_bound.
      replace (0 <? 0) with false by reflexivity.
      replace (8 <? 0) with false by reflexivity.
      replace (7 <? 0) with false by reflexivity.
      pose proof (len_nonneg rest) as Hl0.
      rewrite !(Z.min_l 0) by (unfold len in *; simpl; lia).
      cbn [Z.to_nat skipn]. rewrite !Z.sub_0_r.
      assert (len (b :: rest) = len rest + 1) as -> by (unfold len; simpl; lia).
      destruct (Z.le_gt_cases 7 (len rest)).
      - rewrite !Z.min_l by lia. reflexivity.
      - rewrite !Z.min_r by lia.
        replace (Z.to_nat (len rest + 1)) with (S (Z.to_nat (len rest))) by lia.
        reflexivity. }
    rewrite !Hsl.
    destruct (slice_to rest 7) as [|s1 [|s0 [|a1 [|a0 [|w1 [|w0 [|l0 [|x t]]]]]]]];
      cbn [Codec.unpack_BHHHB]; try reflexivity.
    rewrite !Hfb by lia. reflexivity.
Qed.

Lemma header_roundtrip_witness :
  (exists hdr,
      Codec.build_header 3 258 0 400 40 = Return hdr /\
      len hdr = 8 /\
      Codec.parse_header hdr = Return (3, 258, 0, 400, 40)) /\
  (forall reserved rest,
      0 <= reserved <= 15 ->
      Codec.parse_header
        (byte_of_Z (Codec.first_byte 3 reserved) :: rest) =
      match Codec.parse_header (byte_of_Z (Codec.first_byte 3 15) :: rest) with
      | Return (_, s, a, w, l) => Return (3, s, a, w, l)
      | Raise e => Raise e
      end).
Proof. apply (header_roundtrip 3 258 0 400 40); lia. Defined.

(* ------------------------------------------------------------------ *)
(** ** The handshake of the initiator                                   *)
(* ------------------------------------------------------------------ *)

Lemma silent_tail inbox : silent inbox -> silent (tl inbox).
Proof. intros H. destruct H; [constructor|assumption]. Qed.

Lemma connect_pass_silent my_seq retries s syn :
  Codec.build_header 1 my_seq 0 (Client.window_size_bytes (Client.self s)) 0 = Return syn ->
  silent (Client.inbox (Client.env s)) ->
  Client.connect_pass my_seq retries s =
  (Return (Client.Continue (retries + 1)),
   after_pass syn
     (Client.set_timeout (Client.timeout (Client.self s) * 2)%Q (Client.self s)) s).
Proof.
  intros Hsyn Hsil. unfold Client.connect_pass.
  unfold_client. unfold_m. cbn. rewrite Hsyn. cbn.
  destruct (Client.inbox (Client.env s)) as [|ev rest] eqn:E; cbn.
  - unfold after_pass. rewrite E, <- app_assoc. reflexivity.
  - inversion Hsil as [|? ? Hev Hrest]; subst. cbn.
    unfold after_pass. rewrite E, <- app_assoc. reflexivity.
Qed.

Lemma connect_loop_silent fuel my_seq retries s syn :
  retries < 5 ->
  Codec.build_header 1 my_seq 0 (Client.window_size_bytes (Client.self s)) 0 = Return syn ->
  silent (Client.inbox (Client.env s)) ->
  Client.connect_loop (S fuel) my_seq retries s =
  Client.connect_loop fuel my_seq (retries + 1)
    (after_pass syn
       (Client.set_timeout (Client.timeout (Client.self s) * 2)%Q (Client.self s)) s).
Proof.
  intros Hr Hsyn Hsil. cbn [Client.connect_loop].
  unfold Client.max_retries.
  replace (retries <? 5) with true by (symmetry; apply Z.ltb_lt; assumption).
  unfold bind at 1. rewrite (connect_pass_silent _ _ _ syn) by assumption.
  reflexivity.
Qed.

Lemma connect_loop_exhausted fuel my_seq s :
  Client.connect_loop fuel my_seq 5 s = (Return false, s).
Proof. destruct fuel; reflexivity. Qed.

Lemma connect_unfold s :
  Client.connect s =
  Client.connect_loop (List.length (Client.inbox (Client.env s)) + 5)
    (0 + Client.rand_src (Client.env s) (Client.rand_ix (Client.env s))
           mod (65535 - 0 + 1))
    0 (after_draw s).
Proof. reflexivity. Qed.

(** C4. Against a responder that never replies, [connect] sends the SYN
    five times, waits 0.3, 0.6, 1.2, 2.4 and 4.8 seconds for the reply, and
    returns [False]. *)
Theorem handshake_retry_bound ip port target e :
  silent (Client.inbox e) ->
  let s := {| Client.self := Client.init ip port target; Client.env := e |} in
  let my_seq := 0 + Client.rand_src e (Client.rand_ix e) mod (65535 - 0 + 1) in
  exists syn,
    Codec.build_header 1 my_seq 0 400 0 = Return syn /\
    result Client.connect s = Return false /\
    Client.wire (Client.env (exec Client.connect s)) =
      Client.wire e ++
      [Client.Sendto syn (ip, port); Client.Settimeout 0.3;
       Client.Sendto syn (ip, port); Client.Settimeout 0.6;
       Client.Sendto syn (ip, port); Client.Settimeout 1.2;
       Client.Sendto syn (ip, port); Client.Settimeout 2.4;
       Client.Sendto syn (ip, port); Client.Settimeout 4.8].
Proof.
  intros Hsil s my_seq.
  assert (Hrange : 0 <= my_seq <= 65535).
  { unfold my_seq. pose proof (Z.mod_pos_bound (Client.rand_src e (Client.rand_ix e)) 65536).
    change (65535 - 0 + 1) with 65536. lia. }
  pose proof (build_header_ok 1 my_seq 0 400 0) as Hsyn.
  specialize (Hsyn ltac:(lia) Hrange ltac:(lia) ltac:(lia) ltac:(lia)).
  eexists. split; [exact Hsyn|].
  set (syn := [byte_of_Z (Codec.first_byte 1 15); _; _; _; _; _; _; _]) in *.
  assert (Hrun : exists sf,
    Client.connect s = (Return false, sf) /\
    Client.wire (Client.env sf) =
      Client.wire e ++
      [Client.Sendto syn (ip, port); Client.Settimeout 0.3;
       Client.Sendto syn (ip, port); Client.Settimeout 0.6;
       Client.Sendto syn (ip, port); Client.Settimeout 1.2;
       Client.Sendto syn (ip, port); Client.Settimeout 2.4;
       Client.Sendto syn (ip, port); Client.Settimeout 4.8]).
  { rewrite connect_unfold. fold my_seq. unfold after_draw.
    cbn [Client.env Client.self Client.inbox s].
    rewrite Nat.add_comm. cbn [Nat.add].
    rewrite (connect_loop_silent _ _ _ _ syn); [|lia|exact Hsyn|exact Hsil].
    rewrite (connect_loop_silent _ _ _ _ syn);
      [|lia|exact Hsyn|cbn; auto using silent_tail].
    rewrite (connect_loop_silent _ _ _ _ syn);
      [|lia|exact Hsyn|cbn; auto using silent_tail].
    rewrite (connect_loop_silent _ _ _ _ syn);
      [|lia|exact Hsyn|cbn; auto using silent_tail].
    rewrite (connect_loop_silent _ _ _ _ syn);
      [|lia|exact Hsyn|cbn; auto using silent_tail].
    change (0 + 1 + 1 + 1 + 1 + 1) with 5. rewrite connect_loop_exhausted.
    eexists. split; [reflexivity|]. cbn. rewrite <- !app_assoc. reflexivity. }
  destruct Hrun as (sf & Hrun & Hwire).
  unfold result, exec. rewrite Hrun. split; [reflexivity|exact Hwire].
Qed.

Lemma handshake_retry_bound_witness :
  silent (Client.inbox quiet_env) /\
  exists syn,
    Codec.build_header 1 7 0 400 0 = Return syn /\
    result Client.connect
      {| Client.self := Client.init "10.0.0.1" 8080 30; Client.env := quiet_env |} =
      Return false /\
    Client.wire (Client.env (exec Client.connect
      {| Client.self := Client.init "10.0.0.1" 8080 30; Client.env := quiet_env |})) =
      [Client.Sendto syn ("10.0.0.1", 8080); Client.Settimeout 0.3;
       Client.Sendto syn ("10.0.0.1", 8080); Client.Settimeout 0.6;
       Client.Sendto syn ("10.0.0.1", 8080); Client.Settimeout 1.2;
       Client.Sendto syn ("10.0.0.1", 8080); Client.Settimeout 2.4;
       Client.Sendto syn ("10.0.0.1", 8080); Client.Settimeout 4.8].
Proof.
  split.
  - repeat constructor.
  - apply (handshake_retry_bound "10.0.0.1" 8080 30 quiet_env). repeat constructor.
Defined.

Lemma slice_to_firstn {A} (l : list A) n :
  0 <= n -> slice_to l n = firstn (Z.to_nat n) l.
Proof.
  intros Hn. pose proof (len_nonneg l) as Hl.
  unfold slice_to, slice, slice_bound.
  replace (0 <? 0) with false by reflexivity.
  destruct (n <? 0) eqn:En; [apply Z.ltb_lt in En; lia|].
  rewrite (Z.min_l 0) by lia. change (Z.to_nat 0) with 0%nat.
  rewrite skipn_O, Z.sub_0_r.
  destruct (Z.le_gt_cases n (len l)).
  - rewrite Z.min_l by lia. reflexivity.
  - rewrite Z.min_r by lia. unfold len in *. rewrite Nat2Z.id.
    rewrite firstn_all. symmetry. apply firstn_all2. lia.
Qed.

Lemma parse_header_recv d :
  Codec.parse_header (slice_to d 1024) = Codec.parse_header d.
Proof.
  unfold Codec.parse_header. rewrite !slice_to_firstn by lia.
  rewrite firstn_firstn. reflexivity.
Qed.

Lemma connect_pass_invalid my_seq retries s syn d rest ptype sseq ack w l :
  Codec.build_header 1 my_seq 0 (Client.window_size_bytes (Client.self s)) 0 = Return syn ->
  Client.inbox (Client.env s) = Some d :: rest ->
  Codec.parse_header d = Return (ptype, sseq, ack, w, l) ->
  (ptype =? 2) && (ack =? my_seq + 1) = false ->
  Client.connect_pass my_seq retries s =
  (Return (Client.Continue retries), after_pass syn (Client.self s) s).
Proof.
  intros Hsyn Hin Hparse Hbad. unfold Client.connect_pass.
  unfold_client. unfold_m. cbn. rewrite Hsyn. cbn. rewrite Hin. cbn.
  rewrite parse_header_recv, Hparse. cbn. rewrite Hbad.
  unfold after_pass. rewrite Hin, <- app_assoc. destruct s; reflexivity.
Qed.

(** Every pass of [connect] begins by sending the SYN and setting the
    time-out of the socket to the current value of [self.timeout]. *)
Lemma connect_pass_begins my_seq retries s syn :
  Codec.build_header 1 my_seq 0 (Client.window_size_bytes (Client.self s)) 0 = Return syn ->
  exists more,
    Client.wire (Client.env (exec (Client.connect_pass my_seq retries) s)) =
    Client.wire (Client.env s) ++
    [Client.Sendto syn (Client.server_addr (Client.self s));
     Client.Settimeout (Client.timeout (Client.self s))] ++ more.
Proof.
  intros Hsyn. unfold Client.connect_pass.
  unfold_client. unfold_m. cbn. rewrite Hsyn. cbn.
  destruct (Client.inbox (Client.env s)) as [|[d|] rest]; cbn.
  - exists []. rewrite <- app_assoc. reflexivity.
  - destruct (Codec.parse_header (slice_to d 1024)) as [[[[[pt sq] ak] wd] ln]|ex]; cbn.
    + destruct ((pt =? 2) && (ak =? my_seq + 1)); cbn.
      * destruct (Codec.build_header 4 (my_seq + 1) (sq + 1)
                    (Client.window_size_bytes (Client.self s)) 0) as [ap|ex]; cbn.
        -- eexists. rewrite <- !app_assoc. reflexivity.
        -- destruct ex; cbn; exists []; rewrite <- app_assoc; reflexivity.
      * exists []. rewrite <- app_assoc. reflexivity.
    + destruct ex; cbn; exists []; rewrite <- app_assoc; reflexivity.
  - exists []. rewrite <- app_assoc. reflexivity.
Qed.

(** C7, as stated, fails: a stray SYN_ACK arrives, no wait has expired, and
    the initiator has sent its SYN a second time and set the time-out of
    the socket again before the valid reply is read. *)
Lemma stray_reply_resends_syn :
  let s := {| Client.self := Client.init "10.0.0.1" 8080 30; Client.env := stray_env |} in
  result Client.connect s = Return true /\
  Client.timeout (Client.self (exec Client.connect s)) = 0.3%Q /\
  Client.wire (Client.env (exec Client.connect s)) =
    [Client.Sendto syn_7 ("10.0.0.1", 8080); Client.Settimeout 0.3;
     Client.Sendto syn_7 ("10.0.0.1", 8080); Client.Settimeout 0.3;
     Client.Sendto ack_8 ("10.0.0.1", 8080)].
Proof. vm_compute. repeat split; reflexivity. Qed.

(** C7, amended. A reply that carries a full header and is not a SYN_ACK
    with ack = my_seq + 1 is ignored: the pass ends without an exception,
    [retries] and [self] (and so the time-out) keep their values, and the
    loop goes on with its next pass, which sends the SYN again and sets the
    time-out of the socket again to the same value. *)
Theorem invalid_reply_ignored my_seq retries s syn d rest ptype sseq ack w l :
  Codec.build_header 1 my_seq 0 (Client.window_size_bytes (Client.self s)) 0 = Return syn ->
  Client.inbox (Client.env s) = Some d :: rest ->
  Codec.parse_header d = Return (ptype, sseq, ack, w, l) ->
  (ptype =? 2) && (ack =? my_seq + 1) = false ->
  retries < 5 ->
  exists s',
    Client.connect_pass my_seq retries s = (Return (Client.Continue retries), s') /\
    (forall fuel,
       Client.connect_loop (S fuel) my_seq retries s =
       Client.connect_loop fuel my_seq retries s') /\
    Client.self s' = Client.self s /\
    Client.inbox (Client.env s') = rest /\
    Client.wire (Client.env s') =
      Client.wire (Client.env s) ++
      [Client.Sendto syn (Client.server_addr (Client.self s));
       Client.Settimeout (Client.timeout (Client.self s))] /\
    exists more,
      Client.wire (Client.env (exec (Client.connect_pass my_seq retries) s')) =
      Client.wire (Client.env s') ++
      [Client.Sendto syn (Client.server_addr (Client.self s));
       Client.Settimeout (Client.timeout (Client.self s))] ++ more.
Proof.
  intros Hsyn Hin Hparse Hbad Hr.
  pose proof (connect_pass_invalid my_seq retries s syn d rest _ _ _ _ _
                Hsyn Hin Hparse Hbad) as Hpass.
  exists (after_pass syn (Client.self s) s). split; [exact Hpass|].
  split.
  { intros fuel. cbn [Client.connect_loop]. unfold Client.max_retries.
    replace (retries <? 5) with true by (symmetry; apply Z.ltb_lt; assumption).
    unfold bind at 1. rewrite Hpass. reflexivity. }
  split; [reflexivity|]. split; [cbn; rewrite Hin; reflexivity|].
  split; [reflexivity|].
  apply (connect_pass_begins my_seq retries (after_pass syn (Client.self s) s) syn).
  exact Hsyn.
Qed.

Lemma invalid_reply_ignored_witness :
  exists s',
    Client.connect_pass 7 0
      (after_draw {| Client.self := Client.init "10.0.0.1" 8080 30;
                     Client.env := stray_env |}) =
      (Return (Client.Continue 0), s') /\
    (forall fuel,
       Client.connect_loop (S fuel) 7 0
         (after_draw {| Client.self := Client.init "10.0.0.1" 8080 30;
                        Client.env := stray_env |}) =
       Client.connect_loop fuel 7 0 s') /\
    Client.self s' = Client.init "10.0.0.1" 8080 30 /\
    Client.inbox (Client.env s') = [Some valid_syn_ack] /\
    Client.wire (Client.env s') =
      [Client.Sendto syn_7 ("10.0.0.1", 8080); Client.Settimeout 0.3] /\
    exists more,
      Client.wire (Client.env (exec (Client.connect_pass 7 0) s')) =
      Client.wire (Client.env s') ++
      [Client.Sendto syn_7 ("10.0.0.1", 8080); Client.Settimeout 0.3] ++ more.
Proof.
  apply (invalid_reply_ignored 7 0
           (after_draw {| Client.self := Client.init "10.0.0.1" 8080 30;
                          Client.env := stray_env |})
           syn_7 stray_syn_ack [Some valid_syn_ack] 2 100 99 400 0);
    [reflexivity|reflexivity|reflexivity|reflexivity|lia].
Defined.

(* ------------------------------------------------------------------ *)
(** ** Facts on dictionaries                                            *)
(* ------------------------------------------------------------------ *)

Lemma dict_get_keys {V} (d : list (Z * V)) k :
  In k (Dict.keys d) <-> exists v, Dict.get d k = Some v.
Proof.
  induction d as [|[k' v'] d IH]; cbn.
  - split; [tauto|intros [v Hv]; discriminate].
  - destruct (k' =? k) eqn:E.
    + apply Z.eqb_eq in E. split; [eauto|auto].
    + apply Z.eqb_neq in E. rewrite <- IH. split; [intros [H|H]; [contradiction|exact H]|auto].
Qed.

Lemma dict_keys_set {V} (d : list (Z * V)) k v :
  In k (Dict.keys d) -> Dict.keys (Dict.set d k v) = Dict.keys d.
Proof.
  induction d as [|[k' v'] d IH]; cbn; [tauto|].
  intros Hin. destruct (k' =? k) eqn:E; cbn.
  - apply Z.eqb_eq in E. subst. reflexivity.
  - apply Z.eqb_neq in E. f_equal. apply IH. destruct Hin; [contradiction|assumption].
Qed.

Lemma dict_del_length {V} (d : list (Z * V)) k v :
  Dict.get d k = Some v -> S (List.length (Dict.del d k)) = List.length d.
Proof.
  induction d as [|[k' v'] d IH]; cbn; [discriminate|].
  destruct (k' =? k); cbn; [reflexivity|]. intros H. f_equal. apply IH, H.
Qed.

Lemma dict_keys_del_incl {V} (d : list (Z * V)) k :
  incl (Dict.keys (Dict.del d k)) (Dict.keys d).
Proof.
  induction d as [|[k' v'] d IH]; cbn; [apply incl_refl|].
  destruct (k' =? k); cbn.
  - apply incl_tl, incl_refl.
  - intros x [Hx|Hx]; [left; exact Hx|right; apply IH, Hx].
Qed.

(* ------------------------------------------------------------------ *)
(** ** The acknowledgement pass of the initiator                        *)
(* ------------------------------------------------------------------ *)

Lemma ack_one_spec ack seq s info :
  Dict.get (Client.buffer (Client.self s)) seq = Some info ->
  Client.ack_one ack seq s =
  (Return tt,
   if (seq <? ack) && negb (Client.acked info) then
     acked_form
       (Dict.set (Client.buffer (Client.self s)) seq (Client.set_acked true info))
       (Client.rtt_list (Client.self s) ++
          [rtt_of (Client.time_src (Client.env s) (Client.time_ix (Client.env s))) info])
       (Client.current_window_usage (Client.self s) -
          (Client.end_ info - Client.start info + 1))
       1 s
   else s).
Proof.
  intros Hget. unfold Client.ack_one.
  destruct (seq <? ack); [|reflexivity].
  unfold_client. unfold_m. unfold Dict.item. cbn. rewrite Hget.
  destruct (Client.acked info); cbn; [reflexivity|].
  rewrite Hget. reflexivity.
Qed.

Lemma acked_form_id s :
  acked_form (Client.buffer (Client.self s)) (Client.rtt_list (Client.self s) ++ [])
    (Client.current_window_usage (Client.self s)) 0 s = s.
Proof.
  destruct s as [c e]. destruct c, e. unfold acked_form, tick. cbn.
  rewrite app_nil_r. reflexivity.
Qed.

Lemma acked_form_compose buf1 r1 u1 n1 buf2 new u2 n2 s :
  acked_form buf2 (Client.rtt_list (Client.self (acked_form buf1 r1 u1 n1 s)) ++ new)
    u2 n2 (acked_form buf1 r1 u1 n1 s) =
  acked_form buf2 (r1 ++ new) u2 (n2 + n1) s.
Proof.
  unfold acked_form, tick. cbn. rewrite Nat.add_assoc. reflexivity.
Qed.

Lemma acked_form_buffer buf r u n s :
  Client.buffer (Client.self (acked_form buf r u n s)) = buf.
Proof. reflexivity. Qed.

Lemma ack_loop_spec ack keys :
  forall s,
    incl keys (Dict.keys (Client.buffer (Client.self s))) ->
    exists buf new usage n,
      Client.ack_loop ack keys s =
        (Return tt, acked_form buf (Client.rtt_list (Client.self s) ++ new) usage n s) /\
      Dict.keys buf = Dict.keys (Client.buffer (Client.self s)) /\
      (List.length new <= List.length keys)%nat.
Proof.
  induction keys as [|seq rest IH]; intros s Hin.
  - exists (Client.buffer (Client.self s)), [], (Client.current_window_usage (Client.self s)), 0%nat.
    cbn [Client.ack_loop]. unfold ret. rewrite acked_form_id. auto.
  - assert (Hseq : In seq (Dict.keys (Client.buffer (Client.self s))))
      by (apply Hin; left; reflexivity).
    destruct (proj1 (dict_get_keys _ _) Hseq) as [info Hget].
    cbn [Client.ack_loop]. unfold bind at 1. rewrite (ack_one_spec ack seq s info Hget).
    destruct ((seq <? ack) && negb (Client.acked info)).
    + match goal with |- context [Client.ack_loop ack rest ?s1] =>
        destruct (IH s1) as (buf & new & usage & n & Hrun & Hkeys & Hlen) end.
      { rewrite acked_form_buffer, dict_keys_set by exact Hseq.
        intros k Hk. apply Hin. right. exact Hk. }
      rewrite Hrun. rewrite acked_form_compose.
      eexists buf, (_ :: new), usage, (n + 1)%nat.
      rewrite <- app_assoc. split; [reflexivity|]. split.
      * rewrite Hkeys, acked_form_buffer. apply dict_keys_set, Hseq.
      * cbn. lia.
    + destruct (IH s) as (buf & new & usage & n & Hrun & Hkeys & Hlen).
      { intros k Hk. apply Hin. right. exact Hk. }
      rewrite Hrun. exists buf, new, usage, n. split; [reflexivity|].
      split; [exact Hkeys|]. cbn. lia.
Qed.

Lemma slid_form_id s :
  slid_form (Client.buffer (Client.self s)) (Client.base (Client.self s)) s = s.
Proof. destruct s as [c e]. destruct c. reflexivity. Qed.

Lemma slide_loop_spec fuel :
  forall s,
    exists buf b,
      Client.slide_loop fuel s = (Return tt, slid_form buf b s) /\
      Client.base (Client.self s) <= b /\
      incl (Dict.keys buf) (Dict.keys (Client.buffer (Client.self s))) /\
      (b = Client.base (Client.self s) -> buf = Client.buffer (Client.self s)).
Proof.
  induction fuel as [|fuel IH]; intros s.
  - exists (Client.buffer (Client.self s)), (Client.base (Client.self s)).
    cbn. unfold ret. rewrite slid_form_id.
    split; [reflexivity|]. split; [lia|]. split; [apply incl_refl|reflexivity].
  - cbn [Client.slide_loop]. unfold_client. unfold_m. cbn.
    destruct (Dict.get (Client.buffer (Client.self s)) (Client.base (Client.self s)))
      as [info|] eqn:Hget.
    + destruct (Client.acked info).
      * match goal with |- context [Client.slide_loop fuel ?s1] =>
          destruct (IH s1) as (buf & b & Hrun & Hb & Hkeys & _) end.
        rewrite Hrun. exists buf, b. cbn in Hb, Hkeys.
        split; [reflexivity|]. split; [lia|]. split.
        -- intros k Hk. eapply dict_keys_del_incl, Hkeys, Hk.
        -- intros Hb'. lia.
      * exists (Client.buffer (Client.self s)), (Client.base (Client.self s)).
        rewrite slid_form_id.
        split; [reflexivity|]. split; [lia|]. split; [apply incl_refl|reflexivity].
    + exists (Client.buffer (Client.self s)), (Client.base (Client.self s)).
      rewrite slid_form_id.
      split; [reflexivity|]. split; [lia|]. split; [apply incl_refl|reflexivity].
Qed.

(* ------------------------------------------------------------------ *)
(** ** [sorted] sorts                                                   *)
(* ------------------------------------------------------------------ *)

Lemma Qltb_true x y : Qltb x y = true -> (x <= y)%Q.
Proof.
  unfold Qltb. intros H. apply negb_true_iff in H.
  destruct (Qlt_le_dec x y) as [Hlt|Hle]; [apply Qlt_le_weak, Hlt|].
  apply Qle_bool_iff in Hle. congruence.
Qed.

Lemma Qltb_false x y : Qltb x y = false -> (y <= x)%Q.
Proof.
  unfold Qltb. intros H. apply negb_false_iff in H. apply Qle_bool_iff, H.
Qed.

Lemma insert_Q_perm x l : Permutation (insert_Q x l) (x :: l).
Proof.
  induction l as [|y l IH]; cbn; [reflexivity|].
  destruct (Qltb x y); [reflexivity|].
  rewrite IH. apply perm_swap.
Qed.

Lemma insert_Q_sorted x l : Sorted Qle l -> Sorted Qle (insert_Q x l).
Proof.
  induction l as [|y l IH]; cbn; intros Hs.
  - repeat constructor.
  - destruct (Qltb x y) eqn:E.
    + constructor; [exact Hs|]. constructor. apply Qltb_true, E.
    + inversion Hs as [|? ? Hs' Hhd]; subst. constructor; [apply IH, Hs'|].
      destruct l as [|z l]; cbn.
      * constructor. apply Qltb_false, E.
      * destruct (Qltb x z); constructor.
        -- apply Qltb_false, E.
        -- inversion Hhd; assumption.
Qed.

Lemma sorted_Q_acc l :
  forall acc, Sorted Qle acc ->
    Sorted Qle (fold_left (fun a x => insert_Q x a) l acc) /\
    Permutation (fold_left (fun a x => insert_Q x a) l acc) (l ++ acc).
Proof.
  induction l as [|x l IH]; cbn; intros acc Hacc; [split; [exact Hacc|reflexivity]|].
  destruct (IH (insert_Q x acc) (insert_Q_sorted x acc Hacc)) as [Hs Hp].
  split; [exact Hs|]. rewrite Hp, insert_Q_perm. symmetry. apply Permutation_middle.
Qed.

Lemma sorted_Q_sorted l : Sorted Qle (sorted_Q l).
Proof. apply sorted_Q_acc. constructor. Qed.

Lemma sorted_Q_perm l : Permutation (sorted_Q l) l.
Proof.
  unfold sorted_Q. destruct (sorted_Q_acc l [] ltac:(constructor)) as [_ Hp].
  rewrite Hp, app_nil_r. reflexivity.
Qed.

Lemma sorted_Q_length l : List.length (sorted_Q l) = List.length l.
Proof. apply Permutation_length, sorted_Q_perm. Qed.

(* ------------------------------------------------------------------ *)
(** ** The recomputation of the time-out                                *)
(* ------------------------------------------------------------------ *)

Lemma last_ten_length rl :
  (10 <= List.length rl)%nat -> List.length (last_ten rl) = 10%nat.
Proof. intros H. unfold last_ten. rewrite length_skipn. lia. Qed.

Lemma last_ten_le rl : (List.length (last_ten rl) <= 10)%nat.
Proof. unfold last_ten. rewrite length_skipn. lia. Qed.

Lemma slice_last_ten rl :
  10 <= len rl -> slice rl (-10) (len rl) = last_ten rl.
Proof.
  intros H. unfold slice, slice_bound, last_ten.
  replace (-10 <? 0) with true by reflexivity.
  destruct (len rl <? 0) eqn:E; [apply Z.ltb_lt in E; lia|].
  rewrite Z.max_r, Z.min_id by lia.
  replace (Z.to_nat (-10 + len rl)) with (List.length rl - 10)%nat by (unfold len; lia).
  apply firstn_all2. rewrite length_skipn. unfold len in *. lia.
Qed.

Lemma adjust_timeout_spec s :
  Client.adjust_timeout s =
  (Return tt,
   if 10 <=? len (Client.rtt_list (Client.self s)) then
     adjusted_form
       (5 * nth 5 (sorted_Q (last_ten (Client.rtt_list (Client.self s)))) 0 / 1000)%Q s
   else s).
Proof.
  unfold Client.adjust_timeout. unfold_client. unfold_m. cbn.
  destruct (10 <=? len (Client.rtt_list (Client.self s))) eqn:E; [|reflexivity].
  apply Z.leb_le in E. rewrite slice_last_ten by exact E.
  unfold index.
  rewrite (nth_error_nth' _ 0%Q).
  - reflexivity.
  - rewrite sorted_Q_length, last_ten_length; [cbn; lia|unfold len in E; lia].
Qed.

(* ------------------------------------------------------------------ *)
(** ** [receive_ack], step by step                                      *)
(* ------------------------------------------------------------------ *)

Lemma bind_returns {S A B} (m : M S A) (k : A -> M S B) s a s' :
  m s = (Return a, s') -> bind m k s = k a s'.
Proof. intros H. unfold bind. rewrite H. reflexivity. Qed.

Lemma attr_returns {A} (f : Client.UDPClient -> A) s :
  Client.attr f s = (Return (f (Client.self s)), s).
Proof. reflexivity. Qed.

Lemma ack_loop_returns ack s :
  Client.ack_loop ack (Dict.keys (Client.buffer (Client.self s))) s =
  (Return tt, after_ack_loop ack s).
Proof.
  destruct (ack_loop_spec ack _ s (incl_refl _)) as (buf & new & usage & n & Hrun & _).
  unfold after_ack_loop, exec. rewrite Hrun. reflexivity.
Qed.

Lemma slide_loop_returns fuel s :
  Client.slide_loop fuel s = (Return tt, exec (Client.slide_loop fuel) s).
Proof.
  destruct (slide_loop_spec fuel s) as (buf & b & Hrun & _).
  unfold exec. rewrite Hrun. reflexivity.
Qed.

Lemma restart_returns s :
  (Client.stop_timer ;;; Client.start_timer) s = (Return tt, restarted s).
Proof. reflexivity. Qed.

Lemma adjust_timeout_returns s :
  Client.adjust_timeout s = (Return tt, exec Client.adjust_timeout s).
Proof. unfold exec. rewrite adjust_timeout_spec. reflexivity. Qed.

Lemma process_ack_spec ack s :
  Client.process_ack ack s =
  (Return tt, exec Client.adjust_timeout (after_timer ack s)).
Proof.
  unfold Client.process_ack.
  rewrite (bind_returns _ _ _ _ _ (attr_returns _ s)).
  rewrite (bind_returns _ _ _ _ _ (attr_returns _ s)).
  rewrite (bind_returns _ _ _ _ _ (ack_loop_returns ack s)).
  rewrite (bind_returns _ _ _ _ _ (attr_returns _ _)).
  rewrite (bind_returns _ _ _ _ _ (slide_loop_returns _ _)).
  fold (after_slide ack s).
  rewrite (bind_returns _ _ _ _ _ (attr_returns _ _)).
  rewrite (bind_returns _ _ _ _ _ (attr_returns _ _)).
  unfold after_timer, when.
  destruct (negb (Client.base (Client.self s) =? Client.base (Client.self (after_slide ack s)))
            && Client.nonempty (Client.buffer (Client.self (after_slide ack s)))).
  - rewrite (bind_returns _ _ _ _ _ (restart_returns _)).
    apply adjust_timeout_returns.
  - rewrite (bind_returns _ _ _ _ _ (eq_refl : ret tt _ = (Return tt, _))).
    apply adjust_timeout_returns.
Qed.

Lemma parse_header_short d : len d < 8 -> Codec.parse_header d = Raise StructError.
Proof.
  intros H. unfold Codec.parse_header. rewrite slice_to_short by lia.
  destruct d as [|b0 [|b1 [|b2 [|b3 [|b4 [|b5 [|b6 [|b7 d]]]]]]]]; try reflexivity.
  unfold len in H. cbn in H. lia.
Qed.

Lemma parse_header_len d x : Codec.parse_header d = Return x -> 8 <= len d.
Proof.
  intros H. destruct (Z.lt_ge_cases (len d) 8) as [Hlt|Hge]; [|lia].
  rewrite parse_header_short in H by exact Hlt. discriminate.
Qed.

Lemma parse_header_full d : 8 <= len d -> exists x, Codec.parse_header d = Return x.
Proof.
  intros H. unfold Codec.parse_header. rewrite slice_to_firstn by lia.
  destruct d as [|b0 [|b1 [|b2 [|b3 [|b4 [|b5 [|b6 [|b7 d]]]]]]]];
    try (unfold len in H; cbn in H; lia).
  cbn. eexists. reflexivity.
Qed.

Lemma recv_len (d : bytes) : 8 <= len d -> (len (slice_to d 1024) <? 8) = false.
Proof.
  intros H. apply Z.ltb_ge. rewrite slice_to_length by lia. lia.
Qed.

(** [receive_ack] when the datagram read is an ACK whose ack field is
    positive. *)
Lemma receive_ack_on_ack s d rest sq ack w l :
  Client.inbox (Client.env s) = Some d :: rest ->
  Codec.parse_header d = Return (4, sq, ack, w, l) ->
  0 < ack ->
  Client.receive_ack s =
  (Return tt, exec Client.adjust_timeout (after_timer ack (received s))).
Proof.
  intros Hin Hparse Hack.
  pose proof (parse_header_len _ _ Hparse) as Hlen.
  unfold Client.receive_ack, try_except.
  assert (Hbody :
    (Client.settimeout 0.1 ;;;
     let* d0 := Client.recvfrom in
     if len d0 <? 8 then ret tt
     else let* (ptype, _, ack0, _, _) := Client.parse_header d0 in
          when ((ptype =? 4) && (0 <? ack0)) (Client.process_ack ack0)) s =
    Client.process_ack ack (received s)).
  { unfold Client.settimeout, Client.emit, Client.recvfrom, Client.on_env,
      Client.parse_header.
    unfold_m. cbn. rewrite Hin. cbn. rewrite recv_len by exact Hlen.
    rewrite parse_header_recv, Hparse.
    replace (0 <? ack) with true by (symmetry; apply Z.ltb_lt; exact Hack).
    cbn. unfold received. rewrite Hin. reflexivity. }
  rewrite Hbody, process_ack_spec. reflexivity.
Qed.

(** [receive_ack] in every other case: nothing arrives, or the datagram is
    shorter than a header, or it is not an ACK whose ack field is positive.
    [self] is left as it was. *)
Lemma receive_ack_idle s :
  match Client.inbox (Client.env s) with
  | Some d :: _ =>
      match Codec.parse_header d with
      | Return (ptype, _, ack, _, _) => (ptype =? 4) && (0 <? ack) = false
      | Raise _ => True
      end
  | _ => True
  end ->
  Client.receive_ack s = (Return tt, received s).
Proof.
  intros H. unfold Client.receive_ack, try_except.
  unfold Client.settimeout, Client.emit, Client.recvfrom, Client.on_env,
    Client.parse_header.
  unfold_m. cbn. unfold received.
  destruct (Client.inbox (Client.env s)) as [|[d|] rest]; cbn; try reflexivity.
  destruct (len (slice_to d 1024) <? 8) eqn:E; [reflexivity|].
  rewrite parse_header_recv.
  destruct (Codec.parse_header d) as [[[[[pt sq] ak] wd] ln]|ex] eqn:Hp.
  - rewrite H. reflexivity.
  - exfalso. apply Z.ltb_ge in E. rewrite slice_to_length in E by lia.
    assert (Hd : 8 <= len d) by lia.
    destruct (parse_header_full d Hd) as [x Hx]. congruence.
Qed.

(** What the two loops of [process_ack] leave untouched, and what they do
    to the list of samples. *)
Lemma after_slide_frame ack s :
  let s' := after_slide ack s in
  Client.timer_running (Client.self s') = Client.timer_running (Client.self s) /\
  Client.timer_start (Client.self s') = Client.timer_start (Client.self s) /\
  Client.timeout (Client.self s') = Client.timeout (Client.self s) /\
  Client.next_seq (Client.self s') = Client.next_seq (Client.self s) /\
  Client.time_src (Client.env s') = Client.time_src (Client.env s) /\
  Client.base (Client.self s) <= Client.base (Client.self s') /\
  exists new,
    Client.rtt_list (Client.self s') = Client.rtt_list (Client.self s) ++ new /\
    (List.length new <= List.length (Client.buffer (Client.self s)))%nat.
Proof.
  unfold after_slide, after_ack_loop, exec.
  destruct (ack_loop_spec ack _ s (incl_refl _))
    as (buf & new & usage & n & Hrun & _ & Hlen).
  rewrite Hrun. cbn [snd].
  destruct (slide_loop_spec (List.length
              (Client.buffer (Client.self
                 (acked_form buf (Client.rtt_list (Client.self s) ++ new) usage n s))))
              (acked_form buf (Client.rtt_list (Client.self s) ++ new) usage n s))
    as (buf2 & b & Hrun2 & Hb & _).
  rewrite Hrun2. cbn [snd]. cbn in Hb.
  repeat split; try reflexivity; try exact Hb.
  exists new. split; [reflexivity|].
  unfold Dict.keys in Hlen. rewrite length_map in Hlen. exact Hlen.
Qed.

Lemma adjust_timeout_frame s :
  let s' := exec Client.adjust_timeout s in
  Client.timer_running (Client.self s') = Client.timer_running (Client.self s) /\
  Client.timer_start (Client.self s') = Client.timer_start (Client.self s) /\
  Client.base (Client.self s') = Client.base (Client.self s) /\
  Client.buffer (Client.self s') = Client.buffer (Client.self s) /\
  Client.rtt_list (Client.self s') = Client.rtt_list (Client.self s) /\
  Client.current_window_usage (Client.self s') =
    Client.current_window_usage (Client.self s) /\
  Client.next_seq (Client.self s') = Client.next_seq (Client.self s).
Proof.
  unfold exec. rewrite adjust_timeout_spec. cbn [snd].
  destruct (10 <=? len (Client.rtt_list (Client.self s))); repeat split; reflexivity.
Qed.

(** The two ways [receive_ack] can go. *)
Lemma receive_ack_cases s :
  (exists d rest sq ack w l,
      Client.inbox (Client.env s) = Some d :: rest /\
      Codec.parse_header d = Return (4, sq, ack, w, l) /\ 0 < ack /\
      Client.receive_ack s =
        (Return tt, exec Client.adjust_timeout (after_timer ack (received s)))) \/
  Client.receive_ack s = (Return tt, received s).
Proof.
  destruct (Client.inbox (Client.env s)) as [|[d|] rest] eqn:Hin.
  - right. apply receive_ack_idle. rewrite Hin. exact I.
  - destruct (Codec.parse_header d) as [[[[[pt sq] ak] wd] ln]|ex] eqn:Hp.
    + destruct ((pt =? 4) && (0 <? ak)) eqn:Hc.
      * left. apply andb_true_iff in Hc. destruct Hc as [Hpt Hak].
        apply Z.eqb_eq in Hpt. apply Z.ltb_lt in Hak. subst pt.
        exists d, rest, sq, ak, wd, ln. repeat split; try assumption.
        eapply receive_ack_on_ack; eassumption.
      * right. apply receive_ack_idle. rewrite Hin, Hp. exact Hc.
    + right. apply receive_ack_idle. rewrite Hin, Hp. exact I.
  - right. apply receive_ack_idle. rewrite Hin. exact I.
Qed.

Lemma exec_bind {S A B} (m : M S A) (k : A -> M S B) s :
  exec (bind m k) s =
  match m s with
  | (Return a, s') => exec (k a) s'
  | (Raise _, s') => s'
  end.
Proof. unfold exec, bind. destruct (m s) as [[a|e] s']; reflexivity. Qed.

(** A pass of [send_window_packets] leaves a running timer alone. *)
Lemma send_window_pass_timer s :
  Client.timer_running (Client.self s) = true ->
  Client.timer_running (Client.self (exec Client.send_window_pass s)) = true /\
  Client.timer_start (Client.self (exec Client.send_window_pass s)) =
    Client.timer_start (Client.self s).
Proof.
  intros Hrun. unfold Client.send_window_pass, Client.calculate_data_range.
  unfold_client. unfold_m. cbn.
  match goal with |- context [Codec.build_header ?a ?b ?c ?d ?e] =>
    destruct (Codec.build_header a b c d e) as [hdr|ex] end; cbn.
  - rewrite Hrun. cbn. auto.
  - auto.
Qed.

Lemma send_window_loop_timer fuel :
  forall s,
    Client.timer_running (Client.self s) = true ->
    Client.timer_running (Client.self (exec (Client.send_window_loop fuel) s)) = true /\
    Client.timer_start (Client.self (exec (Client.send_window_loop fuel) s)) =
      Client.timer_start (Client.self s).
Proof.
  induction fuel as [|fuel IH]; intros s Hrun; [auto|].
  cbn [Client.send_window_loop]. unfold exec.
  rewrite (bind_returns _ _ _ _ _ (attr_returns _ s)).
  rewrite (bind_returns _ _ _ _ _ (attr_returns _ s)).
  rewrite (bind_returns _ _ _ _ _ (attr_returns _ s)).
  rewrite (bind_returns _ _ _ _ _ (attr_returns _ s)).
  destruct ((Client.next_seq (Client.self s) <? Client.target_packets (Client.self s))
            && (Client.current_window_usage (Client.self s)
                <? Client.window_size_bytes (Client.self s))); [|auto].
  destruct (send_window_pass_timer s Hrun) as [H1 H2]. unfold exec in H1, H2.
  unfold bind.
  destruct (Client.send_window_pass s) as [[[]|ex] s1]; cbn [snd] in H1, H2.
  - destruct (IH s1 H1) as [H3 H4]. unfold exec in H3, H4.
    split; [exact H3|]. etransitivity; [exact H4|exact H2].
  - auto.
Qed.

Lemma send_window_packets_timer s :
  Client.timer_running (Client.self s) = true ->
  Client.timer_running (Client.self (exec Client.send_window_packets s)) = true /\
  Client.timer_start (Client.self (exec Client.send_window_packets s)) =
    Client.timer_start (Client.self s).
Proof.
  intros Hrun. unfold Client.send_window_packets, exec.
  rewrite (bind_returns _ _ _ _ _ (eq_refl : gets Client.send_window_fuel s = (_, s))).
  apply send_window_loop_timer, Hrun.
Qed.

(** C10. [receive_ack] returns normally; it sets the timer running, from a
    fresh reading of the clock, when [base] has moved and the buffer is not
    empty, and in every other case leaves [timer_running] and [timer_start]
    as they were, in particular when the buffer has been emptied; and
    [send_window_packets] leaves a running timer as it is. *)
Theorem ack_timer_frame s :
  let s' := exec Client.receive_ack s in
  result Client.receive_ack s = Return tt /\
  (if negb (Client.base (Client.self s) =? Client.base (Client.self s'))
      && Client.nonempty (Client.buffer (Client.self s'))
   then Client.timer_running (Client.self s') = true /\
        exists i, Client.timer_start (Client.self s') = Client.time_src (Client.env s) i
   else Client.timer_running (Client.self s') = Client.timer_running (Client.self s) /\
        Client.timer_start (Client.self s') = Client.timer_start (Client.self s)) /\
  (Client.buffer (Client.self s') = [] ->
     Client.timer_running (Client.self s') = Client.timer_running (Client.self s) /\
     Client.timer_start (Client.self s') = Client.timer_start (Client.self s)) /\
  (forall s0,
     Client.timer_running (Client.self s0) = true ->
     Client.timer_running (Client.self (exec Client.send_window_packets s0)) = true /\
     Client.timer_start (Client.self (exec Client.send_window_packets s0)) =
       Client.timer_start (Client.self s0)).
Proof.
  intros s'.
  assert (Hmain :
    result Client.receive_ack s = Return tt /\
    (if negb (Client.base (Client.self s) =? Client.base (Client.self s'))
        && Client.nonempty (Client.buffer (Client.self s'))
     then Client.timer_running (Client.self s') = true /\
          exists i, Client.timer_start (Client.self s') = Client.time_src (Client.env s) i
     else Client.timer_running (Client.self s') = Client.timer_running (Client.self s) /\
          Client.timer_start (Client.self s') = Client.timer_start (Client.self s))).
  { subst s'. unfold result, exec.
    destruct (receive_ack_cases s)
      as [(d & rest & sq & ack & w & l & Hin & Hp & Hack & Hrun)|Hrun];
      rewrite Hrun; cbn [fst snd]; (split; [reflexivity|]).
    - destruct (adjust_timeout_frame (after_timer ack (received s)))
        as (Ha1 & Ha2 & Ha3 & Ha4 & _).
      rewrite Ha1, Ha2, Ha3, Ha4.
      destruct (after_slide_frame ack (received s)) as (Hs1 & Hs2 & _ & _ & Hs5 & _).
      unfold after_timer. change (Client.base (Client.self (received s)))
        with (Client.base (Client.self s)).
      destruct (negb (Client.base (Client.self s)
                        =? Client.base (Client.self (after_slide ack (received s))))
                && Client.nonempty (Client.buffer (Client.self (after_slide ack (received s)))))
        eqn:Hc.
      + cbn [restarted Client.self Client.base Client.buffer Client.timer_running
               Client.timer_start Client.set_timer_running Client.set_timer_start].
        rewrite Hc. split; [reflexivity|]. rewrite Hs5. eexists. reflexivity.
      + rewrite Hc. split; [exact Hs1|exact Hs2].
    - cbn [received Client.self]. rewrite Z.eqb_refl. cbn. auto. }
  destruct Hmain as [Hres Hif]. split; [exact Hres|]. split; [exact Hif|]. split.
  - intros Hempty. rewrite Hempty in Hif. rewrite andb_false_r in Hif. exact Hif.
  - apply send_window_packets_timer.
Qed.

Lemma ack_timer_frame_witness :
  let s := filled [Some ack_10] in
  let s' := exec Client.receive_ack s in
  Client.buffer (Client.self s') = [] /\
  Client.base (Client.self s') = 10 /\
  Client.target_packets (Client.self s') = 30 /\
  (Client.timer_running (Client.self s') = true /\
   Client.timer_start (Client.self s') = Client.timer_start (Client.self s)) /\
  (Client.timer_running (Client.self (exec Client.send_window_packets s')) = true /\
   Client.timer_start (Client.self (exec Client.send_window_packets s')) =
     Client.timer_start (Client.self s)).
Proof.
  intros s s'.
  destruct (ack_timer_frame s) as (_ & _ & Hdrain & Hsend).
  assert (Hempty : Client.buffer (Client.self s') = []) by (vm_compute; reflexivity).
  assert (Hrun : Client.timer_running (Client.self s) = true) by (vm_compute; reflexivity).
  destruct (Hdrain Hempty) as [H1 H2].
  assert (Hrun' : Client.timer_running (Client.self s') = true)
    by (etransitivity; [exact H1|exact Hrun]).
  destruct (Hsend s' Hrun') as [H3 H4].
  split; [exact Hempty|]. split; [vm_compute; reflexivity|].
  split; [vm_compute; reflexivity|].
  split; [split; [exact Hrun'|exact H2]|].
  split; [exact H3|]. etransitivity; [exact H4|exact H2].
Defined.

(* ------------------------------------------------------------------ *)
(** ** The samples and the time-out                                     *)
(* ------------------------------------------------------------------ *)

Lemma after_timer_frame ack s :
  Client.timeout (Client.self (after_timer ack s)) =
    Client.timeout (Client.self (after_slide ack s)) /\
  Client.rtt_list (Client.self (after_timer ack s)) =
    Client.rtt_list (Client.self (after_slide ack s)).
Proof. unfold after_timer. destruct (_ && _); split; reflexivity. Qed.

(** C3. After [receive_ack] has processed an ACK: if at least ten samples
    are recorded, the time-out is 5 times the element of index 5 of the ten
    most recent samples put in ascending order, divided by 1000; with fewer
    than ten samples the time-out is left as it was. With the samples 10,
    12, 11, 13, 9, 15, 14, 8, 16, 17 the time-out is 0.065. *)
Theorem timeout_recompute_rule s d rest sq ack w l :
  Client.inbox (Client.env s) = Some d :: rest ->
  Codec.parse_header d = Return (4, sq, ack, w, l) ->
  0 < ack ->
  let s' := exec Client.receive_ack s in
  let rl := Client.rtt_list (Client.self s') in
  ((10 <= List.length rl)%nat ->
     exists ascending,
       Sorted Qle ascending /\ Permutation ascending (last_ten rl) /\
       Client.timeout (Client.self s') = (5 * nth 5 ascending 0 / 1000)%Q) /\
  ((List.length rl < 10)%nat ->
     Client.timeout (Client.self s') = Client.timeout (Client.self s)) /\
  (Client.timeout (Client.self (exec Client.adjust_timeout sampled)) == 0.065)%Q.
Proof.
  intros Hin Hp Hack s' rl.
  assert (Hs' : s' = exec Client.adjust_timeout (after_timer ack (received s))).
  { subst s'. unfold exec at 1. rewrite (receive_ack_on_ack s d rest sq ack w l Hin Hp Hack).
    reflexivity. }
  set (s3 := after_timer ack (received s)) in *.
  assert (Hrl : rl = Client.rtt_list (Client.self s3)).
  { subst rl. rewrite Hs'. apply (adjust_timeout_frame s3). }
  assert (Hold : Client.timeout (Client.self s3) = Client.timeout (Client.self s)).
  { subst s3. rewrite (proj1 (after_timer_frame ack (received s))).
    destruct (after_slide_frame ack (received s)) as (_ & _ & Ht & _). exact Ht. }
  assert (Hnew : Client.timeout (Client.self s') =
    if 10 <=? len (Client.rtt_list (Client.self s3)) then
      (5 * nth 5 (sorted_Q (last_ten (Client.rtt_list (Client.self s3)))) 0 / 1000)%Q
    else Client.timeout (Client.self s3)).
  { rewrite Hs'. unfold exec. rewrite adjust_timeout_spec. cbn [snd].
    destruct (10 <=? len (Client.rtt_list (Client.self s3))); reflexivity. }
  rewrite <- Hrl in Hnew. split; [|split].
  - intros Hlen. exists (sorted_Q (last_ten rl)).
    split; [apply sorted_Q_sorted|]. split; [apply sorted_Q_perm|].
    rewrite Hnew. replace (10 <=? len rl) with true; [reflexivity|].
    symmetry. apply Z.leb_le. unfold len. lia.
  - intros Hlen. rewrite Hnew. replace (10 <=? len rl) with false; [exact Hold|].
    symmetry. apply Z.leb_gt. unfold len. lia.
  - vm_compute. reflexivity.
Qed.

Lemma timeout_recompute_rule_witness :
  let s := filled [Some ack_10] in
  let s' := exec Client.receive_ack s in
  let rl := Client.rtt_list (Client.self s') in
  List.length rl = 10%nat /\
  exists ascending,
    Sorted Qle ascending /\ Permutation ascending (last_ten rl) /\
    Client.timeout (Client.self s') = (5 * nth 5 ascending 0 / 1000)%Q.
Proof.
  intros s s' rl.
  assert (Hlen : List.length rl = 10%nat) by (vm_compute; reflexivity).
  split; [exact Hlen|].
  apply (timeout_recompute_rule s ack_10 [] 0 10 400 0);
    [reflexivity|reflexivity|lia|]. fold s'. fold rl. rewrite Hlen. lia.
Defined.

Lemma send_window_pass_rtt s :
  Client.rtt_list (Client.self (exec Client.send_window_pass s)) =
  Client.rtt_list (Client.self s).
Proof.
  unfold Client.send_window_pass, Client.calculate_data_range.
  unfold_client. unfold_m. cbn.
  match goal with |- context [Codec.build_header ?a ?b ?c ?d ?e] =>
    destruct (Codec.build_header a b c d e) as [hdr|ex] end; cbn; [|reflexivity].
  destruct (Client.timer_running (Client.self s)); cbn; [reflexivity|].
  match goal with |- context [Client.nonempty ?b] =>
    destruct (Client.nonempty b) end; reflexivity.
Qed.

Lemma send_window_loop_rtt fuel :
  forall s,
    Client.rtt_list (Client.self (exec (Client.send_window_loop fuel) s)) =
    Client.rtt_list (Client.self s).
Proof.
  induction fuel as [|fuel IH]; intros s; [reflexivity|].
  cbn [Client.send_window_loop]. unfold exec.
  rewrite (bind_returns _ _ _ _ _ (attr_returns _ s)).
  rewrite (bind_returns _ _ _ _ _ (attr_returns _ s)).
  rewrite (bind_returns _ _ _ _ _ (attr_returns _ s)).
  rewrite (bind_returns _ _ _ _ _ (attr_returns _ s)).
  destruct ((Client.next_seq (Client.self s) <? Client.target_packets (Client.self s))
            && (Client.current_window_usage (Client.self s)
                <? Client.window_size_bytes (Client.self s))); [|reflexivity].
  pose proof (send_window_pass_rtt s) as H1. unfold exec in H1.
  unfold bind.
  destruct (Client.send_window_pass s) as [[[]|ex] s1]; cbn [snd] in H1.
  - pose proof (IH s1) as H2. unfold exec in H2.
    etransitivity; [exact H2|exact H1].
  - exact H1.
Qed.

Lemma send_window_packets_rtt s :
  Client.rtt_list (Client.self (exec Client.send_window_packets s)) =
  Client.rtt_list (Client.self s).
Proof.
  unfold Client.send_window_packets, exec.
  rewrite (bind_returns _ _ _ _ _ (eq_refl : gets Client.send_window_fuel s = (_, s))).
  apply send_window_loop_rtt.
Qed.

Lemma retransmit_one_rtt seq s :
  Client.rtt_list (Client.self (exec (Client.retransmit_one seq) s)) =
  Client.rtt_list (Client.self s).
Proof.
  unfold Client.retransmit_one. unfold_client. unfold_m. unfold Dict.item. cbn.
  destruct (Dict.get (Client.buffer (Client.self s)) seq) as [info|]; cbn; [|reflexivity].
  destruct (Client.acked info); cbn; [reflexivity|].
  destruct (Dict.get (Client.buffer (Client.self s)) seq) as [info1|]; cbn; [|reflexivity].
  match goal with |- context [Dict.get ?b seq] =>
    destruct (Dict.get b seq) as [info2|] end; reflexivity.
Qed.

Lemma retransmit_loop_rtt keys :
  forall s,
    Client.rtt_list (Client.self (exec (Client.retransmit_loop keys) s)) =
    Client.rtt_list (Client.self s).
Proof.
  induction keys as [|seq rest IH]; intros s; [reflexivity|].
  cbn [Client.retransmit_loop]. rewrite exec_bind.
  pose proof (retransmit_one_rtt seq s) as H1. unfold exec in H1.
  destruct (Client.retransmit_one seq s) as [[[]|ex] s1]; cbn [snd] in H1.
  - rewrite IH. exact H1.
  - exact H1.
Qed.

Lemma handle_timeout_rtt s :
  Client.rtt_list (Client.self (exec Client.handle_timeout s)) =
  Client.rtt_list (Client.self s).
Proof.
  unfold Client.handle_timeout. rewrite exec_bind.
  change (Client.stop_timer s) with
    (Return tt, {| Client.self := Client.set_timer_running false (Client.self s);
                   Client.env := Client.env s |}).
  cbv iota beta. rewrite exec_bind. rewrite attr_returns. cbv iota beta.
  rewrite exec_bind.
  match goal with |- context [Client.retransmit_loop ?k ?s0] =>
    pose proof (retransmit_loop_rtt k s0) as H1; unfold exec in H1;
    destruct (Client.retransmit_loop k s0) as [[[]|ex] s1] end; cbn [snd] in H1.
  - rewrite exec_bind, attr_returns. cbv iota beta.
    destruct (Client.buffer (Client.self s1)); exact H1.
  - exact H1.
Qed.

(** C8, as stated, fails: two passes of the loop of [send_data], in which
    an ACK of 10 and then an ACK of 11 arrive, leave eleven samples in
    [rtt_list]. *)
Lemma rtt_list_exceeds_ten :
  List.length (Client.rtt_list (Client.self
    (exec (Client.send_data_pass ;;; Client.send_data_pass)
          (demo [Some ack_10; Some ack_11])))) = 11%nat.
Proof. vm_compute. reflexivity. Qed.

(* ------------------------------------------------------------------ *)
(** ** The loops make no more passes than the model allows             *)
(* ------------------------------------------------------------------ *)

(** A pass of [connect] after which the loop goes on has consumed an entry
    of the inbox or counted a retry. *)
Lemma connect_pass_measure my_seq retries s r' s' :
  retries < 5 ->
  Client.connect_pass my_seq retries s = (Return (Client.Continue r'), s') ->
  (connect_measure r' s' < connect_measure retries s)%nat.
Proof.
  intros Hr. unfold Client.connect_pass, connect_measure.
  unfold_client. unfold_m. cbn.
  destruct (Codec.build_header 1 my_seq 0 (Client.window_size_bytes (Client.self s)) 0)
    as [syn|ex]; cbn; [|discriminate].
  destruct (Client.inbox (Client.env s)) as [|[d|] rest]; cbn.
  - intros H. injection H as <- <-. cbn. lia.
  - destruct (Codec.parse_header (slice_to d 1024)) as [[[[[pt sq] ak] wd] ln]|ex]; cbn.
    + destruct ((pt =? 2) && (ak =? my_seq + 1)); cbn.
      * destruct (Codec.build_header 4 (my_seq + 1) (sq + 1)
                    (Client.window_size_bytes (Client.self s)) 0) as [ap|ex]; cbn;
          [discriminate|].
        destruct ex; cbn; try discriminate.
        intros H. injection H as <- <-. cbn. lia.
      * intros H. injection H as <- <-. cbn. lia.
    + destruct ex; cbn; try discriminate.
      intros H. injection H as <- <-. cbn. lia.
  - intros H. injection H as <- <-. cbn. lia.
Qed.

(** More fuel than the measure changes nothing: [connect] is given enough. *)
Lemma connect_loop_fuel fuel :
  forall my_seq retries s extra,
    (connect_measure retries s <= fuel)%nat ->
    Client.connect_loop (fuel + extra) my_seq retries s =
    Client.connect_loop fuel my_seq retries s.
Proof.
  induction fuel as [|fuel IH]; intros my_seq retries s extra Hm.
  - assert (Hr : 5 <= retries) by (unfold connect_measure in Hm; lia).
    cbn [Nat.add]. destruct extra; [reflexivity|]. cbn.
    replace (retries <? Client.max_retries) with false; [reflexivity|].
    symmetry. apply Z.ltb_ge. exact Hr.
  - cbn [Nat.add Client.connect_loop].
    destruct (retries <? Client.max_retries) eqn:E; [|reflexivity].
    apply Z.ltb_lt in E. unfold Client.max_retries in E.
    unfold bind.
    destruct (Client.connect_pass my_seq retries s) as [[[b|r']|ex] s'] eqn:Hpass;
      try reflexivity.
    apply IH. pose proof (connect_pass_measure _ _ _ _ _ E Hpass). lia.
Qed.

Lemma connect_fuel_enough s extra :
  Client.connect_loop (Client.connect_fuel (after_draw s) + extra)
    (0 + Client.rand_src (Client.env s) (Client.rand_ix (Client.env s))
           mod (65535 - 0 + 1)) 0 (after_draw s) =
  Client.connect s.
Proof.
  rewrite connect_unfold. apply connect_loop_fuel.
  unfold connect_measure, Client.connect_fuel. cbn. lia.
Qed.

(** When the [while] of [receive_ack] ends, its test is false. *)
Lemma slide_loop_done fuel :
  forall s,
    (List.length (Client.buffer (Client.self s)) <= fuel)%nat ->
    match Dict.get (Client.buffer (Client.self (exec (Client.slide_loop fuel) s)))
                   (Client.base (Client.self (exec (Client.slide_loop fuel) s))) with
    | Some info => Client.acked info = false
    | None => True
    end.
Proof.
  induction fuel as [|fuel IH]; intros s Hlen.
  - destruct (Client.buffer (Client.self s)) eqn:E; [|cbn in Hlen; lia].
    cbn. rewrite E. exact I.
  - cbn [Client.slide_loop]. unfold exec.
    rewrite (bind_returns _ _ _ _ _ (attr_returns _ s)).
    rewrite (bind_returns _ _ _ _ _ (attr_returns _ s)).
    destruct (Dict.get (Client.buffer (Client.self s)) (Client.base (Client.self s)))
      as [info|] eqn:Hget.
    + destruct (Client.acked info) eqn:Hacked.
      * unfold Client.on_self, modify, bind.
        apply (IH _). cbn. pose proof (dict_del_length _ _ _ Hget). lia.
      * cbn. rewrite Hget. exact Hacked.
    + cbn. rewrite Hget. exact I.
Qed.

(** A pass of [send_window_packets] that ends normally has incremented
    [next_seq]. *)
Lemma send_window_pass_next s s1 :
  Client.send_window_pass s = (Return tt, s1) ->
  Client.next_seq (Client.self s1) = Client.next_seq (Client.self s) + 1 /\
  Client.target_packets (Client.self s1) = Client.target_packets (Client.self s).
Proof.
  unfold Client.send_window_pass, Client.calculate_data_range.
  unfold_client. unfold_m. cbn.
  match goal with |- context [Codec.build_header ?a ?b ?c ?d ?e] =>
    destruct (Codec.build_header a b c d e) as [hdr|ex] end; cbn; [|discriminate].
  destruct (Client.timer_running (Client.self s)); cbn.
  - intros H. injection H as <-. cbn. auto.
  - match goal with |- context [Client.nonempty ?b] =>
      destruct (Client.nonempty b) end; intros H; injection H as <-; cbn; auto.
Qed.

(** When [send_window_packets] returns, the test of its [while] is false. *)
Lemma send_window_loop_done fuel :
  forall s,
    Client.target_packets (Client.self s) - Client.next_seq (Client.self s)
      <= Z.of_nat fuel ->
    result (Client.send_window_loop fuel) s = Return tt ->
    window_open (exec (Client.send_window_loop fuel) s) = false.
Proof.
  induction fuel as [|fuel IH]; intros s Hfuel.
  - intros _. cbn. unfold window_open.
    replace (Client.next_seq (Client.self s) <? Client.target_packets (Client.self s))
      with false; [reflexivity|].
    symmetry. apply Z.ltb_ge. lia.
  - cbn [Client.send_window_loop]. unfold result, exec.
    rewrite (bind_returns _ _ _ _ _ (attr_returns _ s)).
    rewrite (bind_returns _ _ _ _ _ (attr_returns _ s)).
    rewrite (bind_returns _ _ _ _ _ (attr_returns _ s)).
    rewrite (bind_returns _ _ _ _ _ (attr_returns _ s)).
    fold (window_open s).
    destruct (window_open s) eqn:Hopen; [|intros _; exact Hopen].
    unfold bind.
    destruct (Client.send_window_pass s) as [[[]|ex] s1] eqn:Hpass; [|discriminate].
    destruct (send_window_pass_next s s1 Hpass) as [Hn Ht].
    apply IH. lia.
Qed.

Lemma send_window_packets_done s :
  result Client.send_window_packets s = Return tt ->
  window_open (exec Client.send_window_packets s) = false.
Proof.
  unfold Client.send_window_packets, result, exec.
  rewrite (bind_returns _ _ _ _ _ (eq_refl : gets Client.send_window_fuel s = (_, s))).
  apply send_window_loop_done. unfold Client.send_window_fuel. lia.
Qed.

(* ------------------------------------------------------------------ *)
(** ** The accounting of the window                                     *)
(* ------------------------------------------------------------------ *)

Lemma dict_get_in {V} (d : list (Z * V)) k v : Dict.get d k = Some v -> In (k, v) d.
Proof.
  induction d as [|[k' v'] d IH]; cbn; [discriminate|].
  destruct (k' =? k) eqn:E.
  - apply Z.eqb_eq in E. intros H. injection H as <-. subst. left. reflexivity.
  - intros H. right. apply IH, H.
Qed.

Lemma dict_in_set {V} (d : list (Z * V)) k v k' v' :
  In (k', v') (Dict.set d k v) -> (k', v') = (k, v) \/ In (k', v') d.
Proof.
  induction d as [|[k0 v0] d IH]; cbn.
  - intros [H|[]]. left. symmetry. exact H.
  - destruct (k0 =? k); cbn.
    + intros [H|H]; [left; symmetry; exact H|right; right; exact H].
    + intros [H|H]; [right; left; exact H|].
      destruct (IH H) as [H'|H']; [left; exact H'|right; right; exact H'].
Qed.

Lemma dict_in_del {V} (d : list (Z * V)) k k' v' :
  In (k', v') (Dict.del d k) -> In (k', v') d.
Proof.
  induction d as [|[k0 v0] d IH]; cbn; [tauto|].
  destruct (k0 =? k); cbn; [auto|]. intros [H|H]; [left; exact H|right; apply IH, H].
Qed.

Lemma ack_one_window_ok ack seq s :
  In seq (Dict.keys (Client.buffer (Client.self s))) ->
  window_ok s ->
  window_ok (exec (Client.ack_one ack seq) s) /\
  Dict.keys (Client.buffer (Client.self (exec (Client.ack_one ack seq) s))) =
    Dict.keys (Client.buffer (Client.self s)).
Proof.
  intros Hseq (Hbase & Husage & Hentries).
  destruct (proj1 (dict_get_keys _ _) Hseq) as [info Hget].
  unfold exec. rewrite (ack_one_spec ack seq s info Hget). cbn [snd].
  destruct ((seq <? ack) && negb (Client.acked info));
    [|split; [split; [exact Hbase|split; [exact Husage|exact Hentries]]|reflexivity]].
  destruct (Hentries seq info (dict_get_in _ _ _ Hget)) as [Hlt Hrel].
  split.
  - split; [exact Hbase|]. split.
    + cbn. lia.
    + intros k i Hin. cbn in Hin. apply dict_in_set in Hin.
      destruct Hin as [Heq|Hin].
      * injection Heq as -> ->. cbn. split; [exact Hlt|exact Hrel].
      * apply (Hentries k i Hin).
  - rewrite acked_form_buffer. apply dict_keys_set, Hseq.
Qed.

Lemma ack_loop_window_ok ack keys :
  forall s,
    incl keys (Dict.keys (Client.buffer (Client.self s))) ->
    window_ok s ->
    window_ok (exec (Client.ack_loop ack keys) s).
Proof.
  induction keys as [|seq rest IH]; intros s Hin Hok; [exact Hok|].
  assert (Hseq : In seq (Dict.keys (Client.buffer (Client.self s))))
    by (apply Hin; left; reflexivity).
  destruct (ack_one_window_ok ack seq s Hseq Hok) as [Hok1 Hkeys1].
  destruct (proj1 (dict_get_keys _ _) Hseq) as [info Hget].
  cbn [Client.ack_loop]. unfold exec in *.
  rewrite (bind_returns _ _ _ _ _ (ack_one_spec ack seq s info Hget)).
  rewrite (ack_one_spec ack seq s info Hget) in Hok1, Hkeys1. cbn [snd] in Hok1, Hkeys1.
  apply IH; [|exact Hok1].
  rewrite Hkeys1. intros k Hk. apply Hin. right. exact Hk.
Qed.

Lemma slide_loop_window_ok fuel :
  forall s, window_ok s -> window_ok (exec (Client.slide_loop fuel) s).
Proof.
  induction fuel as [|fuel IH]; intros s Hok; [exact Hok|].
  cbn [Client.slide_loop]. unfold exec.
  rewrite (bind_returns _ _ _ _ _ (attr_returns _ s)).
  rewrite (bind_returns _ _ _ _ _ (attr_returns _ s)).
  destruct (Dict.get (Client.buffer (Client.self s)) (Client.base (Client.self s)))
    as [info|] eqn:Hget; [|exact Hok].
  destruct (Client.acked info); [|exact Hok].
  unfold Client.on_self, modify, bind. apply (IH _).
  destruct Hok as (Hbase & Husage & Hentries).
  destruct (Hentries _ _ (dict_get_in _ _ _ Hget)) as [Hlt _].
  split; [cbn; lia|]. split; [exact Husage|].
  intros k i Hin. cbn in Hin. apply dict_in_del in Hin. apply (Hentries k i Hin).
Qed.

Lemma window_ok_self s s' :
  Client.base (Client.self s') = Client.base (Client.self s) ->
  Client.next_seq (Client.self s') = Client.next_seq (Client.self s) ->
  Client.current_window_usage (Client.self s') =
    Client.current_window_usage (Client.self s) ->
  Client.window_size_bytes (Client.self s') = Client.window_size_bytes (Client.self s) ->
  Client.buffer (Client.self s') = Client.buffer (Client.self s) ->
  window_ok s -> window_ok s'.
Proof.
  intros H1 H2 H3 H4 H5 (Hbase & Husage & Hentries).
  unfold window_ok, entries_ok. rewrite H1, H2, H3, H4, H5. auto.
Qed.

Lemma adjust_timeout_window_ok s :
  window_ok s -> window_ok (exec Client.adjust_timeout s).
Proof.
  unfold exec. rewrite adjust_timeout_spec. cbn [snd].
  destruct (10 <=? len (Client.rtt_list (Client.self s))); [|auto].
  apply window_ok_self; reflexivity.
Qed.

Lemma receive_ack_window_ok s :
  window_ok s -> window_ok (exec Client.receive_ack s).
Proof.
  intros Hok. unfold exec.
  destruct (receive_ack_cases s)
    as [(d & rest & sq & ack & w & l & Hin & Hp & Hack & Hrun)|Hrun];
    rewrite Hrun; cbn [snd].
  - apply adjust_timeout_window_ok.
    assert (Hslide : window_ok (after_slide ack (received s))).
    { unfold after_slide. apply slide_loop_window_ok.
      unfold after_ack_loop. apply ack_loop_window_ok; [apply incl_refl|].
      revert Hok. apply window_ok_self; reflexivity. }
    unfold after_timer. destruct (_ && _); [|exact Hslide].
    revert Hslide. apply window_ok_self; reflexivity.
  - revert Hok. apply window_ok_self; reflexivity.
Qed.

Lemma slice_length_le {A} (l : list A) a b :
  0 <= a -> 0 <= b -> len (slice l a b) <= Z.max 0 (b - a).
Proof.
  intros Ha Hb. pose proof (len_nonneg l) as Hl.
  unfold slice, slice_bound.
  destruct (a <? 0) eqn:Ea; [apply Z.ltb_lt in Ea; lia|].
  destruct (b <? 0) eqn:Eb; [apply Z.ltb_lt in Eb; lia|].
  unfold len in *. rewrite length_firstn. lia.
Qed.

Lemma randint_range x lo hi : lo <= hi -> lo <= lo + x mod (hi - lo + 1) <= hi.
Proof.
  intros H. pose proof (Z.mod_pos_bound x (hi - lo + 1)). lia.
Qed.

Lemma window_ok_entry s s' info :
  Client.base (Client.self s') = Client.base (Client.self s) ->
  Client.next_seq (Client.self s') = Client.next_seq (Client.self s) + 1 ->
  Client.current_window_usage (Client.self s') <= Client.window_size_bytes (Client.self s') ->
  Client.buffer (Client.self s') =
    Dict.set (Client.buffer (Client.self s)) (Client.next_seq (Client.self s)) info ->
  Client.start info <= Client.end_ info + 1 ->
  window_ok s -> window_ok s'.
Proof.
  intros H1 H2 H3 H4 H5 (Hbase & Husage & Hentries).
  split; [rewrite H1, H2; lia|]. split; [exact H3|].
  intros k i Hin. rewrite H4 in Hin. rewrite H2.
  apply dict_in_set in Hin. destruct Hin as [Heq|Hin].
  - injection Heq as -> ->. split; [lia|exact H5].
  - destruct (Hentries k i Hin). split; [lia|assumption].
Qed.

(** A pass of [send_window_packets], made when the test of the [while]
    holds, keeps the bounds of the window. *)
Lemma send_window_pass_window_ok s :
  window_ok s -> supply_ok s -> window_open s = true ->
  window_ok (exec Client.send_window_pass s) /\
  supply_ok (exec Client.send_window_pass s) /\
  Client.next_seq (Client.self s) <=
    Client.next_seq (Client.self (exec Client.send_window_pass s)).
Proof.
  intros Hok ((Hlo & Hhi) & Hdata) Hopen.
  pose proof Hok as (Hbase & Husage & Hentries).
  unfold window_open in Hopen. apply andb_true_iff in Hopen.
  destruct Hopen as [Hns Hu]. apply Z.ltb_lt in Hns. apply Z.ltb_lt in Hu.
  pose proof (randint_range
    (Client.rand_src (Client.env s) (Client.rand_ix (Client.env s)))
    _ _ Hhi) as Hr.
  set (r := Client.min_packet_size (Client.self s) +
            Client.rand_src (Client.env s) (Client.rand_ix (Client.env s))
              mod (Client.max_packet_size (Client.self s)
                   - Client.min_packet_size (Client.self s) + 1)) in *.
  set (ps := Z.min r (Client.window_size_bytes (Client.self s)
                      - Client.current_window_usage (Client.self s))).
  set (st := Client.next_seq (Client.self s) * Client.min_packet_size (Client.self s)).
  set (en := st + Z.min ps (len (Client.data (Client.self s)) - st)).
  assert (Hst : 0 <= st) by (subst st; apply Z.mul_nonneg_nonneg; lia).
  assert (Hst2 : st <= len (Client.data (Client.self s)) + 1).
  { subst st. etransitivity; [|exact Hdata].
    apply Z.mul_le_mono_nonneg_r; lia. }
  assert (Hps : 0 <= ps) by (subst ps; lia).
  pose proof (len_nonneg (Client.data (Client.self s))) as Hld.
  assert (Hen : 0 <= en) by (subst en; lia).
  pose proof (slice_length_le (Client.data (Client.self s)) st en Hst Hen) as Hchunk.
  assert (Hfit : Client.current_window_usage (Client.self s)
                 + len (slice (Client.data (Client.self s)) st en)
                 <= Client.window_size_bytes (Client.self s))
    by (subst en ps; lia).
  assert (Hrel : st <= en + 1) by (subst en; lia).
  unfold Client.send_window_pass, Client.calculate_data_range.
  unfold_client. unfold_m. cbn.
  fold r. fold ps. fold st. fold en.
  match goal with |- context [Codec.build_header ?a ?b ?c ?d ?e] =>
    destruct (Codec.build_header a b c d e) as [hdr|ex] end; cbn;
    [|split; [exact Hok|split; [split; [split|]; assumption|lia]]].
  assert (Hgoal : forall s',
    Client.base (Client.self s') = Client.base (Client.self s) ->
    Client.next_seq (Client.self s') = Client.next_seq (Client.self s) + 1 ->
    Client.current_window_usage (Client.self s') =
      Client.current_window_usage (Client.self s)
      + len (slice (Client.data (Client.self s)) st en) ->
    Client.window_size_bytes (Client.self s') = Client.window_size_bytes (Client.self s) ->
    Client.min_packet_size (Client.self s') = Client.min_packet_size (Client.self s) ->
    Client.max_packet_size (Client.self s') = Client.max_packet_size (Client.self s) ->
    Client.target_packets (Client.self s') = Client.target_packets (Client.self s) ->
    Client.data (Client.self s') = Client.data (Client.self s) ->
    Client.buffer (Client.self s') =
      Dict.set (Client.buffer (Client.self s)) (Client.next_seq (Client.self s))
        {| Client.packet := hdr ++ slice (Client.data (Client.self s)) st en;
           Client.send_time :=
             Client.time_src (Client.env s) (Client.time_ix (Client.env s));
           Client.acked := false; Client.start := st; Client.end_ := en;
           Client.retries := 0 |} ->
    window_ok s' /\ supply_ok s' /\
    Client.next_seq (Client.self s) <= Client.next_seq (Client.self s')).
  { intros s' H1 H2 H3 H4 H5 H6 H7 H8 H9. split; [|split].
    - eapply window_ok_entry; [exact H1|exact H2| |exact H9|exact Hrel|exact Hok].
      rewrite H3, H4. exact Hfit.
    - unfold supply_ok. rewrite H5, H6, H7, H8. split; [split|]; assumption.
    - rewrite H2. lia. }
  destruct (Client.timer_running (Client.self s)); cbn.
  - apply Hgoal; reflexivity.
  - match goal with |- context [Client.nonempty ?b] =>
      destruct (Client.nonempty b) end; apply Hgoal; reflexivity.
Qed.

Lemma send_window_loop_window_ok fuel :
  forall s,
    window_ok s -> supply_ok s ->
    window_ok (exec (Client.send_window_loop fuel) s).
Proof.
  induction fuel as [|fuel IH]; intros s Hok Hsup; [exact Hok|].
  cbn [Client.send_window_loop]. unfold exec.
  rewrite (bind_returns _ _ _ _ _ (attr_returns _ s)).
  rewrite (bind_returns _ _ _ _ _ (attr_returns _ s)).
  rewrite (bind_returns _ _ _ _ _ (attr_returns _ s)).
  rewrite (bind_returns _ _ _ _ _ (attr_returns _ s)).
  fold (window_open s).
  destruct (window_open s) eqn:Hopen; [|exact Hok].
  destruct (send_window_pass_window_ok s Hok Hsup Hopen) as (Hok1 & Hsup1 & _).
  unfold exec in Hok1, Hsup1. unfold bind.
  destruct (Client.send_window_pass s) as [[[]|ex] s1]; cbn [snd] in Hok1, Hsup1.
  - apply (IH s1 Hok1 Hsup1).
  - exact Hok1.
Qed.

Lemma send_window_packets_window_ok s :
  window_ok s -> supply_ok s -> window_ok (exec Client.send_window_packets s).
Proof.
  intros Hok Hsup. unfold Client.send_window_packets, exec.
  rewrite (bind_returns _ _ _ _ _ (eq_refl : gets Client.send_window_fuel s = (_, s))).
  apply send_window_loop_window_ok; assumption.
Qed.

Lemma window_ok_update s s' seq info info' :
  Dict.get (Client.buffer (Client.self s)) seq = Some info ->
  Client.start info' = Client.start info ->
  Client.end_ info' = Client.end_ info ->
  Client.base (Client.self s') = Client.base (Client.self s) ->
  Client.next_seq (Client.self s') = Client.next_seq (Client.self s) ->
  Client.current_window_usage (Client.self s') =
    Client.current_window_usage (Client.self s) ->
  Client.window_size_bytes (Client.self s') = Client.window_size_bytes (Client.self s) ->
  Client.buffer (Client.self s') = Dict.set (Client.buffer (Client.self s)) seq info' ->
  window_ok s -> window_ok s'.
Proof.
  intros Hget Hs He H1 H2 H3 H4 H5 (Hbase & Husage & Hentries).
  destruct (Hentries seq info (dict_get_in _ _ _ Hget)) as [Hlt Hrel].
  split; [rewrite H1, H2; exact Hbase|]. split; [rewrite H3, H4; exact Husage|].
  intros k i Hin. rewrite H5 in Hin. rewrite H2.
  apply dict_in_set in Hin. destruct Hin as [Heq|Hin].
  - injection Heq as -> ->. rewrite Hs, He. split; assumption.
  - apply (Hentries k i Hin).
Qed.

Lemma retransmit_one_window_ok seq s :
  window_ok s -> window_ok (exec (Client.retransmit_one seq) s).
Proof.
  intros Hok. unfold Client.retransmit_one. unfold_client. unfold_m. unfold Dict.item. cbn.
  destruct (Dict.get (Client.buffer (Client.self s)) seq) as [info|] eqn:Hget; cbn;
    [|exact Hok].
  destruct (Client.acked info); cbn; [exact Hok|].
  rewrite Hget. cbn.
  set (info1 := Client.set_send_time
         (Client.time_src (Client.env s) (Client.time_ix (Client.env s))) info).
  assert (Hmid : window_ok
    {| Client.self := Client.set_buffer
         (Dict.set (Client.buffer (Client.self s)) seq info1) (Client.self s);
       Client.env := Client.env s |})
    by (apply (window_ok_update s _ seq info info1); try reflexivity; assumption).
  destruct (Dict.get (Dict.set (Client.buffer (Client.self s)) seq info1) seq)
    as [info2|] eqn:Hget2; cbn.
  - match type of Hmid with window_ok ?sm =>
      apply (window_ok_update sm _ seq info2
               (Client.set_retries (Client.retries info2 + 1) info2));
        [exact Hget2| | | | | | | |exact Hmid]; reflexivity
    end.
  - revert Hmid. apply window_ok_self; reflexivity.
Qed.

Lemma retransmit_loop_window_ok keys :
  forall s, window_ok s -> window_ok (exec (Client.retransmit_loop keys) s).
Proof.
  induction keys as [|seq rest IH]; intros s Hok; [exact Hok|].
  cbn [Client.retransmit_loop]. rewrite exec_bind.
  pose proof (retransmit_one_window_ok seq s Hok) as H1. unfold exec in H1.
  destruct (Client.retransmit_one seq s) as [[[]|ex] s1]; cbn [snd] in H1.
  - apply IH, H1.
  - exact H1.
Qed.

Lemma handle_timeout_window_ok s :
  window_ok s -> window_ok (exec Client.handle_timeout s).
Proof.
  intros Hok. unfold Client.handle_timeout. rewrite exec_bind.
  change (Client.stop_timer s) with
    (Return tt, {| Client.self := Client.set_timer_running false (Client.self s);
                   Client.env := Client.env s |}).
  cbv iota beta. rewrite exec_bind. rewrite attr_returns. cbv iota beta.
  rewrite exec_bind.
  match goal with |- context [Client.retransmit_loop ?k ?s0] =>
    assert (H0 : window_ok s0) by (revert Hok; apply window_ok_self; reflexivity);
    pose proof (retransmit_loop_window_ok k s0 H0) as H1; unfold exec in H1;
    destruct (Client.retransmit_loop k s0) as [[[]|ex] s1] end; cbn [snd] in H1.
  - rewrite exec_bind, attr_returns. cbv iota beta.
    destruct (Client.buffer (Client.self s1)); [exact H1|].
    revert H1. apply window_ok_self; reflexivity.
  - exact H1.
Qed.

(** A new initiator satisfies the bounds, and its data suffices for up to
    201 packets. *)
Lemma init_window_ok ip port target e :
  target <= 201 ->
  window_ok {| Client.self := Client.init ip port target; Client.env := e |} /\
  supply_ok {| Client.self := Client.init ip port target; Client.env := e |}.
Proof.
  intros Ht. split.
  - split; [cbn; lia|]. split; [cbn; lia|]. intros k i [].
  - split; [cbn; lia|].
    change (len (Client.data (Client.self
              {| Client.self := Client.init ip port target; Client.env := e |})))
      with 8000.
    cbn. lia.
Qed.

(** The part of C2 that the code keeps: [base <= next_seq] and
    [current_window_usage <= window_size_bytes] are preserved by the three
    operations of the sender, as long as the data is not exhausted. *)
Theorem window_bounds_kept s :
  window_ok s ->
  window_ok (exec Client.receive_ack s) /\
  window_ok (exec Client.handle_timeout s) /\
  (supply_ok s -> window_ok (exec Client.send_window_packets s)).
Proof.
  intros Hok. split; [apply receive_ack_window_ok, Hok|].
  split; [apply handle_timeout_window_ok, Hok|].
  intros Hsup. apply send_window_packets_window_ok; assumption.
Qed.

(** C2 fails on the code. The window is filled by ten packets of 40 bytes:
    the usage is 400, the sum of the payloads not acknowledged. An ACK of 1
    then acknowledges and evicts the packet 0: nine packets of 40 bytes are
    left, 360 bytes, and the usage is 359, since [receive_ack] releases
    [end - start + 1] bytes where [send_window_packets] had counted
    [len(chunk)], that is [end - start]. *)
Theorem window_usage_off_by_one :
  let s := filled [Some ack_1] in
  let s' := exec Client.receive_ack s in
  Client.current_window_usage (Client.self s) = 400 /\
  Client.unacked_payload (Client.buffer (Client.self s)) = 400 /\
  Client.base (Client.self s') = 1 /\
  Client.next_seq (Client.self s') = 10 /\
  Client.unacked_payload (Client.buffer (Client.self s')) = 360 /\
  Client.current_window_usage (Client.self s') = 359.
Proof. vm_compute. repeat split; reflexivity. Qed.

(* ------------------------------------------------------------------ *)
(** ** The responder on a datagram shorter than a header                *)
(* ------------------------------------------------------------------ *)

Lemma parse_header_prefix d :
  Codec.parse_header (slice_to d 8) = Codec.parse_header d.
Proof.
  unfold Codec.parse_header. rewrite !slice_to_firstn by lia.
  rewrite firstn_firstn. reflexivity.
Qed.

Lemma handle_client_unparsed data addr s e :
  Codec.parse_header data = Raise e ->
  Server.handle_client data addr s = (Raise e, s).
Proof.
  intros H. unfold Server.handle_client, Server.parse_header, lift, bind.
  rewrite parse_header_prefix, H. reflexivity.
Qed.

Lemma handle_client_short data addr s :
  len data < 8 -> Server.handle_client data addr s = (Raise StructError, s).
Proof. intros H. apply handle_client_unparsed, parse_header_short, H. Qed.

(** C9 fails on the code. On a datagram of two bytes, decoding fails with
    [struct.error] and [receive_ack] of the initiator returns at once, as
    the claim says; [handle_client] of the responder has no such test: the
    exception of [parse_header] leaves it uncaught. The state of the peers
    is left as it was, and the datagrams that follow are handled. *)
Theorem short_datagram_handler_raises :
  Codec.parse_header short_dgram = Raise StructError /\
  Client.receive_ack (filled [Some short_dgram]) =
    (Return tt, received (filled [Some short_dgram])) /\
  Server.handle_client short_dgram peer (established 1) =
    (Raise StructError, established 1) /\
  Server.start [(short_dgram, peer); (data_1, peer)] (established 1) =
    Server.start [(data_1, peer)] (established 1).
Proof.
  split; [reflexivity|]. split.
  - apply receive_ack_idle. vm_compute. exact I.
  - split.
    + apply handle_client_short. reflexivity.
    + cbn [Server.start]. unfold exec.
      rewrite (handle_client_short (slice_to short_dgram 1024) peer (established 1));
        reflexivity.
Qed.

(* ------------------------------------------------------------------ *)
(** ** The responder on a DATA packet                                   *)
(* ------------------------------------------------------------------ *)

Lemma on_data_spec seq addr s c :
  Server.connections (Server.self s) !! addr = Some c ->
  Server.state c = Server.ESTABLISHED ->
  Qltb (next_draw s) (Server.drop_rate (Server.self s)) = false ->
  (exists c',
     Server.connections (Server.self (exec (Server.on_data seq addr) s)) !! addr = Some c' /\
     Server.state c' = Server.ESTABLISHED /\
     Server.expected_seq c' = next_expected seq c /\
     Server.my_seq c' = Server.my_seq c) /\
  match Codec.build_header 4 0 (next_expected seq c) 400 15 with
  | Return ack_pkt =>
      result (Server.on_data seq addr) s = Return tt /\
      exists stamp,
        len stamp = 15 /\
        Server.wire (Server.env (exec (Server.on_data seq addr) s)) =
          Server.wire (Server.env s) ++ [(ack_pkt ++ stamp, addr)]
  | Raise e =>
      result (Server.on_data seq addr) s = Raise e /\
      Server.wire (Server.env (exec (Server.on_data seq addr) s)) =
        Server.wire (Server.env s)
  end.
Proof.
  intros Hc Hst Hdraw. unfold next_draw in Hdraw. unfold next_expected.
  unfold result, exec. unfold_server. unfold_m. server_simpl.
  repeat (first [rewrite Hc | rewrite Hst | rewrite Hdraw | rewrite lookup_insert_eq
                | progress server_simpl]).
  destruct (seq =? Server.expected_seq c);
    repeat (first [rewrite Hc | rewrite Hst | rewrite lookup_insert_eq
                  | progress server_simpl]);
    match goal with |- context [len ?l] => change (len l) with 15 end;
    match goal with |- context [Codec.build_header 4 0 ?e 400 15] =>
      destruct (Codec.build_header 4 0 e 400 15) as [ack_pkt|ex] end;
    server_simpl;
    repeat (first [rewrite Hc | rewrite lookup_insert_eq | progress server_simpl]).
  - split; [eexists; split; [reflexivity|]; auto|].
    split; [reflexivity|]. eexists. split; [|reflexivity]. reflexivity.
  - split; [eexists; split; [reflexivity|]; auto|]. split; reflexivity.
  - split; [eexists; split; [reflexivity|]; auto|].
    split; [reflexivity|]. eexists. split; [|reflexivity]. reflexivity.
  - split; [eexists; split; [reflexivity|]; auto|]. split; reflexivity.
Qed.

Lemma handle_client_data data addr s c seq a w l :
  Server.connections (Server.self s) !! addr = Some c ->
  Codec.parse_header data = Return (3, seq, a, w, l) ->
  Server.handle_client data addr s = Server.on_data seq addr s.
Proof.
  intros Hc Hp. unfold Server.handle_client, Server.parse_header, Server.known,
    Server.attr, lift, bind, gets, ret, when.
  rewrite parse_header_prefix, Hp, Hc. cbn [negb]. unfold ret. rewrite Hc.
  reflexivity.
Qed.

(* ------------------------------------------------------------------ *)
(** ** The table of connections of the responder                        *)
(* ------------------------------------------------------------------ *)

Lemma conn_step_refl addr cs : conn_step addr cs cs.
Proof. split; [reflexivity|]. intros c' H1 H2. exists c'. auto. Qed.

Lemma conn_step_trans addr cs1 cs2 cs3 :
  conn_step addr cs1 cs2 -> conn_step addr cs2 cs3 -> conn_step addr cs1 cs3.
Proof.
  intros [H1 H2] [H3 H4]. split.
  - intros a Ha. rewrite H3, H1 by exact Ha. reflexivity.
  - intros c' Hc' Hst. destruct (H4 c' Hc' Hst) as (c & Hc & Hst'). eauto.
Qed.

Lemma conn_step_closed addr cs c :
  Server.state c = Server.CLOSED -> conn_step addr cs (<[addr := c]> cs).
Proof.
  intros Hst. split.
  - intros a Ha. apply lookup_insert_ne. congruence.
  - intros c' Hc' Hne. rewrite lookup_insert_eq in Hc'. congruence.
Qed.

Lemma conn_step_same addr cs c0 c :
  cs !! addr = Some c0 -> Server.state c = Server.state c0 ->
  conn_step addr cs (<[addr := c]> cs).
Proof.
  intros Hc0 Hst. split.
  - intros a Ha. apply lookup_insert_ne. congruence.
  - intros c' Hc' Hne. rewrite lookup_insert_eq in Hc'. exists c0.
    split; [exact Hc0|]. congruence.
Qed.

Lemma conn_step_open addr cs c0 c :
  cs !! addr = Some c0 -> Server.state c0 <> Server.CLOSED ->
  conn_step addr cs (<[addr := c]> cs).
Proof.
  intros Hc0 Hst. split.
  - intros a Ha. apply lookup_insert_ne. congruence.
  - intros c' Hc' Hne. exists c0. auto.
Qed.

Lemma conn_step_delete addr cs : conn_step addr cs (delete addr cs).
Proof.
  split.
  - intros a Ha. apply lookup_delete_ne. congruence.
  - intros c' Hc' Hne. rewrite lookup_delete_eq in Hc'. discriminate.
Qed.

Lemma on_ack_step addr s :
  conn_step addr (table s) (table (exec (Server.on_ack addr) s)).
Proof.
  unfold table, exec. unfold_server. unfold_m. unfold Codec.pack_B. server_simpl.
  destruct (Server.connections (Server.self s) !! addr) as [c|] eqn:Hc; server_simpl;
    [|apply conn_step_refl].
  destruct (Server.state c) eqn:Hst; server_simpl; try apply conn_step_refl.
  rewrite Hc. server_simpl. rewrite lookup_insert_eq. server_simpl.
  assert (Hstep : conn_step addr (Server.connections (Server.self s))
    (<[addr := {| Server.state := Server.ESTABLISHED; Server.expected_seq := 0;
                  Server.my_seq := Server.my_seq c |}]>
       (<[addr := {| Server.state := Server.ESTABLISHED;
                     Server.expected_seq := Server.expected_seq c;
                     Server.my_seq := Server.my_seq c |}]>
          (Server.connections (Server.self s))))).
  { eapply conn_step_trans.
    - eapply conn_step_open; [exact Hc|congruence].
    - eapply conn_step_open; [apply lookup_insert_eq|discriminate]. }
  destruct (Codec.build_header 6 0 0 400 1) as [hdr|ex]; server_simpl; [|exact Hstep].
  match goal with |- context [int_of_float ?x] =>
    destruct (int_of_float x) as [percent|ex] end; server_simpl; [|exact Hstep].
  match goal with |- context [if ?b then _ else _] => destruct b end;
    server_simpl; exact Hstep.
Qed.

Lemma on_data_step seq addr s :
  conn_step addr (table s) (table (exec (Server.on_data seq addr) s)).
Proof.
  unfold table, exec. unfold_server. unfold_m. server_simpl.
  destruct (Server.connections (Server.self s) !! addr) as [c|] eqn:Hc; server_simpl;
    [|apply conn_step_refl].
  destruct (Server.state c) eqn:Hst; server_simpl; try apply conn_step_refl.
  rewrite Hc. server_simpl.
  match goal with |- context [Qltb ?r ?q] => destruct (Qltb r q) end;
    server_simpl; [apply conn_step_refl|].
  destruct (seq =? Server.expected_seq c); server_simpl;
    repeat (first [rewrite Hc | rewrite lookup_insert_eq | progress server_simpl]);
    match goal with |- context [Codec.build_header ?a ?b ?e ?d ?f] =>
      destruct (Codec.build_header a b e d f) as [ack_pkt|ex] end;
    server_simpl;
    first [apply conn_step_refl
          | eapply conn_step_same; [exact Hc|reflexivity]].
Qed.

Lemma on_fin_step seq addr s :
  conn_step addr (table s) (table (exec (Server.on_fin seq addr) s)).
Proof.
  unfold table, exec. unfold_server. unfold_m. server_simpl.
  destruct (Codec.build_header 5 0 (seq + 1) 400 0) as [pkt|ex]; server_simpl;
    [|apply conn_step_refl].
  destruct (Server.connections (Server.self s) !! addr) as [c|]; server_simpl;
    [apply conn_step_delete|apply conn_step_refl].
Qed.

Lemma on_syn_others seq addr s a :
  a <> addr -> table (exec (Server.on_syn seq addr) s) !! a = table s !! a.
Proof.
  intros Ha. unfold table, exec. unfold_server. unfold_m. server_simpl.
  match goal with |- context [Codec.build_header ?x ?b ?e ?d ?f] =>
    destruct (Codec.build_header x b e d f) as [pkt|ex] end; server_simpl;
    [|reflexivity].
  apply lookup_insert_ne. congruence.
Qed.

(** The state in which [handle_client] reaches its dispatch on the type:
    an address that has no record has got one, in the state CLOSED. *)
Lemma handle_client_parsed data addr s ptype seq ack w l :
  Codec.parse_header data = Return (ptype, seq, ack, w, l) ->
  exists s0,
    conn_step addr (table s) (table s0) /\
    (exists c, table s0 !! addr = Some c) /\
    (table s !! addr = None ->
       table s0 !! addr = Some {| Server.state := Server.CLOSED;
                                  Server.expected_seq := 0; Server.my_seq := 0 |}) /\
    Server.env s0 = Server.env s /\
    Server.handle_client data addr s =
      (if ptype =? 1 then Server.on_syn seq addr
       else if ptype =? 4 then Server.on_ack addr
       else if ptype =? 3 then Server.on_data seq addr
       else if ptype =? 5 then Server.on_fin seq addr
       else ret tt) s0.
Proof.
  intros Hp. unfold Server.handle_client, Server.parse_header, Server.known,
    Server.attr, lift, bind, gets, when.
  rewrite parse_header_prefix, Hp. unfold table.
  destruct (Server.connections (Server.self s) !! addr) as [c|] eqn:Hc.
  - exists s.
    split; [apply conn_step_refl|]. split; [eauto|]. split; [discriminate|].
    split; [reflexivity|]. cbv [negb ret]. cbv beta iota.
    rewrite Hc. rewrite !andb_true_r. reflexivity.
  - cbv [negb]. cbv beta iota. unfold Server.conn_set, Server.on_self, modify.
    eexists. split; [|split; [|split; [|split]]].
    5: { cbv [ret]. cbv beta iota. server_simpl.
         rewrite lookup_insert_eq, !andb_true_r. reflexivity. }
    + server_simpl. apply conn_step_closed. reflexivity.
    + server_simpl. rewrite lookup_insert_eq. eauto.
    + intros _. server_simpl. apply lookup_insert_eq.
    + reflexivity.
Qed.

(** The effect of [handle_client] on the table of connections. *)
Lemma handle_client_step data addr s :
  let s' := exec (Server.handle_client data addr) s in
  (forall a, a <> addr -> table s' !! a = table s !! a) /\
  (forall c', table s' !! addr = Some c' ->
     8 <= len data \/ table s !! addr = Some c') /\
  (forall c', table s' !! addr = Some c' -> Server.state c' <> Server.CLOSED ->
     (exists sq ak w l, Codec.parse_header data = Return (1, sq, ak, w, l)) \/
     (exists c, table s !! addr = Some c /\ Server.state c <> Server.CLOSED)).
Proof.
  intros s'. subst s'.
  destruct (Codec.parse_header data) as [[[[[ptype seq] ack] w] l]|ex] eqn:Hp.
  - pose proof (parse_header_len _ _ Hp) as Hlen.
    destruct (handle_client_parsed data addr s _ _ _ _ _ Hp)
      as (s0 & Hstep0 & _ & _ & _ & Hrun).
    unfold exec. rewrite Hrun.
    destruct (ptype =? 1) eqn:E1.
    { apply Z.eqb_eq in E1. subst ptype. split; [|split].
      - intros a Ha. change ((Server.on_syn seq addr s0).2)
          with (exec (Server.on_syn seq addr) s0).
        rewrite on_syn_others by exact Ha. apply (proj1 Hstep0), Ha.
      - intros c' _. left. exact Hlen.
      - intros c' _ _. left. eauto. }
    assert (Hstep : conn_step addr (table s0)
      (table ((if ptype =? 4 then Server.on_ack addr
               else if ptype =? 3 then Server.on_data seq addr
               else if ptype =? 5 then Server.on_fin seq addr
               else ret tt) s0).2)).
    { destruct (ptype =? 4); [apply on_ack_step|].
      destruct (ptype =? 3); [apply on_data_step|].
      destruct (ptype =? 5); [apply on_fin_step|apply conn_step_refl]. }
    pose proof (conn_step_trans _ _ _ _ Hstep0 Hstep) as [Hothers Hopen].
    split; [exact Hothers|]. split.
    + intros c' _. left. exact Hlen.
    + intros c' Hc' Hst. right. apply (Hopen c' Hc' Hst).
  - unfold exec. rewrite (handle_client_unparsed data addr s ex Hp). cbn [snd].
    split; [reflexivity|]. split; [auto|]. intros c' Hc' Hst. right. eauto.
Qed.

Lemma header_from_mono arrivals more a :
  header_from arrivals a -> header_from (arrivals ++ more) a.
Proof. intros (d & Hin & Hlen). exists d. split; [apply in_or_app; auto|exact Hlen]. Qed.

Lemma syn_from_mono arrivals more a :
  syn_from arrivals a -> syn_from (arrivals ++ more) a.
Proof.
  intros (d & sq & ak & w & l & Hin & Hp). exists d, sq, ak, w, l.
  split; [apply in_or_app; auto|exact Hp].
Qed.

Lemma accounted_step arrivals data addr s :
  accounted arrivals s ->
  accounted (arrivals ++ [(data, addr)])
    (exec (Server.handle_client (slice_to data 1024) addr) s).
Proof.
  intros Hinv a c Hc.
  destruct (handle_client_step (slice_to data 1024) addr s) as (Hothers & Hhdr & Hopen).
  assert (Hlast : In (data, addr) (arrivals ++ [(data, addr)]))
    by (apply in_or_app; right; left; reflexivity).
  destruct (decide (a = addr)) as [->|Hne].
  - split.
    + destruct (Hhdr c Hc) as [Hlen|Hold].
      * exists data. split; [exact Hlast|].
        rewrite slice_to_length in Hlen by lia. lia.
      * apply header_from_mono, (Hinv addr c Hold).
    + intros Hst. destruct (Hopen c Hc Hst) as [(sq & ak & w & l & Hp)|(c0 & Hc0 & Hst0)].
      * rewrite parse_header_recv in Hp. exists data, sq, ak, w, l. auto.
      * apply syn_from_mono, (Hinv addr c0 Hc0), Hst0.
  - rewrite (Hothers a Hne) in Hc. destruct (Hinv a c Hc) as [H1 H2].
    split; [apply header_from_mono, H1|]. intros Hst. apply syn_from_mono, H2, Hst.
Qed.

Lemma accounted_start arrivals :
  forall hist s, accounted hist s -> accounted (hist ++ arrivals) (Server.start arrivals s).
Proof.
  induction arrivals as [|[data addr] rest IH]; intros hist s Hinv.
  - rewrite app_nil_r. exact Hinv.
  - cbn [Server.start].
    replace (hist ++ (data, addr) :: rest) with ((hist ++ [(data, addr)]) ++ rest)
      by (rewrite <- app_assoc; reflexivity).
    apply IH, accounted_step, Hinv.
Qed.

Lemma on_ack_closed addr s c :
  table s !! addr = Some c -> Server.state c = Server.CLOSED ->
  Server.on_ack addr s = (Return tt, s).
Proof.
  unfold table. intros Hc Hst. unfold_server. unfold_m. rewrite Hc, Hst. reflexivity.
Qed.

Lemma on_data_closed seq addr s c :
  table s !! addr = Some c -> Server.state c = Server.CLOSED ->
  Server.on_data seq addr s = (Return tt, s).
Proof.
  unfold table. intros Hc Hst. unfold_server. unfold_m. rewrite Hc, Hst. reflexivity.
Qed.

Lemma on_fin_deletes seq addr s c :
  table s !! addr = Some c -> 0 <= seq < 65535 ->
  table (exec (Server.on_fin seq addr) s) !! addr = None.
Proof.
  unfold table. intros Hc Hseq. unfold exec. unfold_server. unfold_m.
  rewrite (build_header_ok 5 0 (seq + 1) 400 0) by lia. server_simpl.
  rewrite Hc. server_simpl. apply lookup_delete_eq.
Qed.

Lemma on_syn_opens seq addr s :
  0 <= seq < 65535 ->
  exists c,
    table (exec (Server.on_syn seq addr) s) !! addr = Some c /\
    Server.state c = Server.SYN_RECEIVED /\ Server.expected_seq c = 0.
Proof.
  intros Hseq. unfold table, exec. unfold_server. unfold_m. server_simpl.
  pose proof (Z.mod_pos_bound
    (Server.rand_src (Server.env s) (Server.rand_ix (Server.env s))) (65535 - 0 + 1)
    ltac:(lia)) as Hr.
  rewrite build_header_ok by lia. server_simpl.
  eexists. split; [apply lookup_insert_eq|]. split; reflexivity.
Qed.

(** C6, as stated, fails: one DATA packet from an address that never sent a
    SYN, and the address is in the table of connections. *)
Lemma peer_without_syn :
  table (Server.start [(data_1, peer)] fresh_server) !! peer = Some closed_record /\
  ~ syn_from [(data_1, peer)] peer.
Proof.
  split.
  - vm_compute. reflexivity.
  - intros (d & sq & ak & w & l & Hin & Hp).
    destruct Hin as [Heq|[]]. inversion Heq; subst d. discriminate Hp.
Qed.

(** C6, amended. The responder creates the record of an address on the
    first datagram from that address that holds a full header, whatever its
    type, in the state CLOSED; a SYN of sequence number below 65535 puts the
    record in the state SYN_RECEIVED; a FIN of sequence number below 65535
    destroys the record. Hence, at all times, every address of the table has
    sent a
    datagram that holds a full header, and every address whose record is out
    of the state CLOSED has sent a SYN. *)
Theorem connection_lifecycle rate e arrivals :
  (forall a c,
     table (Server.start arrivals {| Server.self := Server.init rate; Server.env := e |})
       !! a = Some c ->
     header_from arrivals a /\
     (Server.state c <> Server.CLOSED -> syn_from arrivals a)) /\
  (forall s data addr ptype seq ack w l,
     table s !! addr = None ->
     Codec.parse_header data = Return (ptype, seq, ack, w, l) ->
     ptype <> 1 -> ptype <> 5 ->
     table (exec (Server.handle_client data addr) s) !! addr = Some closed_record) /\
  (forall s data addr seq ack w l,
     Codec.parse_header data = Return (1, seq, ack, w, l) ->
     0 <= seq < 65535 ->
     exists c,
       table (exec (Server.handle_client data addr) s) !! addr = Some c /\
       Server.state c = Server.SYN_RECEIVED /\ Server.expected_seq c = 0) /\
  (forall s data addr seq ack w l,
     Codec.parse_header data = Return (5, seq, ack, w, l) ->
     0 <= seq < 65535 ->
     table (exec (Server.handle_client data addr) s) !! addr = None).
Proof.
  split; [|split; [|split]].
  - intros a c Hc.
    apply (accounted_start arrivals []
             {| Server.self := Server.init rate; Server.env := e |}); [|exact Hc].
    intros a0 c0 H0. unfold table in H0. cbn in H0. rewrite lookup_empty in H0.
    discriminate.
  - intros s data addr ptype seq ack w l Hnone Hp H1 H5.
    destruct (handle_client_parsed data addr s _ _ _ _ _ Hp)
      as (s0 & _ & _ & Hnew & _ & Hrun).
    specialize (Hnew Hnone). unfold exec. rewrite Hrun.
    replace (ptype =? 1) with false by (symmetry; apply Z.eqb_neq; exact H1).
    replace (ptype =? 5) with false by (symmetry; apply Z.eqb_neq; exact H5).
    destruct (ptype =? 4).
    + rewrite (on_ack_closed addr s0 closed_record Hnew eq_refl). exact Hnew.
    + destruct (ptype =? 3).
      * rewrite (on_data_closed seq addr s0 closed_record Hnew eq_refl). exact Hnew.
      * exact Hnew.
  - intros s data addr seq ack w l Hp Hseq.
    destruct (handle_client_parsed data addr s _ _ _ _ _ Hp)
      as (s0 & _ & _ & _ & _ & Hrun).
    unfold exec. rewrite Hrun. cbn [Z.eqb Pos.eqb].
    apply (on_syn_opens seq addr s0 Hseq).
  - intros s data addr seq ack w l Hp Hseq.
    destruct (handle_client_parsed data addr s _ _ _ _ _ Hp)
      as (s0 & _ & (c & Hc) & _ & _ & Hrun).
    unfold exec. rewrite Hrun. cbn [Z.eqb Pos.eqb].
    apply (on_fin_deletes seq addr s0 c Hc Hseq).
Qed.

Lemma connection_lifecycle_witness :
  (table (Server.start [(syn_dgram, peer); (ack_dgram, peer)] fresh_server) !! peer =
     Some {| Server.state := Server.ESTABLISHED; Server.expected_seq := 0;
             Server.my_seq := 100 |} /\
   header_from [(syn_dgram, peer); (ack_dgram, peer)] peer /\
   syn_from [(syn_dgram, peer); (ack_dgram, peer)] peer) /\
  (table fresh_server !! peer = None /\
   table (exec (Server.handle_client config_dgram peer) fresh_server) !! peer =
     Some closed_record) /\
  (exists c,
     table (exec (Server.handle_client syn_dgram peer) fresh_server) !! peer = Some c /\
     Server.state c = Server.SYN_RECEIVED /\ Server.expected_seq c = 0) /\
  table (exec (Server.handle_client fin_dgram peer) (established 30)) !! peer = None.
Proof.
  destruct (connection_lifecycle 0 server_env [(syn_dgram, peer); (ack_dgram, peer)])
    as (Hinv & Hnew & Hsyn & Hfin).
  assert (Hrun :
    table (Server.start [(syn_dgram, peer); (ack_dgram, peer)] fresh_server) !! peer =
    Some {| Server.state := Server.ESTABLISHED; Server.expected_seq := 0;
            Server.my_seq := 100 |}) by (vm_compute; reflexivity).
  assert (Hnone : table fresh_server !! peer = None) by (vm_compute; reflexivity).
  split; [|split; [|split]].
  - destruct (Hinv peer _ Hrun) as [H1 H2].
    split; [exact Hrun|]. split; [exact H1|]. apply H2. discriminate.
  - split; [exact Hnone|].
    apply (Hnew fresh_server config_dgram peer 6 0 0 400 1);
      [exact Hnone|reflexivity|lia|lia].
  - apply (Hsyn fresh_server syn_dgram peer 7 0 400 0); [reflexivity|lia].
  - apply (Hfin (established 30) fin_dgram peer 30 0 400 0); [reflexivity|lia].
Defined.

(* ------------------------------------------------------------------ *)
(** ** The cumulative ACK of the responder                              *)
(* ------------------------------------------------------------------ *)

(** [on_data] leaves the drop rate and the source of the draws as they
    were. *)
Lemma on_data_frame seq addr s :
  Server.drop_rate (Server.self (exec (Server.on_data seq addr) s)) =
    Server.drop_rate (Server.self s) /\
  Server.unif_src (Server.env (exec (Server.on_data seq addr) s)) =
    Server.unif_src (Server.env s).
Proof.
  unfold exec. unfold_server. unfold_m. server_simpl.
  destruct (Server.connections (Server.self s) !! addr) as [c|] eqn:Hc; server_simpl;
    [|auto].
  destruct (Server.state c) eqn:Hst; server_simpl; auto.
  rewrite Hc. server_simpl.
  match goal with |- context [Qltb ?r ?q] => destruct (Qltb r q) end;
    server_simpl; [auto|].
  destruct (seq =? Server.expected_seq c); server_simpl;
    repeat (first [rewrite Hc | rewrite lookup_insert_eq | progress server_simpl]);
    match goal with |- context [Codec.build_header ?a ?b ?e ?d ?f] =>
      destruct (Codec.build_header a b e d f) as [ack_pkt|ex] end;
    server_simpl; auto.
Qed.

Lemma parse_data_dgram n :
  0 <= n <= 65535 -> Codec.parse_header (data_dgram n) = Return (3, n, 0, 400, 0).
Proof.
  intros Hn. unfold data_dgram.
  destruct (Codec.build_header 3 n 0 400 0) as [hdr|ex] eqn:Hb.
  - apply (parse_built 3 n 0 400 0 hdr); try lia. exact Hb.
  - rewrite build_header_ok in Hb by lia. discriminate.
Qed.

Lemma expecting_step n s :
  0 <= n < 65535 -> expecting n s ->
  expecting (n + 1) (exec (Server.handle_client (slice_to (data_dgram n) 1024) peer) s).
Proof.
  intros Hn ((c & Hc & Hst & Hexp) & Hrate & Hsrc).
  assert (Hp : Codec.parse_header (slice_to (data_dgram n) 1024) = Return (3, n, 0, 400, 0))
    by (rewrite parse_header_recv; apply parse_data_dgram; lia).
  assert (Hdraw : Qltb (next_draw s) (Server.drop_rate (Server.self s)) = false)
    by (unfold next_draw; rewrite Hrate, Hsrc; reflexivity).
  unfold exec. rewrite (handle_client_data _ peer s c n 0 400 0 Hc Hp).
  destruct (on_data_spec n peer s c Hc Hst Hdraw) as [(c' & Hc' & Hst' & Hexp' & _) _].
  destruct (on_data_frame n peer s) as [Hrate' Hsrc'].
  unfold exec in *. split; [|split].
  - exists c'. split; [exact Hc'|]. split; [exact Hst'|].
    rewrite Hexp'. unfold next_expected. rewrite Hexp, Z.eqb_refl. reflexivity.
  - rewrite Hrate'. exact Hrate.
  - rewrite Hsrc'. exact Hsrc.
Qed.

Lemma start_cons data addr rest s :
  Server.start ((data, addr) :: rest) s =
  Server.start rest (exec (Server.handle_client (slice_to data 1024) addr) s).
Proof. reflexivity. Qed.

Lemma in_order_cons from count :
  in_order from (S count) = (data_dgram (Z.of_nat from), peer) :: in_order (S from) count.
Proof. reflexivity. Qed.

Lemma expecting_run count :
  forall from s,
    Z.of_nat from + Z.of_nat count <= 65535 ->
    expecting (Z.of_nat from) s ->
    expecting (Z.of_nat from + Z.of_nat count) (Server.start (in_order from count) s).
Proof.
  induction count as [|count IH]; intros from s Hle Hs.
  - rewrite Z.add_0_r. exact Hs.
  - rewrite in_order_cons, start_cons.
    replace (Z.of_nat from + Z.of_nat (S count))
      with (Z.of_nat (S from) + Z.of_nat count) by lia.
    apply IH; [lia|].
    replace (Z.of_nat (S from)) with (Z.of_nat from + 1) by lia.
    apply expecting_step; [lia|exact Hs].
Qed.

Lemma worn_expecting : expecting 65535 worn.
Proof.
  unfold worn. rewrite !start_cons.
  match goal with |- expecting _ (Server.start _ ?s2) =>
    assert (Hs2 : expecting (Z.of_nat 0) s2) end.
  { split; [|split].
    - eexists. split; [vm_compute; reflexivity|]. split; reflexivity.
    - reflexivity.
    - reflexivity. }
  assert (Hle : Z.of_nat 0 + Z.of_nat (Z.to_nat 65535) <= 65535) by lia.
  pose proof (expecting_run (Z.to_nat 65535) 0 _ Hle Hs2) as Hrun.
  replace (Z.of_nat 0 + Z.of_nat (Z.to_nat 65535)) with 65535 in Hrun by lia.
  exact Hrun.
Qed.

Lemma overflow_at s :
  expecting 65535 s ->
  (exists c, table s !! peer = Some c /\
             Server.state c = Server.ESTABLISHED /\ Server.expected_seq c = 65535) /\
  Codec.parse_header data_65535 = Return (3, 65535, 0, 400, 0) /\
  Qltb (next_draw s) (Server.drop_rate (Server.self s)) = false /\
  result (Server.handle_client data_65535 peer) s = Raise StructError /\
  (exists c', table (exec (Server.handle_client data_65535 peer) s) !! peer = Some c' /\
              Server.state c' = Server.ESTABLISHED /\ Server.expected_seq c' = 65536) /\
  Server.wire (Server.env (exec (Server.handle_client data_65535 peer) s)) =
    Server.wire (Server.env s).
Proof.
  intros ((c & Hc & Hst & Hexp) & Hrate & Hsrc).
  assert (Hp : Codec.parse_header data_65535 = Return (3, 65535, 0, 400, 0))
    by reflexivity.
  assert (Hdraw : Qltb (next_draw s) (Server.drop_rate (Server.self s)) = false)
    by (unfold next_draw; rewrite Hrate, Hsrc; reflexivity).
  split; [eauto|]. split; [exact Hp|]. split; [exact Hdraw|].
  unfold result, exec. rewrite (handle_client_data _ peer s c _ _ _ _ Hc Hp).
  destruct (on_data_spec 65535 peer s c Hc Hst Hdraw)
    as [(c' & Hc' & Hst' & Hexp' & _) Hack].
  unfold next_expected in Hexp', Hack. rewrite Hexp in Hexp', Hack.
  change (Codec.build_header 4 0 (if 65535 =? 65535 then 65535 + 1 else 65535) 400 15)
    with (@Raise bytes StructError) in Hack.
  destruct Hack as [Hres Hwire]. unfold result, exec in *.
  split; [exact Hres|]. split; [|exact Hwire].
  exists c'. split; [exact Hc'|]. split; [exact Hst'|exact Hexp'].
Qed.

(** C5 fails on the code. After its handshake and 65535 DATA packets
    received in order, the peer is ESTABLISHED and the responder expects
    65535. The DATA packet of sequence number 65535, the last of the range
    that the header gives to sequence numbers, arrives and is not dropped:
    [expected_seq] becomes 65536, which [build_header] cannot encode in the
    16 bits of the ack field; [handle_client] ends with [struct.error] and
    no ACK is sent, where the claim has one ACK sent. *)
Lemma ack_field_overflow :
  (exists c, table worn !! peer = Some c /\
             Server.state c = Server.ESTABLISHED /\ Server.expected_seq c = 65535) /\
  Codec.parse_header data_65535 = Return (3, 65535, 0, 400, 0) /\
  Qltb (next_draw worn) (Server.drop_rate (Server.self worn)) = false /\
  result (Server.handle_client data_65535 peer) worn = Raise StructError /\
  (exists c', table (exec (Server.handle_client data_65535 peer) worn) !! peer = Some c' /\
              Server.state c' = Server.ESTABLISHED /\ Server.expected_seq c' = 65536) /\
  Server.wire (Server.env (exec (Server.handle_client data_65535 peer) worn)) =
    Server.wire (Server.env worn).
Proof. exact (overflow_at worn worn_expecting). Qed.

(** X27. On a DATA packet for an ESTABLISHED peer that is not
    dropped, [expected_seq] is incremented when the sequence number of the
    packet equals it and is left unchanged otherwise; and when the new
    [expected_seq] fits the 16 bits of the ack field, the responder sends
    one datagram to the peer: an ACK whose ack field is the new
    [expected_seq], followed by the 15 bytes of the time stamp. *)
Theorem data_packet_ack s data addr c seq a w l :
  table s !! addr = Some c ->
  Server.state c = Server.ESTABLISHED ->
  Codec.parse_header data = Return (3, seq, a, w, l) ->
  Qltb (next_draw s) (Server.drop_rate (Server.self s)) = false ->
  let s' := exec (Server.handle_client data addr) s in
  (exists c',
     table s' !! addr = Some c' /\
     Server.state c' = Server.ESTABLISHED /\
     Server.expected_seq c' =
       (if seq =? Server.expected_seq c then Server.expected_seq c + 1
        else Server.expected_seq c)) /\
  (0 <= next_expected seq c <= 65535 ->
   result (Server.handle_client data addr) s = Return tt /\
   exists ack_pkt stamp,
     Server.wire (Server.env s') = Server.wire (Server.env s) ++ [(ack_pkt ++ stamp, addr)] /\
     len ack_pkt = 8 /\ len stamp = 15 /\
     Codec.parse_header ack_pkt = Return (4, 0, next_expected seq c, 400, 15)).
Proof.
  intros Hc Hst Hp Hdraw s'. subst s'. unfold table in *.
  unfold result, exec. rewrite (handle_client_data data addr s c seq a w l Hc Hp).
  destruct (on_data_spec seq addr s c Hc Hst Hdraw) as [(c' & Hc' & Hst' & Hexp & _) Hack].
  split.
  - exists c'. split; [exact Hc'|]. split; [exact Hst'|exact Hexp].
  - intros Hrange.
    destruct (Codec.build_header 4 0 (next_expected seq c) 400 15) as [ack_pkt|ex] eqn:Hb.
    + destruct Hack as (Hres & stamp & Hlen & Hwire).
      split; [exact Hres|]. exists ack_pkt, stamp.
      destruct (parse_built 4 0 (next_expected seq c) 400 15 ack_pkt) as [H8 Hparse];
        try lia; [exact Hb|].
      auto.
    + rewrite build_header_ok in Hb by lia. discriminate.
Qed.

Lemma data_packet_ack_witness :
  let s := established 1 in
  let s' := exec (Server.handle_client data_2 peer) s in
  (exists c',
     table s' !! peer = Some c' /\
     Server.state c' = Server.ESTABLISHED /\
     Server.expected_seq c' = 1) /\
  result (Server.handle_client data_2 peer) s = Return tt /\
  exists ack_pkt stamp,
    Server.wire (Server.env s') = [(ack_pkt ++ stamp, peer)] /\
    len ack_pkt = 8 /\ len stamp = 15 /\
    Codec.parse_header ack_pkt = Return (4, 0, 1, 400, 15).
Proof.
  intros s s'.
  assert (Hc : table s !! peer =
    Some {| Server.state := Server.ESTABLISHED; Server.expected_seq := 1;
            Server.my_seq := 100 |}) by (vm_compute; reflexivity).
  assert (Hdraw : Qltb (next_draw s) (Server.drop_rate (Server.self s)) = false)
    by (vm_compute; reflexivity).
  destruct (data_packet_ack s data_2 peer _ 2 0 400 0 Hc eq_refl eq_refl Hdraw)
    as [Hexp Hack].
  split; [exact Hexp|]. apply Hack. cbn. lia.
Defined.

(* ------------------------------------------------------------------ *)
(** ** The header codec: ranges, errors and re-encoding                 *)
(* ------------------------------------------------------------------ *)

Lemma first_byte_value ptype : Z.lor (Z.shiftl ptype 4) 15 = ptype * 16 + 15.
Proof.
  rewrite Z.shiftl_mul_pow2 by lia. change (2 ^ 4) with 16.
  assert (Hland : Z.land (ptype * 16) 15 = 0).
  { apply Z.bits_inj'. intros n Hn. rewrite Z.land_spec, Z.bits_0.
    destruct (Z.lt_ge_cases n 4).
    - replace (ptype * 16) with (ptype * 2 ^ 4) by reflexivity.
      rewrite Z.mul_pow2_bits_low by lia. reflexivity.
    - rewrite (Z.bits_above_log2 15 n); [apply andb_false_r|lia|].
      change (Z.log2 15) with 3. lia. }
  rewrite <- Z.lxor_lor by exact Hland.
  rewrite <- Z.add_nocarry_lxor by exact Hland. reflexivity.
Qed.

Lemma build_header_total_fact ptype seq ack window length :
  Codec.build_header ptype seq ack window length =
  if fields_in_range ptype seq ack window length
  then Return (header_bytes ptype seq ack window length)
  else Raise StructError.
Proof.
  unfold Codec.build_header, Codec.pack_BHHHB, Codec.pack_B, Codec.pack_H,
    fields_in_range, header_bytes, Codec.first_byte.
  rewrite first_byte_value.
  repeat match goal with
  | |- context [?a <=? ?b] => destruct (Z.leb_spec a b)
  end; cbn; try reflexivity; lia.
Qed.


(** X1. [build_header] returns eight bytes when the five fields are in range,
    and raises [struct.error] in every other case: a type above 15, a
    negative field, a sequence number, ack or window above 65535, a length
    above 255. *)
Theorem build_header_total ptype seq ack window length :
  Codec.build_header ptype seq ack window length =
  if fields_in_range ptype seq ack window length
  then Return (header_bytes ptype seq ack window length)
  else Raise StructError.
Proof. exact (build_header_total_fact ptype seq ack window length). Qed.
Lemma byte_of_to_Z b : byte_of_Z (byte_to_Z b) = b.
Proof.
  unfold byte_of_Z, byte_to_Z. rewrite N2Z.id, Byte.of_to_N. reflexivity.
Qed.

Lemma join_range hi lo :
  0 <= Z.lor (Z.shiftl (byte_to_Z hi) 8) (byte_to_Z lo) <= 65535.
Proof.
  pose proof (byte_to_Z_range hi). pose proof (byte_to_Z_range lo).
  rewrite shift_or_split by lia. lia.
Qed.

Lemma join_split hi lo :
  byte_of_Z (Z.shiftr (Z.lor (Z.shiftl (byte_to_Z hi) 8) (byte_to_Z lo)) 8) = hi /\
  byte_of_Z (Z.land (Z.lor (Z.shiftl (byte_to_Z hi) 8) (byte_to_Z lo)) 255) = lo.
Proof.
  pose proof (byte_to_Z_range hi). pose proof (byte_to_Z_range lo).
  rewrite shift_or_split by lia.
  rewrite Z.shiftr_div_pow2 by lia. change (2 ^ 8) with 256.
  change 255 with (Z.ones 8). rewrite Z.land_ones by lia. change (2 ^ 8) with 256.
  set (h := byte_to_Z hi) in *. set (l := byte_to_Z lo) in *.
  assert (Hd : (h * 256 + l) / 256 = h)
    by (rewrite Z.div_add_l by lia; rewrite Z.div_small by lia; lia).
  assert (Hm : (h * 256 + l) mod 256 = l)
    by (rewrite (Z.add_comm (h * 256) l), Z.mod_add by lia; apply Z.mod_small; lia).
  rewrite Hd, Hm. subst h l. rewrite !byte_of_to_Z. auto.
Qed.

Lemma parsed_fields_in_range_fact data ptype seq ack window length :
  Codec.parse_header data = Return (ptype, seq, ack, window, length) ->
  0 <= ptype <= 15 /\ 0 <= seq <= 65535 /\ 0 <= ack <= 65535 /\
  0 <= window <= 65535 /\ 0 <= length <= 255.
Proof.
  unfold Codec.parse_header, Codec.unpack_BHHHB.
  destruct (slice_to data 8) as [|b0 [|s1 [|s0 [|a1 [|a0 [|w1 [|w0 [|l0 [|x t]]]]]]]]];
    try discriminate.
  intros H. injection H as <- <- <- <- <-.
  pose proof (byte_to_Z_range b0) as Hb. pose proof (byte_to_Z_range l0).
  split; [|repeat split; try apply join_range; lia].
  rewrite Z.shiftr_div_pow2 by lia. change (2 ^ 4) with 16.
  split; [apply Z.div_pos; lia|].
  apply Z.lt_succ_r. apply Z.div_lt_upper_bound; lia.
Qed.


(** X2. The fields that [parse_header] returns are in range: a decoded header
    can always be encoded again. *)
Theorem parsed_fields_in_range data ptype seq ack window length :
  Codec.parse_header data = Return (ptype, seq, ack, window, length) ->
  0 <= ptype <= 15 /\ 0 <= seq <= 65535 /\ 0 <= ack <= 65535 /\
  0 <= window <= 65535 /\ 0 <= length <= 255.
Proof. exact (parsed_fields_in_range_fact data ptype seq ack window length). Qed.
Lemma parsed_fields_in_range_witness :
  0 <= 3 <= 15 /\ 0 <= 2 <= 65535 /\ 0 <= 0 <= 65535 /\
  0 <= 400 <= 65535 /\ 0 <= 0 <= 255.
Proof. apply (parsed_fields_in_range data_2 3 2 0 400 0). reflexivity. Defined.

Lemma reserve_first_byte b :
  byte_of_Z (Codec.first_byte (Z.shiftr (byte_to_Z b) 4) 15) = reserve b.
Proof. destruct b; reflexivity. Qed.

(** X3. Decoding then encoding gives the first eight bytes back, the four low
    bits of the first one set: [build_header] is the inverse of
    [parse_header] up to the reserved nibble, and what follows the header is
    not looked at. *)
Theorem reencode_header data ptype seq ack window length :
  Codec.parse_header data = Return (ptype, seq, ack, window, length) ->
  exists b0 rest,
    slice_to data 8 = b0 :: rest /\
    Codec.build_header ptype seq ack window length = Return (reserve b0 :: rest).
Proof.
  intros Hp. pose proof (parsed_fields_in_range_fact _ _ _ _ _ _ Hp) as Hr.
  rewrite build_header_ok by tauto.
  revert Hp. unfold Codec.parse_header, Codec.unpack_BHHHB.
  destruct (slice_to data 8) as [|b0 [|s1 [|s0 [|a1 [|a0 [|w1 [|w0 [|l0 [|x t]]]]]]]]];
    try discriminate.
  intros H. injection H as <- <- <- <- <-.
  eexists _, _. split; [reflexivity|].
  rewrite reserve_first_byte.
  rewrite !(proj1 (join_split _ _)), !(proj2 (join_split _ _)), byte_of_to_Z.
  reflexivity.
Qed.

Lemma reencode_header_witness :
  exists b0 rest,
    slice_to config_dgram 8 = b0 :: rest /\
    Codec.build_header 6 0 0 400 1 = Return (reserve b0 :: rest).
Proof. apply (reencode_header config_dgram 6 0 0 400 1). reflexivity. Defined.

Lemma slice_to_app {A} (h p : list A) n :
  len h = n -> slice_to (h ++ p) n = h.
Proof.
  intros Hn. pose proof (len_nonneg h). rewrite slice_to_firstn by lia.
  unfold len in Hn. replace (Z.to_nat n) with (List.length h + 0)%nat by lia.
  rewrite firstn_app_2. cbn. apply app_nil_r.
Qed.

(** X4. A packet is a header followed by a payload: decoding it gives the
    fields of the header, whatever the payload. *)
Theorem parse_packet ptype seq ack window length hdr payload :
  Codec.build_header ptype seq ack window length = Return hdr ->
  Codec.parse_header (hdr ++ payload) = Return (ptype, seq, ack, window, length).
Proof.
  intros Hb. rewrite build_header_total_fact in Hb.
  destruct (fields_in_range ptype seq ack window length) eqn:Hr; [|discriminate].
  unfold fields_in_range in Hr. repeat rewrite andb_true_iff in Hr.
  repeat match goal with H : _ /\ _ |- _ => destruct H end.
  repeat match goal with H : (_ <=? _) = true |- _ => apply Z.leb_le in H end.
  assert (Hlen : len hdr = 8) by (injection Hb as <-; reflexivity).
  unfold Codec.parse_header. rewrite (slice_to_app hdr payload 8 Hlen).
  rewrite <- (slice_to_short hdr 8) by lia.
  apply (parse_built ptype seq ack window length hdr); try lia.
  rewrite build_header_ok by lia. exact Hb.
Qed.

Lemma parse_packet_witness :
  Codec.parse_header (header_bytes 3 2 0 400 3 ++ [x41; x42; x43]%byte) =
  Return (3, 2, 0, 400, 3).
Proof. apply (parse_packet 3 2 0 400 3). reflexivity. Defined.

(* ------------------------------------------------------------------ *)
(** ** The responder, branch by branch                                  *)
(* ------------------------------------------------------------------ *)

Lemma with_record_table addr s :
  exists c, table (with_record addr s) !! addr = Some c /\
            (table s !! addr = None -> c = closed_record) /\
            (forall c0, table s !! addr = Some c0 -> c = c0).
Proof.
  unfold with_record. destruct (table s !! addr) as [c|] eqn:Hc.
  - exists c. rewrite Hc. split; [reflexivity|]. split; [discriminate|].
    intros c0 H. congruence.
  - exists closed_record. unfold table at 1. cbn. rewrite lookup_insert_eq.
    split; [reflexivity|]. split; [reflexivity|discriminate].
Qed.

Lemma with_record_others addr s a :
  a <> addr -> table (with_record addr s) !! a = table s !! a.
Proof.
  intros Ha. unfold with_record. destruct (table s !! addr); [reflexivity|].
  unfold table at 1. cbn. apply lookup_insert_ne. congruence.
Qed.

Lemma handle_client_dispatch data addr s ptype seq ack w l :
  Codec.parse_header data = Return (ptype, seq, ack, w, l) ->
  Server.handle_client data addr s =
    (if ptype =? 1 then Server.on_syn seq addr
     else if ptype =? 4 then Server.on_ack addr
     else if ptype =? 3 then Server.on_data seq addr
     else if ptype =? 5 then Server.on_fin seq addr
     else ret tt) (with_record addr s).
Proof.
  intros Hp. unfold Server.handle_client, Server.parse_header, Server.known,
    Server.attr, lift, bind, gets, when.
  rewrite parse_header_prefix, Hp. unfold with_record, table.
  destruct (Server.connections (Server.self s) !! addr) as [c|] eqn:Hc.
  - cbv [negb ret]. cbv beta iota. rewrite Hc. rewrite !andb_true_r. reflexivity.
  - cbv [negb]. cbv beta iota. unfold Server.conn_set, Server.on_self, modify.
    cbv [ret]. cbv beta iota. server_simpl.
    rewrite lookup_insert_eq, !andb_true_r. reflexivity.
Qed.

Lemma tally_refl s : tally s s.
Proof. unfold tally. cbn zeta. repeat split; lia. Qed.

Ltac tally_done :=
  unfold tally; cbn zeta; server_simpl;
  cbn [Server.client_to_server_sent Server.client_to_server_dropped
       Server.server_to_client_sent];
  unfold len; rewrite ?length_app; cbn [List.length]; repeat split; lia.

Ltac tally_solve := first [apply tally_refl | tally_done].

Lemma on_syn_tally seq addr s : tally s (exec (Server.on_syn seq addr) s).
Proof.
  unfold exec. unfold_server. unfold_m. server_simpl.
  match goal with |- context [Codec.build_header ?x ?b ?e ?d ?f] =>
    destruct (Codec.build_header x b e d f) as [pkt|ex] end; server_simpl;
    [tally_done|tally_solve].
Qed.

Lemma on_ack_tally addr s : tally s (exec (Server.on_ack addr) s).
Proof.
  unfold exec. unfold_server. unfold_m. unfold Codec.pack_B. server_simpl.
  destruct (Server.connections (Server.self s) !! addr) as [c|] eqn:Hc; server_simpl;
    [|tally_solve].
  destruct (Server.state c) eqn:Hst; server_simpl; try tally_solve.
  rewrite Hc. server_simpl. rewrite lookup_insert_eq. server_simpl.
  destruct (Codec.build_header 6 0 0 400 1) as [hdr|ex]; server_simpl; [|tally_done].
  match goal with |- context [int_of_float ?x] =>
    destruct (int_of_float x) as [percent|ex] end; server_simpl; [|tally_done].
  match goal with |- context [if ?b then _ else _] => destruct b end;
    server_simpl; tally_done.
Qed.

Lemma on_data_tally seq addr s : tally s (exec (Server.on_data seq addr) s).
Proof.
  unfold exec. unfold_server. unfold_m. server_simpl.
  destruct (Server.connections (Server.self s) !! addr) as [c|] eqn:Hc; server_simpl;
    [|tally_solve].
  destruct (Server.state c) eqn:Hst; server_simpl; try tally_solve.
  rewrite Hc. server_simpl.
  match goal with |- context [Qltb ?r ?q] => destruct (Qltb r q) end;
    server_simpl; [tally_done|].
  destruct (seq =? Server.expected_seq c); server_simpl;
    repeat (first [rewrite Hc | rewrite lookup_insert_eq | progress server_simpl]);
    match goal with |- context [Codec.build_header ?a ?b ?e ?d ?f] =>
      destruct (Codec.build_header a b e d f) as [ack_pkt|ex] end;
    server_simpl; tally_done.
Qed.

Lemma on_fin_tally seq addr s : tally s (exec (Server.on_fin seq addr) s).
Proof.
  unfold exec. unfold_server. unfold_m. server_simpl.
  destruct (Codec.build_header 5 0 (seq + 1) 400 0) as [pkt|ex]; server_simpl;
    [|tally_solve].
  destruct (Server.connections (Server.self s) !! addr) as [c|]; server_simpl;
    tally_done.
Qed.

Lemma with_record_tally addr s : tally s (with_record addr s).
Proof.
  unfold with_record. destruct (table s !! addr); [tally_solve|tally_done].
Qed.

Lemma tally_trans s1 s2 s3 : tally s1 s2 -> tally s2 s3 ->
  len (Server.wire (Server.env s2)) = len (Server.wire (Server.env s1)) ->
  Server.stats (Server.self s2) = Server.stats (Server.self s1) ->
  tally s1 s3.
Proof.
  unfold tally. cbn zeta. intros H12 H23 Hw Hs. rewrite Hw, Hs in H23.
  destruct H12 as (_ & _ & _ & _ & Hr). rewrite Hr in H23. exact H23.
Qed.

Lemma handle_client_tally data addr s :
  tally s (exec (Server.handle_client data addr) s).
Proof.
  destruct (Codec.parse_header data) as [[[[[ptype seq] ack] w] l]|ex] eqn:Hp.
  - unfold exec. rewrite (handle_client_dispatch data addr s _ _ _ _ _ Hp).
    apply (tally_trans s (with_record addr s)).
    + apply with_record_tally.
    + destruct (ptype =? 1); [apply on_syn_tally|].
      destruct (ptype =? 4); [apply on_ack_tally|].
      destruct (ptype =? 3); [apply on_data_tally|].
      destruct (ptype =? 5); [apply on_fin_tally|apply tally_refl].
    + unfold with_record. destruct (table s !! addr); reflexivity.
    + unfold with_record. destruct (table s !! addr); reflexivity.
  - unfold exec. rewrite (handle_client_unparsed data addr s ex Hp). apply tally_refl.
Qed.

(** X5. The counters of the responder tell the truth. From its creation on,
    whatever arrives: [stats['server_to_client']['sent']] is the number of
    datagrams sent; at most one datagram is sent for each datagram received;
    what is counted as dropped is at most what is counted as received, itself
    at most the number of datagrams received; and the drop rate is the one
    the responder was created with. *)
Theorem responder_accounting rate e arrivals :
  let s := {| Server.self := Server.init rate; Server.env := e |} in
  let s' := Server.start arrivals s in
  let sent := len (Server.wire (Server.env s')) - len (Server.wire e) in
  Server.server_to_client_sent (Server.stats (Server.self s')) = sent /\
  0 <= sent <= len arrivals /\
  0 <= Server.client_to_server_dropped (Server.stats (Server.self s'))
    <= Server.client_to_server_sent (Server.stats (Server.self s')) /\
  Server.client_to_server_sent (Server.stats (Server.self s')) <= len arrivals /\
  Server.drop_rate (Server.self s') = rate.
Proof.
  intros s s' sent. subst s' sent.
  assert (Hgen : forall arr s0 k,
    Server.server_to_client_sent (Server.stats (Server.self s0)) =
      len (Server.wire (Server.env s0)) - len (Server.wire e) ->
    0 <= len (Server.wire (Server.env s0)) - len (Server.wire e) <= k ->
    0 <= Server.client_to_server_dropped (Server.stats (Server.self s0))
      <= Server.client_to_server_sent (Server.stats (Server.self s0)) ->
    Server.client_to_server_sent (Server.stats (Server.self s0)) <= k ->
    Server.drop_rate (Server.self s0) = rate ->
    let s1 := Server.start arr s0 in
    Server.server_to_client_sent (Server.stats (Server.self s1)) =
      len (Server.wire (Server.env s1)) - len (Server.wire e) /\
    0 <= len (Server.wire (Server.env s1)) - len (Server.wire e) <= k + len arr /\
    0 <= Server.client_to_server_dropped (Server.stats (Server.self s1))
      <= Server.client_to_server_sent (Server.stats (Server.self s1)) /\
    Server.client_to_server_sent (Server.stats (Server.self s1)) <= k + len arr /\
    Server.drop_rate (Server.self s1) = rate).
  { induction arr as [|[d a] arr IH]; intros s0 k H1 H2 H3 H4 H5.
    - cbn [Server.start]. cbn zeta.
      assert (Hn : len (@nil (bytes * address)) = 0) by reflexivity. rewrite Hn.
      repeat split; try lia. exact H5.
    - cbn [Server.start].
      pose proof (handle_client_tally (slice_to d 1024) a s0) as Ht.
      unfold tally in Ht. cbn zeta in Ht.
      destruct Ht as (T1 & T2 & T3 & T4 & T5).
      specialize (IH (exec (Server.handle_client (slice_to d 1024) a) s0) (k + 1)).
      replace (len ((d, a) :: arr)) with (1 + len arr) by (unfold len; cbn; lia).
      replace (k + (1 + len arr)) with (k + 1 + len arr) by lia.
      apply IH; try lia. rewrite T5. exact H5. }
  specialize (Hgen arrivals s 0). cbn zeta in Hgen.
  replace (0 + len arrivals) with (len arrivals) in Hgen by lia.
  apply Hgen; cbn; lia || reflexivity.
Qed.

Lemma drawn_seq_range s : 0 <= drawn_seq s <= 65535.
Proof.
  unfold drawn_seq.
  pose proof (Z.mod_pos_bound
    (Server.rand_src (Server.env s) (Server.rand_ix (Server.env s))) (65535 - 0 + 1)).
  lia.
Qed.

Lemma with_record_env addr s : Server.env (with_record addr s) = Server.env s.
Proof. unfold with_record. destruct (table s !! addr); reflexivity. Qed.

Lemma build_header_overflow ptype seq window length :
  Codec.build_header ptype seq (65535 + 1) window length = Raise StructError.
Proof.
  rewrite build_header_total_fact. unfold fields_in_range.
  replace (65535 + 1 <=? 65535) with false by reflexivity.
  rewrite !andb_false_r. reflexivity.
Qed.

(** X6. A SYN is answered whatever the record of its sender holds: the
    responder draws a sequence number, sends the SYN_ACK that carries it and
    acknowledges the sequence number of the SYN plus one, and puts the
    record in the state SYN_RECEIVED. The SYN of sequence number 65535 is
    the exception: its acknowledgement does not fit the ack field,
    [struct.error] ends the handler, nothing is sent, and the record is
    left as it was found, or CLOSED if the address had none. *)
Theorem syn_reply s data addr seq ack w l :
  Codec.parse_header data = Return (1, seq, ack, w, l) ->
  let s' := exec (Server.handle_client data addr) s in
  if seq =? 65535 then
    result (Server.handle_client data addr) s = Raise StructError /\
    Server.wire (Server.env s') = Server.wire (Server.env s) /\
    table s' = table (with_record addr s)
  else
    result (Server.handle_client data addr) s = Return tt /\
    table s' !! addr =
      Some {| Server.state := Server.SYN_RECEIVED; Server.expected_seq := 0;
              Server.my_seq := drawn_seq s |} /\
    exists syn_ack,
      Server.wire (Server.env s') = Server.wire (Server.env s) ++ [(syn_ack, addr)] /\
      Codec.parse_header syn_ack = Return (2, drawn_seq s, seq + 1, 400, 0).
Proof.
  intros Hp s'. subst s'.
  pose proof (parsed_fields_in_range_fact _ _ _ _ _ _ Hp) as (_ & Hseq & _).
  pose proof (drawn_seq_range s) as Hmy.
  unfold result, exec. rewrite (handle_client_dispatch data addr s _ _ _ _ _ Hp).
  cbn [Z.eqb Pos.eqb].
  unfold Server.on_syn, Server.randint, Server.build_header, Server.sendto,
    Server.count_server_sent, Server.conn_set, Server.on_self, Server.on_env.
  unfold_m. server_simpl. rewrite !with_record_env. fold (drawn_seq s).
  destruct (seq =? 65535) eqn:E.
  - apply Z.eqb_eq in E. subst seq. rewrite build_header_overflow. cbn.
    rewrite ?with_record_env. auto.
  - apply Z.eqb_neq in E.
    rewrite (build_header_ok 2 (drawn_seq s) (seq + 1) 400 0) by lia. cbn.
    split; [reflexivity|]. split; [apply lookup_insert_eq|].
    eexists. rewrite ?with_record_env. split; [reflexivity|].
    apply (parse_built 2 (drawn_seq s) (seq + 1) 400 0); try lia.
    apply build_header_ok; lia.
Qed.

Lemma syn_reply_witness :
  let s' := exec (Server.handle_client syn_dgram peer) (established 5) in
  result (Server.handle_client syn_dgram peer) (established 5) = Return tt /\
  table s' !! peer =
    Some {| Server.state := Server.SYN_RECEIVED; Server.expected_seq := 0;
            Server.my_seq := 100 |} /\
  exists syn_ack,
    Server.wire (Server.env s') = [(syn_ack, peer)] /\
    Codec.parse_header syn_ack = Return (2, 100, 8, 400, 0).
Proof.
  apply (syn_reply (established 5) syn_dgram peer 7 0 400 0). reflexivity.
Defined.

Lemma ack_establishes_fact s data addr seq ack w l c :
  Codec.parse_header data = Return (4, seq, ack, w, l) ->
  table s !! addr = Some c ->
  Server.state c = Server.SYN_RECEIVED ->
  0 <= rate_percent s <= 255 ->
  let s' := exec (Server.handle_client data addr) s in
  result (Server.handle_client data addr) s = Return tt /\
  table s' !! addr =
    Some {| Server.state := Server.ESTABLISHED; Server.expected_seq := 0;
            Server.my_seq := Server.my_seq c |} /\
  exists hdr,
    Server.wire (Server.env s') =
      Server.wire (Server.env s) ++ [(hdr ++ [byte_of_Z (rate_percent s)], addr)] /\
    Codec.parse_header hdr = Return (6, 0, 0, 400, 1).
Proof.
  intros Hp Hc Hst Hrate s'. subst s'. unfold table in Hc. unfold rate_percent in *.
  unfold result, exec. rewrite (handle_client_dispatch data addr s _ _ _ _ _ Hp).
  cbn [Z.eqb Pos.eqb]. unfold with_record, table. rewrite Hc.
  unfold_server. unfold_m. unfold Codec.pack_B. server_simpl.
  repeat (first [rewrite Hc | rewrite Hst | rewrite lookup_insert_eq
                | progress server_simpl]).
  change (Codec.build_header 6 0 0 400 1) with (Return (header_bytes 6 0 0 400 1)).
  cbv beta iota.
  destruct (int_of_float (float_mul (Server.drop_rate (Server.self s)) 100))
    as [percent|ex]; [|lia].
  cbv beta iota.
  replace ((0 <=? percent) && (percent <=? 255)) with true
    by (symmetry; apply andb_true_iff; split; apply Z.leb_le; lia).
  server_simpl.
  split; [reflexivity|]. split.
  - rewrite lookup_insert_eq. reflexivity.
  - exists (header_bytes 6 0 0 400 1). split; reflexivity.
Qed.



(** The rounding of the product shows in the byte: with the float [0.3] the
    product is the float 30 and the byte is 30; with the float [0.29] the
    product is a float below 29 and the byte is 28. *)
Lemma rate_percent_rounded :
  rate_percent default_server = 30 /\
  rate_percent {| Server.self := Server.init float_0_29; Server.env := server_env |} = 28.
Proof. split; vm_compute; reflexivity. Qed.

(** X8. What the responder ignores. For an address that has a record: an ACK
    when the state is not SYN_RECEIVED, a DATA packet when the state is not
    ESTABLISHED, and every packet whose type is none of SYN, DATA, ACK and
    FIN leave the whole state as it was; nothing is sent, nothing counted. *)
Theorem packet_ignored s data addr ptype seq ack w l c :
  Codec.parse_header data = Return (ptype, seq, ack, w, l) ->
  table s !! addr = Some c ->
  (ptype = 4 /\ Server.state c <> Server.SYN_RECEIVED) \/
  (ptype = 3 /\ Server.state c <> Server.ESTABLISHED) \/
  (ptype <> 1 /\ ptype <> 3 /\ ptype <> 4 /\ ptype <> 5) ->
  Server.handle_client data addr s = (Return tt, s).
Proof.
  intros Hp Hc Hcase. unfold table in Hc.
  rewrite (handle_client_dispatch data addr s _ _ _ _ _ Hp).
  unfold with_record, table. rewrite Hc.
  destruct Hcase as [[-> Hst]|[[-> Hst]|(H1 & H3 & H4 & H5)]].
  - cbn [Z.eqb Pos.eqb]. unfold_server. unfold_m. rewrite Hc.
    destruct (Server.state c); try reflexivity. congruence.
  - cbn [Z.eqb Pos.eqb]. unfold_server. unfold_m. rewrite Hc.
    destruct (Server.state c); try reflexivity. congruence.
  - replace (ptype =? 1) with false by (symmetry; apply Z.eqb_neq; exact H1).
    replace (ptype =? 4) with false by (symmetry; apply Z.eqb_neq; exact H4).
    replace (ptype =? 3) with false by (symmetry; apply Z.eqb_neq; exact H3).
    replace (ptype =? 5) with false by (symmetry; apply Z.eqb_neq; exact H5).
    reflexivity.
Qed.

Lemma packet_ignored_witness :
  Server.handle_client ack_1 peer (established 3) = (Return tt, established 3) /\
  Server.handle_client config_dgram peer (established 3) = (Return tt, established 3).
Proof.
  split.
  - apply (packet_ignored (established 3) ack_1 peer 4 0 1 400 0
             {| Server.state := Server.ESTABLISHED; Server.expected_seq := 3;
                Server.my_seq := 100 |});
      [reflexivity|vm_compute; reflexivity|left; split; [reflexivity|discriminate]].
  - apply (packet_ignored (established 3) config_dgram peer 6 0 0 400 1
             {| Server.state := Server.ESTABLISHED; Server.expected_seq := 3;
                Server.my_seq := 100 |});
      [reflexivity|vm_compute; reflexivity|right; right; lia].
Defined.

Lemma next_draw_range s : (0 <= next_draw s)%Q /\ (next_draw s < 1)%Q.
Proof.
  unfold next_draw. cbv zeta.
  set (x := Server.unif_src (Server.env s) (Server.unif_ix (Server.env s))).
  pose proof (Qfloor_le x) as Hlo. pose proof (Qlt_floor x) as Hhi.
  rewrite inject_Z_plus in Hhi. change (inject_Z 1) with 1%Q in Hhi.
  split; lra.
Qed.

Lemma Qltb_lt x y : Qltb x y = true <-> (x < y)%Q.
Proof.
  unfold Qltb. rewrite negb_true_iff. split.
  - intros H. apply Qnot_le_lt. intros Hle. apply Qle_bool_iff in Hle. congruence.
  - intros H. destruct (Qle_bool y x) eqn:E; [|reflexivity].
    apply Qle_bool_iff in E. exfalso. apply (Qlt_not_le _ _ H E).
Qed.

(** X9. The synthetic loss. A DATA packet for an ESTABLISHED peer whose draw is
    below the drop rate is counted as received and as dropped, and that is
    all: no ACK is sent and the table of connections is as it was. With a
    drop rate of 1 or more every such packet is dropped, with a drop rate of
    0 or less none is. *)
Theorem synthetic_drop s data addr seq ack w l c :
  Codec.parse_header data = Return (3, seq, ack, w, l) ->
  table s !! addr = Some c ->
  Server.state c = Server.ESTABLISHED ->
  let s' := exec (Server.handle_client data addr) s in
  (Qltb (next_draw s) (Server.drop_rate (Server.self s)) = true ->
   result (Server.handle_client data addr) s = Return tt /\
   table s' = table s /\
   Server.wire (Server.env s') = Server.wire (Server.env s) /\
   Server.client_to_server_sent (Server.stats (Server.self s')) =
     Server.client_to_server_sent (Server.stats (Server.self s)) + 1 /\
   Server.client_to_server_dropped (Server.stats (Server.self s')) =
     Server.client_to_server_dropped (Server.stats (Server.self s)) + 1) /\
  ((1 <= Server.drop_rate (Server.self s))%Q ->
   Qltb (next_draw s) (Server.drop_rate (Server.self s)) = true) /\
  ((Server.drop_rate (Server.self s) <= 0)%Q ->
   Qltb (next_draw s) (Server.drop_rate (Server.self s)) = false).
Proof.
  intros Hp Hc Hst s'. subst s'. unfold table in *.
  destruct (next_draw_range s) as [Hlo Hhi].
  split; [|split].
  - intros Hdraw. unfold next_draw in Hdraw.
    unfold result, exec. rewrite (handle_client_data data addr s c seq ack w l Hc Hp).
    unfold_server. unfold_m. server_simpl.
    repeat (first [rewrite Hc | rewrite Hst | rewrite Hdraw | progress server_simpl]).
    repeat split; reflexivity.
  - intros Hrate. apply Qltb_lt. eapply Qlt_le_trans; eassumption.
  - intros Hrate. destruct (Qltb (next_draw s) (Server.drop_rate (Server.self s))) eqn:E;
      [|reflexivity].
    apply Qltb_lt in E. exfalso.
    apply (Qlt_not_le _ _ E). eapply Qle_trans; eassumption.
Qed.

(** X10. A FIN is answered and obeyed whatever the record of its sender holds,
    and also when there is none: the responder sends the FIN
    acknowledgement, type 5 and ack = sequence number of the FIN plus one,
    and deletes the record. The FIN of sequence number 65535 is the
    exception: [struct.error] ends the handler before anything is sent, and
    the record stays, CLOSED if the address had none. *)
Theorem fin_reply s data addr seq ack w l :
  Codec.parse_header data = Return (5, seq, ack, w, l) ->
  let s' := exec (Server.handle_client data addr) s in
  if seq =? 65535 then
    result (Server.handle_client data addr) s = Raise StructError /\
    Server.wire (Server.env s') = Server.wire (Server.env s) /\
    table s' = table (with_record addr s)
  else
    result (Server.handle_client data addr) s = Return tt /\
    table s' !! addr = None /\
    exists fin_ack,
      Server.wire (Server.env s') = Server.wire (Server.env s) ++ [(fin_ack, addr)] /\
      Codec.parse_header fin_ack = Return (5, 0, seq + 1, 400, 0).
Proof.
  intros Hp s'. subst s'.
  pose proof (parsed_fields_in_range_fact _ _ _ _ _ _ Hp) as (_ & Hseq & _).
  unfold result, exec. rewrite (handle_client_dispatch data addr s _ _ _ _ _ Hp).
  cbn [Z.eqb Pos.eqb].
  destruct (with_record_table addr s) as (c & Hc & _). unfold table in Hc.
  unfold_server. unfold_m. server_simpl.
  destruct (seq =? 65535) eqn:E.
  - apply Z.eqb_eq in E. subst seq. rewrite build_header_overflow. cbn.
    rewrite with_record_env. auto.
  - apply Z.eqb_neq in E.
    rewrite (build_header_ok 5 0 (seq + 1) 400 0) by lia. server_simpl.
    rewrite Hc. server_simpl.
    split; [reflexivity|]. split; [apply lookup_delete_eq|].
    eexists. rewrite with_record_env. split; [reflexivity|].
    apply (parse_built 5 0 (seq + 1) 400 0); try lia.
    apply build_header_ok; lia.
Qed.

Lemma fin_reply_witness :
  let s' := exec (Server.handle_client fin_dgram peer) fresh_server in
  result (Server.handle_client fin_dgram peer) fresh_server = Return tt /\
  table s' !! peer = None /\
  exists fin_ack,
    Server.wire (Server.env s') = [(fin_ack, peer)] /\
    Codec.parse_header fin_ack = Return (5, 0, 31, 400, 0).
Proof.
  apply (fin_reply fresh_server fin_dgram peer 30 0 400 0). reflexivity.
Defined.

(** X11. The peers do not disturb one another: a datagram of [addr], whatever
    it holds and however its handling ends, leaves the record of every
    other address as it was. *)
Theorem peer_isolation data addr s a :
  a <> addr ->
  table (exec (Server.handle_client data addr) s) !! a = table s !! a.
Proof. intros Ha. apply (proj1 (handle_client_step data addr s)), Ha. Qed.

Lemma synthetic_drop_witness :
  let s' := exec (Server.handle_client data_1 peer) dropping in
  result (Server.handle_client data_1 peer) dropping = Return tt /\
  table s' = table dropping /\
  Server.wire (Server.env s') = [] /\
  Server.client_to_server_sent (Server.stats (Server.self s')) = 1 /\
  Server.client_to_server_dropped (Server.stats (Server.self s')) = 1.
Proof.
  destruct (synthetic_drop dropping data_1 peer 1 0 400 0
              {| Server.state := Server.ESTABLISHED; Server.expected_seq := 1;
                 Server.my_seq := 100 |})
    as (Hdrop & Hall & _); [reflexivity|vm_compute; reflexivity|reflexivity|].
  apply Hdrop, Hall. cbn. discriminate.
Defined.

Lemma peer_isolation_witness :
  table (exec (Server.handle_client syn_dgram stranger) (established 4)) !! peer =
  table (established 4) !! peer.
Proof. apply (peer_isolation syn_dgram stranger (established 4) peer). discriminate. Defined.

(* ------------------------------------------------------------------ *)
(** ** The handshake of the initiator: success and edge cases           *)
(* ------------------------------------------------------------------ *)

Lemma initial_seq_range s : 0 <= initial_seq s <= 65535.
Proof.
  unfold initial_seq.
  pose proof (Z.mod_pos_bound
    (Client.rand_src (Client.env s) (Client.rand_ix (Client.env s))) (65535 - 0 + 1)).
  lia.
Qed.

Lemma connect_first_pass s :
  Client.inbox (Client.env s) <> [] ->
  Client.connect s =
  (let* f := Client.connect_pass (initial_seq s) 0 in
   match f with
   | Client.Returns b => ret b
   | Client.Continue retries' =>
       Client.connect_loop
         (List.length (tl (Client.inbox (Client.env s))) + 5) (initial_seq s) retries'
   end) (after_draw s).
Proof.
  intros Hne. rewrite connect_unfold. fold (initial_seq s).
  destruct (Client.inbox (Client.env s)) as [|ev rest]; [congruence|]. reflexivity.
Qed.

(** X12. When the first reply is the SYN_ACK that acknowledges the sequence
    number drawn plus one, [connect] returns [True] after three calls on the
    socket: the SYN, the time-out, and the ACK, whose sequence number is the
    one drawn plus one and whose ack is the sequence number of the responder
    plus one; [base] and [next_seq] are 0 and the time-out is not changed. A
    responder whose sequence number is 65535 is excluded: its
    acknowledgement would not fit the ack field. *)
Theorem handshake_success s d rest sseq w l :
  Client.inbox (Client.env s) = Some d :: rest ->
  Codec.parse_header d = Return (2, sseq, initial_seq s + 1, w, l) ->
  sseq <> 65535 ->
  0 <= Client.window_size_bytes (Client.self s) <= 65535 ->
  let s' := exec Client.connect s in
  result Client.connect s = Return true /\
  Client.base (Client.self s') = 0 /\ Client.next_seq (Client.self s') = 0 /\
  Client.timeout (Client.self s') = Client.timeout (Client.self s) /\
  Client.inbox (Client.env s') = rest /\
  exists syn ack_pkt,
    Client.wire (Client.env s') =
      Client.wire (Client.env s) ++
      [Client.Sendto syn (Client.server_addr (Client.self s));
       Client.Settimeout (Client.timeout (Client.self s));
       Client.Sendto ack_pkt (Client.server_addr (Client.self s))] /\
    Codec.parse_header syn =
      Return (1, initial_seq s, 0, Client.window_size_bytes (Client.self s), 0) /\
    Codec.parse_header ack_pkt =
      Return (4, initial_seq s + 1, sseq + 1, Client.window_size_bytes (Client.self s), 0).
Proof.
  intros Hin Hp Hsseq Hw s'. subst s'.
  pose proof (parsed_fields_in_range_fact _ _ _ _ _ _ Hp) as (_ & Hs & Ha & _).
  pose proof (initial_seq_range s) as Hmy.
  unfold result, exec. rewrite connect_first_pass by (rewrite Hin; discriminate).
  set (my := initial_seq s) in *.
  unfold bind at 1. unfold Client.connect_pass.
  unfold_client. unfold_m. cbn.
  rewrite (build_header_ok 1 my 0 _ 0) by lia. cbn.
  rewrite Hin. cbn. rewrite parse_header_recv, Hp. cbn.
  rewrite Z.eqb_refl. cbn.
  rewrite (build_header_ok 4 (my + 1) (sseq + 1) _ 0) by lia. cbn.
  repeat (split; [reflexivity|]).
  eexists _, _. split; [rewrite <- !app_assoc; reflexivity|]. split.
  - apply (parse_built 1 my 0 _ 0); try lia. apply build_header_ok; lia.
  - apply (parse_built 4 (my + 1) (sseq + 1) _ 0); try lia. apply build_header_ok; lia.
Qed.

Lemma handshake_success_witness :
  let s := {| Client.self := Client.init "10.0.0.1" 8080 30; Client.env := prompt_env |} in
  let s' := exec Client.connect s in
  result Client.connect s = Return true /\
  Client.base (Client.self s') = 0 /\ Client.next_seq (Client.self s') = 0 /\
  Client.timeout (Client.self s') = 0.3%Q /\
  Client.inbox (Client.env s') = [] /\
  exists syn ack_pkt,
    Client.wire (Client.env s') =
      [Client.Sendto syn ("10.0.0.1", 8080); Client.Settimeout 0.3;
       Client.Sendto ack_pkt ("10.0.0.1", 8080)] /\
    Codec.parse_header syn = Return (1, 7, 0, 400, 0) /\
    Codec.parse_header ack_pkt = Return (4, 8, 101, 400, 0).
Proof.
  intros s.
  apply (handshake_success s valid_syn_ack [] 100 400 0);
    [reflexivity|reflexivity|lia|cbn; lia].
Defined.

(** With the sequence number 65535 no pass of [connect] returns [True]:
    the ack expected, 65536, is none that a header can carry. *)
Lemma connect_pass_unlucky retries s b s' :
  Client.connect_pass 65535 retries s = (Return (Client.Returns b), s') -> False.
Proof.
  unfold Client.connect_pass. unfold_client. unfold_m. cbn.
  destruct (Codec.build_header 1 65535 0 (Client.window_size_bytes (Client.self s)) 0)
    as [syn|ex]; cbn; [|discriminate].
  destruct (Client.inbox (Client.env s)) as [|[d|] rest]; cbn; try discriminate.
  destruct (Codec.parse_header (slice_to d 1024)) as [[[[[pt sq] ak] wd] ln]|ex] eqn:Hp; cbn.
  - pose proof (parsed_fields_in_range_fact _ _ _ _ _ _ Hp) as (_ & _ & Ha & _).
    replace (ak =? 65535 + 1) with false by (symmetry; apply Z.eqb_neq; lia).
    rewrite andb_false_r. discriminate.
  - destruct ex; cbn; discriminate.
Qed.

Lemma connect_loop_unlucky fuel :
  forall retries s, result (Client.connect_loop fuel 65535 retries) s <> Return true.
Proof.
  induction fuel as [|fuel IH]; intros retries s; [discriminate|].
  cbn [Client.connect_loop]. destruct (retries <? Client.max_retries); [|discriminate].
  unfold result, bind.
  destruct (Client.connect_pass 65535 retries s) as [[[b|r']|ex] s'] eqn:Hpass.
  - exfalso. apply (connect_pass_unlucky _ _ _ _ Hpass).
  - apply IH.
  - discriminate.
Qed.

(** X13. When the sequence number drawn is 65535, [connect] does not succeed,
    whatever the responder sends. *)
Theorem handshake_unlucky s :
  initial_seq s = 65535 -> result Client.connect s <> Return true.
Proof.
  intros Hmy. unfold result. rewrite connect_unfold. fold (initial_seq s).
  rewrite Hmy. apply connect_loop_unlucky.
Qed.

Lemma handshake_unlucky_witness :
  result Client.connect
    {| Client.self := Client.init "10.0.0.1" 8080 30; Client.env := unlucky_env |}
  <> Return true.
Proof. apply handshake_unlucky. reflexivity. Defined.

(** X14. [connect] has no test of the length of a reply: a datagram shorter
    than a header, read as the first reply, ends [connect] with
    [struct.error], after one SYN. *)
Theorem handshake_runt s d rest :
  Client.inbox (Client.env s) = Some d :: rest ->
  len d < 8 ->
  0 <= Client.window_size_bytes (Client.self s) <= 65535 ->
  result Client.connect s = Raise StructError /\
  exists syn,
    Client.wire (Client.env (exec Client.connect s)) =
      Client.wire (Client.env s) ++
      [Client.Sendto syn (Client.server_addr (Client.self s));
       Client.Settimeout (Client.timeout (Client.self s))].
Proof.
  intros Hin Hlen Hw. pose proof (initial_seq_range s) as Hmy.
  unfold result, exec. rewrite connect_first_pass by (rewrite Hin; discriminate).
  set (my := initial_seq s) in *.
  unfold bind at 1. unfold Client.connect_pass.
  unfold_client. unfold_m. cbn.
  rewrite (build_header_ok 1 my 0 _ 0) by lia. cbn.
  rewrite Hin. cbn. rewrite parse_header_recv, (parse_header_short d Hlen). cbn.
  split; [reflexivity|]. eexists. rewrite <- app_assoc. reflexivity.
Qed.

Lemma handshake_runt_witness :
  result Client.connect
    {| Client.self := Client.init "10.0.0.1" 8080 30; Client.env := runt_env |}
  = Raise StructError /\
  exists syn,
    Client.wire (Client.env (exec Client.connect
      {| Client.self := Client.init "10.0.0.1" 8080 30; Client.env := runt_env |})) =
    [Client.Sendto syn ("10.0.0.1", 8080); Client.Settimeout 0.3].
Proof.
  apply (handshake_runt
           {| Client.self := Client.init "10.0.0.1" 8080 30; Client.env := runt_env |}
           short_dgram []); [reflexivity|reflexivity|cbn; lia].
Defined.

(* ------------------------------------------------------------------ *)
(** ** The handshake, end to end                                        *)
(* ------------------------------------------------------------------ *)

Lemma header_bytes_built ptype seq ack window length :
  0 <= ptype <= 15 -> 0 <= seq <= 65535 -> 0 <= ack <= 65535 ->
  0 <= window <= 65535 -> 0 <= length <= 255 ->
  Codec.build_header ptype seq ack window length =
    Return (header_bytes ptype seq ack window length) /\
  Codec.parse_header (header_bytes ptype seq ack window length) =
    Return (ptype, seq, ack, window, length) /\
  slice_to (header_bytes ptype seq ack window length) 1024 =
    header_bytes ptype seq ack window length.
Proof.
  intros Hp Hs Ha Hw Hl.
  assert (Hb : Codec.build_header ptype seq ack window length =
               Return (header_bytes ptype seq ack window length))
    by (apply build_header_ok; assumption).
  split; [exact Hb|]. split.
  - apply (parse_built ptype seq ack window length); assumption.
  - apply slice_to_short. unfold len. cbn. lia.
Qed.

Lemma responder_on_syn s addr seq :
  0 <= seq < 65535 ->
  Server.handle_client (header_bytes 1 seq 0 400 0) addr s =
  (Return tt,
   {| Server.self :=
        Server.set_connections
          (<[addr := {| Server.state := Server.SYN_RECEIVED; Server.expected_seq := 0;
                        Server.my_seq := drawn_seq s |}]>
             (table (with_record addr s)))
          (Server.set_stats
             {| Server.client_to_server_sent :=
                  Server.client_to_server_sent (Server.stats (Server.self s));
                Server.client_to_server_dropped :=
                  Server.client_to_server_dropped (Server.stats (Server.self s));
                Server.server_to_client_sent :=
                  Server.server_to_client_sent (Server.stats (Server.self s)) + 1 |}
             (Server.self s));
      Server.env :=
        {| Server.rand_src := Server.rand_src (Server.env s);
           Server.rand_ix := S (Server.rand_ix (Server.env s));
           Server.unif_src := Server.unif_src (Server.env s);
           Server.unif_ix := Server.unif_ix (Server.env s);
           Server.clock_src := Server.clock_src (Server.env s);
           Server.clock_ix := Server.clock_ix (Server.env s);
           Server.wire := Server.wire (Server.env s) ++
             [(header_bytes 2 (drawn_seq s) (seq + 1) 400 0, addr)] |} |}).
Proof.
  intros Hseq. pose proof (drawn_seq_range s) as Hmy.
  destruct (header_bytes_built 1 seq 0 400 0) as (_ & Hp & _); try lia.
  rewrite (handle_client_dispatch _ addr s _ _ _ _ _ Hp). cbn [Z.eqb Pos.eqb].
  unfold Server.on_syn, Server.randint, Server.build_header, Server.sendto,
    Server.count_server_sent, Server.conn_set, Server.on_self, Server.on_env.
  unfold_m. server_simpl. rewrite !with_record_env. fold (drawn_seq s).
  rewrite (build_header_ok 2 (drawn_seq s) (seq + 1) 400 0) by lia.
  unfold with_record, table. destruct (Server.connections (Server.self s) !! addr);
    reflexivity.
Qed.

(** X15. The two programs agree on the handshake. The responder answers the SYN
    of the initiator by the very SYN_ACK that makes [connect] return [True],
    and the ACK that [connect] then sends is one that establishes the
    connection at the responder. Only the sequence numbers 65535 are
    excluded, on both sides. *)
Theorem handshake_end_to_end (c : Client.Sys) (sv : Server.Sys) (me : address) rest :
  Client.window_size_bytes (Client.self c) = 400 ->
  initial_seq c <> 65535 -> drawn_seq sv <> 65535 ->
  0 <= rate_percent sv <= 255 ->
  let syn := header_bytes 1 (initial_seq c) 0 400 0 in
  let syn_ack := header_bytes 2 (drawn_seq sv) (initial_seq c + 1) 400 0 in
  let ack_pkt := header_bytes 4 (initial_seq c + 1) (drawn_seq sv + 1) 400 0 in
  Client.inbox (Client.env c) = Some syn_ack :: rest ->
  (result Client.connect c = Return true /\
   Client.wire (Client.env (exec Client.connect c)) =
     Client.wire (Client.env c) ++
     [Client.Sendto syn (Client.server_addr (Client.self c));
      Client.Settimeout (Client.timeout (Client.self c));
      Client.Sendto ack_pkt (Client.server_addr (Client.self c))]) /\
  (let sv' := Server.start [(syn, me); (ack_pkt, me)] sv in
   (exists config,
      Server.wire (Server.env sv') =
        Server.wire (Server.env sv) ++ [(syn_ack, me); (config, me)]) /\
   table sv' !! me =
     Some {| Server.state := Server.ESTABLISHED; Server.expected_seq := 0;
             Server.my_seq := drawn_seq sv |}).
Proof.
  intros Hw Hc Hs Hrate syn syn_ack ack_pkt Hin.
  pose proof (initial_seq_range c) as Hmy. pose proof (drawn_seq_range sv) as Hr.
  destruct (header_bytes_built 1 (initial_seq c) 0 400 0) as (Hb1 & Hp1 & Hs1); try lia.
  destruct (header_bytes_built 2 (drawn_seq sv) (initial_seq c + 1) 400 0)
    as (Hb2 & Hp2 & Hs2); try lia.
  destruct (header_bytes_built 4 (initial_seq c + 1) (drawn_seq sv + 1) 400 0)
    as (Hb4 & Hp4 & Hs4); try lia.
  split.
  - fold syn in Hb1. fold syn_ack in Hp2. fold ack_pkt in Hb4.
    clearbody syn syn_ack ack_pkt.
    unfold result, exec. rewrite connect_first_pass by (rewrite Hin; discriminate).
    unfold bind at 1. unfold Client.connect_pass.
    unfold_client. unfold_m. cbn. rewrite Hw, Hb1. cbn.
    rewrite Hin. cbn. rewrite parse_header_recv, Hp2. cbn.
    rewrite Z.eqb_refl. cbn. rewrite Hw, Hb4. cbn. split; [reflexivity|].
    rewrite <- !app_assoc. reflexivity.
  - cbv zeta. rewrite !start_cons. cbn [Server.start].
    unfold syn, ack_pkt. rewrite Hs1, Hs4.
    set (sv1 := exec (Server.handle_client (header_bytes 1 (initial_seq c) 0 400 0) me) sv).
    assert (Hc1 : table sv1 !! me =
      Some {| Server.state := Server.SYN_RECEIVED; Server.expected_seq := 0;
              Server.my_seq := drawn_seq sv |}).
    { unfold sv1, exec. rewrite (responder_on_syn sv me (initial_seq c)) by lia.
      unfold table. cbn. apply lookup_insert_eq. }
    assert (Hrate1 : rate_percent sv1 = rate_percent sv).
    { unfold sv1, exec. rewrite (responder_on_syn sv me (initial_seq c)) by lia.
      reflexivity. }
    assert (Hw1 : Server.wire (Server.env sv1) =
                  Server.wire (Server.env sv) ++ [(syn_ack, me)]).
    { unfold sv1, exec. rewrite (responder_on_syn sv me (initial_seq c)) by lia.
      reflexivity. }
    assert (Hrate1' : 0 <= rate_percent sv1 <= 255) by (rewrite Hrate1; exact Hrate).
    destruct (ack_establishes_fact sv1 _ me _ _ _ _ _ Hp4 Hc1 eq_refl Hrate1')
      as (_ & Htab & hdr & Hwire & _).
    split; [|exact Htab].
    exists (hdr ++ [byte_of_Z (rate_percent sv1)]). rewrite Hwire, Hw1.
    rewrite <- app_assoc. reflexivity.
Qed.


Lemma handshake_end_to_end_witness :
  let c := {| Client.self := Client.init "10.0.0.1" 8080 30; Client.env := prompt_env |} in
  result Client.connect c = Return true /\
  table (Server.start [(header_bytes 1 7 0 400 0, peer); (header_bytes 4 8 101 400 0, peer)]
           fresh_server) !! peer =
    Some {| Server.state := Server.ESTABLISHED; Server.expected_seq := 0;
            Server.my_seq := 100 |}.
Proof.
  intros c.
  destruct (handshake_end_to_end c fresh_server peer []) as ((H1 & _) & (_ & H2));
    [reflexivity | vm_compute; discriminate | vm_compute; discriminate
    | vm_compute; split; discriminate | reflexivity | ].
  split; [exact H1 | exact H2].
Defined.

(* ------------------------------------------------------------------ *)
(** ** The counters of the initiator and the wire                       *)
(* ------------------------------------------------------------------ *)

Lemma sendtos_app w1 w2 : sendtos (w1 ++ w2) = sendtos w1 + sendtos w2.
Proof.
  induction w1 as [|[p a|t] w1 IH]; cbn [sendtos app]; lia.
Qed.

Lemma same_config_refl c : same_config c c.
Proof. unfold same_config. repeat split; reflexivity. Qed.

Lemma same_config_trans c1 c2 c3 :
  same_config c1 c2 -> same_config c2 c3 -> same_config c1 c3.
Proof.
  unfold same_config. intros (A1 & A2 & A3 & A4 & A5 & A6 & A7)
    (B1 & B2 & B3 & B4 & B5 & B6 & B7).
  repeat split; etransitivity; eassumption.
Qed.

Lemma ledger_refl s : ledger s s.
Proof.
  unfold ledger. split; [apply same_config_refl|].
  repeat (split; [lia|]). exists []. rewrite app_nil_r. cbn. repeat split; lia.
Qed.

Lemma ledger_trans s1 s2 s3 : ledger s1 s2 -> ledger s2 s3 -> ledger s1 s3.
Proof.
  unfold ledger.
  intros (A0 & A1 & A2 & A3 & A4 & o1 & A5 & A6 & A7)
         (B0 & B1 & B2 & B3 & B4 & o2 & B5 & B6 & B7).
  split; [eapply same_config_trans; eassumption|].
  repeat (split; [lia|]). exists (o1 ++ o2).
  rewrite B5, A5, app_assoc, sendtos_app. repeat split; lia.
Qed.

(** A step that adds [out] to the wire, in which no datagram is counted,
    and that leaves the counters and the configuration as they were. *)
Lemma ledger_quiet s s' out :
  same_config (Client.self s) (Client.self s') ->
  Client.base (Client.self s) <= Client.base (Client.self s') ->
  Client.next_seq (Client.self s') = Client.next_seq (Client.self s) ->
  Client.initial_sent (Client.self s') = Client.initial_sent (Client.self s) ->
  Client.retransmit_count (Client.self s') = Client.retransmit_count (Client.self s) ->
  Client.sent_count (Client.self s') = Client.sent_count (Client.self s) ->
  Client.wire (Client.env s') = Client.wire (Client.env s) ++ out ->
  sendtos out = 0 ->
  ledger s s'.
Proof.
  intros H0 H1 H2 H3 H4 H5 H6 H7. unfold ledger.
  split; [exact H0|]. repeat (split; [lia|]).
  exists out. repeat split; [exact H6|lia|lia].
Qed.

Lemma send_window_pass_ledger s : ledger s (exec Client.send_window_pass s).
Proof.
  unfold Client.send_window_pass, Client.calculate_data_range.
  unfold_client. unfold_m. cbn.
  match goal with |- context [Codec.build_header ?a ?b ?c ?d ?e] =>
    destruct (Codec.build_header a b c d e) as [hdr|ex] end; cbn;
    [|apply (ledger_quiet _ _ []); try reflexivity;
      [apply same_config_refl|cbn; symmetry; apply app_nil_r]].
  assert (Hgoal : forall s',

    same_config (Client.self s) (Client.self s') ->
    Client.base (Client.self s') = Client.base (Client.self s) ->
    Client.next_seq (Client.self s') = Client.next_seq (Client.self s) + 1 ->
    Client.initial_sent (Client.self s') = Client.initial_sent (Client.self s) + 1 ->
    Client.retransmit_count (Client.self s') = Client.retransmit_count (Client.self s) ->
    Client.sent_count (Client.self s') = Client.sent_count (Client.self s) + 1 ->
    (exists p a, Client.wire (Client.env s') =
                 Client.wire (Client.env s) ++ [Client.Sendto p a]) ->
    ledger s s').
  { intros s' H0 H1 H2 H3 H4 H5 (p & a & H6). unfold ledger.
    split; [exact H0|]. repeat (split; [lia|]).
    exists [Client.Sendto p a]. cbn. repeat split; [exact H6|lia|lia]. }
  destruct (Client.timer_running (Client.self s)); cbn.
  - apply Hgoal; try reflexivity; [repeat split|eauto].
  - match goal with |- context [Client.nonempty ?b] =>
      destruct (Client.nonempty b) end;
      apply Hgoal; try reflexivity; try (repeat split; fail); eauto.
Qed.

Lemma send_window_loop_ledger fuel :
  forall s, ledger s (exec (Client.send_window_loop fuel) s).
Proof.
  induction fuel as [|fuel IH]; intros s; [apply ledger_refl|].
  cbn [Client.send_window_loop]. unfold exec.
  rewrite (bind_returns _ _ _ _ _ (attr_returns _ s)).
  rewrite (bind_returns _ _ _ _ _ (attr_returns _ s)).
  rewrite (bind_returns _ _ _ _ _ (attr_returns _ s)).
  rewrite (bind_returns _ _ _ _ _ (attr_returns _ s)).
  destruct ((Client.next_seq (Client.self s) <? Client.target_packets (Client.self s))
            && (Client.current_window_usage (Client.self s)
                <? Client.window_size_bytes (Client.self s))); [|apply ledger_refl].
  pose proof (send_window_pass_ledger s) as H1. unfold exec in H1.
  unfold bind.
  destruct (Client.send_window_pass s) as [[[]|ex] s1]; cbn [snd] in H1.
  - pose proof (IH s1) as H2. unfold exec in H2.
    eapply ledger_trans; eassumption.
  - exact H1.
Qed.

Lemma send_window_packets_ledger s : ledger s (exec Client.send_window_packets s).
Proof.
  unfold Client.send_window_packets, exec.
  rewrite (bind_returns _ _ _ _ _ (eq_refl : gets Client.send_window_fuel s = (_, s))).
  apply send_window_loop_ledger.
Qed.

Lemma dict_get_set_same {V} (d : list (Z * V)) k v : Dict.get (Dict.set d k v) k = Some v.
Proof.
  induction d as [|[k' v'] d IH]; cbn.
  - rewrite Z.eqb_refl. reflexivity.
  - destruct (k' =? k) eqn:E; cbn; [rewrite Z.eqb_refl; reflexivity|].
    rewrite E. exact IH.
Qed.

Lemma retransmit_one_ledger seq s : ledger s (exec (Client.retransmit_one seq) s).
Proof.
  unfold Client.retransmit_one. unfold_client. unfold_m. unfold Dict.item. cbn.
  destruct (Dict.get (Client.buffer (Client.self s)) seq) as [info|] eqn:Hget; cbn;
    [|apply ledger_refl].
  destruct (Client.acked info); cbn; [apply ledger_refl|].
  rewrite Hget. cbn. rewrite dict_get_set_same. cbn.
  unfold ledger. split; [repeat split|]. cbn.
  repeat (split; [lia|]).
  exists [Client.Sendto (Client.packet info) (Client.server_addr (Client.self s))].
  cbn. repeat split; lia.
Qed.

Lemma retransmit_loop_ledger keys :
  forall s, ledger s (exec (Client.retransmit_loop keys) s).
Proof.
  induction keys as [|seq rest IH]; intros s; [apply ledger_refl|].
  cbn [Client.retransmit_loop]. rewrite exec_bind.
  pose proof (retransmit_one_ledger seq s) as H1. unfold exec in H1.
  destruct (Client.retransmit_one seq s) as [[[]|ex] s1]; cbn [snd] in H1.
  - eapply ledger_trans; [exact H1|apply IH].
  - exact H1.
Qed.

(** A step that changes neither the wire nor any attribute that [ledger]
    reads. *)
Lemma ledger_timer s s' :
  same_config (Client.self s) (Client.self s') ->
  Client.base (Client.self s') = Client.base (Client.self s) ->
  Client.next_seq (Client.self s') = Client.next_seq (Client.self s) ->
  Client.initial_sent (Client.self s') = Client.initial_sent (Client.self s) ->
  Client.retransmit_count (Client.self s') = Client.retransmit_count (Client.self s) ->
  Client.sent_count (Client.self s') = Client.sent_count (Client.self s) ->
  Client.wire (Client.env s') = Client.wire (Client.env s) ->
  ledger s s'.
Proof.
  intros H0 H1 H2 H3 H4 H5 H6.
  apply (ledger_quiet s s' []); try assumption; try lia.
  - rewrite H6, app_nil_r. reflexivity.
  - reflexivity.
Qed.

Lemma handle_timeout_ledger s : ledger s (exec Client.handle_timeout s).
Proof.
  unfold Client.handle_timeout. rewrite exec_bind.
  change (Client.stop_timer s) with
    (Return tt, {| Client.self := Client.set_timer_running false (Client.self s);
                   Client.env := Client.env s |}).
  cbv iota beta. rewrite exec_bind. rewrite attr_returns. cbv iota beta.
  rewrite exec_bind.
  match goal with |- context [Client.retransmit_loop ?k ?s0] =>
    pose proof (retransmit_loop_ledger k s0) as H1; unfold exec in H1;
    assert (H0 : ledger s s0) by (apply ledger_timer; try reflexivity; repeat split);
    destruct (Client.retransmit_loop k s0) as [[[]|ex] s1] end; cbn [snd] in H1.
  - rewrite exec_bind, attr_returns. cbv iota beta.
    eapply ledger_trans; [exact H0|]. eapply ledger_trans; [exact H1|].
    destruct (Client.buffer (Client.self s1)); cbn;
      [apply ledger_refl|apply ledger_timer; try reflexivity; repeat split].
  - eapply ledger_trans; eassumption.
Qed.

Lemma received_ledger s : ledger s (received s).
Proof.
  apply (ledger_quiet s (received s) [Client.Settimeout 0.1]); try reflexivity.
  apply same_config_refl.
Qed.

Lemma after_slide_ledger ack s : ledger s (after_slide ack s).
Proof.
  unfold after_slide, after_ack_loop, exec.
  destruct (ack_loop_spec ack _ s (incl_refl _))
    as (buf & new & usage & n & Hrun & _ & Hlen).
  rewrite Hrun. cbn [snd].
  destruct (slide_loop_spec (List.length
              (Client.buffer (Client.self
                 (acked_form buf (Client.rtt_list (Client.self s) ++ new) usage n s))))
              (acked_form buf (Client.rtt_list (Client.self s) ++ new) usage n s))
    as (buf2 & b & Hrun2 & Hb & _).
  rewrite Hrun2. cbn [snd]. cbn in Hb.
  apply (ledger_quiet _ _ []); try reflexivity.
  - repeat split.
  - exact Hb.
  - cbn. rewrite app_nil_r. reflexivity.
Qed.

Lemma after_timer_ledger ack s : ledger s (after_timer ack s).
Proof.
  unfold after_timer. destruct (_ && _); [|apply after_slide_ledger].
  eapply ledger_trans; [apply after_slide_ledger|].
  apply ledger_timer; try reflexivity. repeat split.
Qed.

Lemma adjust_timeout_ledger s : ledger s (exec Client.adjust_timeout s).
Proof.
  unfold exec. rewrite adjust_timeout_spec. cbn [snd].
  destruct (10 <=? len (Client.rtt_list (Client.self s))); [|apply ledger_refl].
  apply ledger_timer; try reflexivity. repeat split.
Qed.

Lemma receive_ack_ledger s : ledger s (exec Client.receive_ack s).
Proof.
  unfold exec.
  destruct (receive_ack_cases s) as [(d & rest & sq & ack & w & l & _ & _ & _ & Hrun)|Hrun];
    rewrite Hrun; cbn [snd].
  - eapply ledger_trans; [apply received_ledger|].
    eapply ledger_trans; [apply after_timer_ledger|]. apply adjust_timeout_ledger.
  - apply received_ledger.
Qed.

Lemma check_timer_ledger s : ledger s (exec Client.check_timer s).
Proof.
  unfold Client.check_timer. unfold_client. unfold_m. cbn.
  destruct (Client.timer_running (Client.self s)); cbn; [|apply ledger_refl].
  apply ledger_timer; try reflexivity. apply same_config_refl.
Qed.

Lemma send_data_pass_ledger s : ledger s (exec Client.send_data_pass s).
Proof.
  unfold Client.send_data_pass. rewrite exec_bind.
  pose proof (send_window_packets_ledger s) as H1. unfold exec in H1.
  destruct (Client.send_window_packets s) as [[[]|ex] s1]; cbn [snd] in H1; [|exact H1].
  rewrite exec_bind.
  pose proof (receive_ack_ledger s1) as H2. unfold exec in H2.
  destruct (Client.receive_ack s1) as [[[]|ex] s2]; cbn [snd] in H2;
    [|eapply ledger_trans; eassumption].
  rewrite exec_bind.
  pose proof (check_timer_ledger s2) as H3. unfold exec in H3.
  destruct (Client.check_timer s2) as [[expired|ex] s3]; cbn [snd] in H3;
    [|eapply ledger_trans; [exact H1|eapply ledger_trans; eassumption]].
  assert (H13 : ledger s s3)
    by (eapply ledger_trans; [exact H1|eapply ledger_trans; eassumption]).
  destruct expired; cbn [when].
  - eapply ledger_trans; [exact H13|apply handle_timeout_ledger].
  - exact H13.
Qed.

Lemma send_data_passes_ledger n : forall s, ledger s (exec (send_data_passes n) s).
Proof.
  induction n as [|n IH]; intros s; [apply ledger_refl|].
  cbn [send_data_passes]. unfold exec.
  rewrite (bind_returns _ _ _ _ _ (attr_returns _ s)).
  rewrite (bind_returns _ _ _ _ _ (attr_returns _ s)).
  destruct (Client.base (Client.self s) <? Client.target_packets (Client.self s));
    [|apply ledger_refl].
  change (ledger s (exec (Client.send_data_pass ;;; send_data_passes n) s)).
  rewrite exec_bind.
  pose proof (send_data_pass_ledger s) as H1. unfold exec in H1.
  destruct (Client.send_data_pass s) as [[[]|ex] s1]; cbn [snd] in H1; [|exact H1].
  eapply ledger_trans; [exact H1|apply IH].
Qed.

(* ------------------------------------------------------------------ *)
(** ** The DATA packets of the initiator                                *)
(* ------------------------------------------------------------------ *)

Lemma packet_size_range s :
  0 <= Client.min_packet_size (Client.self s) <= Client.max_packet_size (Client.self s) ->
  Client.current_window_usage (Client.self s) < Client.window_size_bytes (Client.self s) ->
  0 <= packet_size s <=
    Z.min (Client.max_packet_size (Client.self s))
          (Client.window_size_bytes (Client.self s)
           - Client.current_window_usage (Client.self s)).
Proof.
  intros Hsz Hu. unfold packet_size.
  pose proof (randint_range
    (Client.rand_src (Client.env s) (Client.rand_ix (Client.env s)))
    (Client.min_packet_size (Client.self s)) (Client.max_packet_size (Client.self s))
    ltac:(lia)) as Hr.
  lia.
Qed.

Lemma chunk_length s :
  0 <= Client.next_seq (Client.self s) ->
  0 <= Client.min_packet_size (Client.self s) <= Client.max_packet_size (Client.self s) ->
  Client.current_window_usage (Client.self s) < Client.window_size_bytes (Client.self s) ->
  0 <= len (chunk s) <= packet_size s.
Proof.
  intros Hns Hsz Hu. pose proof (packet_size_range s Hsz Hu) as Hps.
  pose proof (len_nonneg (Client.data (Client.self s))) as Hld.
  split; [apply len_nonneg|]. unfold chunk. cbv zeta.
  set (st := Client.next_seq (Client.self s) * Client.min_packet_size (Client.self s)).
  assert (Hst : 0 <= st) by (subst st; apply Z.mul_nonneg_nonneg; lia).
  etransitivity; [apply slice_length_le; lia|]. lia.
Qed.

Lemma data_packet_format_fact s :
  0 <= Client.next_seq (Client.self s) <= 65535 ->
  0 <= Client.window_size_bytes (Client.self s) <= 65535 ->
  0 <= Client.min_packet_size (Client.self s) <= Client.max_packet_size (Client.self s) ->
  Client.max_packet_size (Client.self s) <= 255 ->
  Client.current_window_usage (Client.self s) < Client.window_size_bytes (Client.self s) ->
  let s' := exec Client.send_window_pass s in
  let ns := Client.next_seq (Client.self s) in
  let packet :=
    header_bytes 3 ns 0 (Client.window_size_bytes (Client.self s)) (len (chunk s))
    ++ chunk s in
  result Client.send_window_pass s = Return tt /\
  0 <= len (chunk s) <=
    Z.min (Client.max_packet_size (Client.self s))
          (Client.window_size_bytes (Client.self s)
           - Client.current_window_usage (Client.self s)) /\
  Client.wire (Client.env s') =
    Client.wire (Client.env s) ++ [Client.Sendto packet (Client.server_addr (Client.self s))] /\
  Codec.parse_header packet =
    Return (3, ns, 0, Client.window_size_bytes (Client.self s), len (chunk s)) /\
  Dict.get (Client.buffer (Client.self s')) ns =
    Some {| Client.packet := packet;
            Client.send_time :=
              Client.time_src (Client.env s) (Client.time_ix (Client.env s));
            Client.acked := false;
            Client.start := ns * Client.min_packet_size (Client.self s);
            Client.end_ :=
              ns * Client.min_packet_size (Client.self s) +
              Z.min (packet_size s)
                (len (Client.data (Client.self s))
                 - ns * Client.min_packet_size (Client.self s));
            Client.retries := 0 |} /\
  Client.next_seq (Client.self s') = ns + 1 /\
  Client.current_window_usage (Client.self s') =
    Client.current_window_usage (Client.self s) + len (chunk s).
Proof.
  intros Hns Hw Hsz Hmax Hu s' ns packet.
  pose proof (packet_size_range s Hsz Hu) as Hps.
  pose proof (chunk_length s ltac:(lia) Hsz Hu) as Hch.
  assert (Hb : Codec.build_header 3 ns 0 (Client.window_size_bytes (Client.self s))
                 (len (chunk s)) =
               Return (header_bytes 3 ns 0 (Client.window_size_bytes (Client.self s))
                         (len (chunk s))))
    by (apply build_header_ok; lia).
  assert (Hparse : Codec.parse_header packet =
    Return (3, ns, 0, Client.window_size_bytes (Client.self s), len (chunk s))).
  { unfold packet, Codec.parse_header.
    rewrite (slice_to_app _ (chunk s) 8) by reflexivity.
    rewrite <- (slice_to_short (header_bytes _ _ _ _ _) 8) by (unfold len; cbn; lia).
    apply (parse_built 3 ns 0 _ (len (chunk s))); try lia. exact Hb. }
  assert (Hrun : Client.send_window_pass s =
    (Return tt, exec Client.send_window_pass s) /\
    Client.wire (Client.env (exec Client.send_window_pass s)) =
      Client.wire (Client.env s) ++
      [Client.Sendto packet (Client.server_addr (Client.self s))] /\
    Client.buffer (Client.self (exec Client.send_window_pass s)) =
      Dict.set (Client.buffer (Client.self s)) ns
        {| Client.packet := packet;
           Client.send_time :=
             Client.time_src (Client.env s) (Client.time_ix (Client.env s));
           Client.acked := false;
           Client.start := ns * Client.min_packet_size (Client.self s);
           Client.end_ :=
             ns * Client.min_packet_size (Client.self s) +
             Z.min (packet_size s)
               (len (Client.data (Client.self s))
                - ns * Client.min_packet_size (Client.self s));
           Client.retries := 0 |} /\
    Client.next_seq (Client.self (exec Client.send_window_pass s)) = ns + 1 /\
    Client.current_window_usage (Client.self (exec Client.send_window_pass s)) =
      Client.current_window_usage (Client.self s) + len (chunk s)).
  { unfold exec, Client.send_window_pass, Client.calculate_data_range.
    unfold_client. unfold_m. cbn.
    fold (packet_size s). fold ns.
    change (slice (Client.data (Client.self s)) (ns * Client.min_packet_size (Client.self s))
              (ns * Client.min_packet_size (Client.self s) +
               Z.min (packet_size s)
                 (len (Client.data (Client.self s))
                  - ns * Client.min_packet_size (Client.self s))))
      with (chunk s).
    rewrite Hb. cbn. fold packet.
    destruct (Client.timer_running (Client.self s)); cbn;
      [repeat split; reflexivity|].
    match goal with |- context [Client.nonempty ?b] =>
      destruct (Client.nonempty b) end; repeat split; reflexivity. }
  destruct Hrun as (Hret & Hwire & Hbuf & Hnext & Huse).
  subst s'. unfold result. rewrite Hret. cbn [fst].
  split; [reflexivity|]. split; [lia|]. split; [exact Hwire|].
  split; [exact Hparse|]. split; [rewrite Hbuf; apply dict_get_set_same|].
  split; assumption.
Qed.



(** X16. A pass of [send_window_packets] with the window open sends one
    well-formed DATA packet. With sequence number and window size that fit
    16 bits and packet sizes of at most 255, the pass returns normally; the
    payload is at most [max_packet_size] bytes and at most what is left of
    the window; the datagram is a header followed by the payload, and
    decodes to the type 3, the sequence number [next_seq] and the length of
    the payload; the buffer records it under [next_seq], not acknowledged,
    with no retry; [next_seq] is incremented and the window usage grows by
    the length of the payload. *)
Theorem data_packet_format s :
  0 <= Client.next_seq (Client.self s) <= 65535 ->
  0 <= Client.window_size_bytes (Client.self s) <= 65535 ->
  0 <= Client.min_packet_size (Client.self s) <= Client.max_packet_size (Client.self s) ->
  Client.max_packet_size (Client.self s) <= 255 ->
  Client.current_window_usage (Client.self s) < Client.window_size_bytes (Client.self s) ->
  let s' := exec Client.send_window_pass s in
  let ns := Client.next_seq (Client.self s) in
  let packet :=
    header_bytes 3 ns 0 (Client.window_size_bytes (Client.self s)) (len (chunk s))
    ++ chunk s in
  result Client.send_window_pass s = Return tt /\
  0 <= len (chunk s) <=
    Z.min (Client.max_packet_size (Client.self s))
          (Client.window_size_bytes (Client.self s)
           - Client.current_window_usage (Client.self s)) /\
  Client.wire (Client.env s') =
    Client.wire (Client.env s) ++ [Client.Sendto packet (Client.server_addr (Client.self s))] /\
  Codec.parse_header packet =
    Return (3, ns, 0, Client.window_size_bytes (Client.self s), len (chunk s)) /\
  Dict.get (Client.buffer (Client.self s')) ns =
    Some {| Client.packet := packet;
            Client.send_time :=
              Client.time_src (Client.env s) (Client.time_ix (Client.env s));
            Client.acked := false;
            Client.start := ns * Client.min_packet_size (Client.self s);
            Client.end_ :=
              ns * Client.min_packet_size (Client.self s) +
              Z.min (packet_size s)
                (len (Client.data (Client.self s))
                 - ns * Client.min_packet_size (Client.self s));
            Client.retries := 0 |} /\
  Client.next_seq (Client.self s') = ns + 1 /\
  Client.current_window_usage (Client.self s') =
    Client.current_window_usage (Client.self s) + len (chunk s).
Proof. exact (data_packet_format_fact s). Qed.
Lemma data_packet_format_witness :
  let s := demo [] in
  result Client.send_window_pass s = Return tt /\
  Client.next_seq (Client.self (exec Client.send_window_pass s)) = 1 /\
  Client.current_window_usage (Client.self (exec Client.send_window_pass s)) = 40.
Proof.
  intros s.
  destruct (data_packet_format s) as (H1 & _ & _ & _ & _ & H2 & H3);
    [vm_compute; split; discriminate | vm_compute; split; discriminate
    | vm_compute; split; discriminate | vm_compute; discriminate
    | vm_compute; reflexivity | ].
  split; [exact H1|]. split; [exact H2|]. rewrite H3. vm_compute. reflexivity.
Defined.


(* ------------------------------------------------------------------ *)
(** ** [send_window_packets] returns, and fills the window              *)
(* ------------------------------------------------------------------ *)

Lemma send_window_loop_returns fuel :
  forall s,
    0 <= Client.next_seq (Client.self s) ->
    Client.current_window_usage (Client.self s) <= Client.window_size_bytes (Client.self s) ->
    0 <= Client.min_packet_size (Client.self s) <= Client.max_packet_size (Client.self s) ->
    Client.max_packet_size (Client.self s) <= 255 ->
    Client.target_packets (Client.self s) <= 65536 ->
    0 <= Client.window_size_bytes (Client.self s) <= 65535 ->
    result (Client.send_window_loop fuel) s = Return tt /\
    Client.current_window_usage (Client.self (exec (Client.send_window_loop fuel) s))
      <= Client.window_size_bytes (Client.self s).
Proof.
  induction fuel as [|fuel IH]; intros s Hns Hfit Hsz Hmax Htp Hw;
    [split; [reflexivity|exact Hfit]|].
  cbn [Client.send_window_loop]. unfold result, exec.
  rewrite (bind_returns _ _ _ _ _ (attr_returns _ s)).
  rewrite (bind_returns _ _ _ _ _ (attr_returns _ s)).
  rewrite (bind_returns _ _ _ _ _ (attr_returns _ s)).
  rewrite (bind_returns _ _ _ _ _ (attr_returns _ s)).
  destruct ((Client.next_seq (Client.self s) <? Client.target_packets (Client.self s))
            && (Client.current_window_usage (Client.self s)
                <? Client.window_size_bytes (Client.self s))) eqn:Hopen;
    [|split; [reflexivity|exact Hfit]].
  apply andb_true_iff in Hopen.
  destruct Hopen as [Hlt Hu]. apply Z.ltb_lt in Hlt. apply Z.ltb_lt in Hu.
  destruct (data_packet_format_fact s) as (Hret & Hchunk & _ & _ & _ & Hnext & Huse);
    try lia.
  destruct (send_window_pass_ledger s)
    as ((_ & Hw1 & Hmin1 & Hmax1 & _ & Htp1 & _) & _).
  unfold result, exec in *. unfold bind.
  destruct (Client.send_window_pass s) as [[[]|ex] s1]; cbn [fst snd] in *;
    [|discriminate].
  rewrite <- Hw1. apply IH; lia.
Qed.

(** X17. [send_window_packets] returns normally, and when it returns every
    packet has been sent or the window is exactly full. This holds whatever
    the length of the data, with at most 65536 packets to send, a window
    size that fits 16 bits, packet sizes between 0 and 255, the least not
    above the greatest, and from a state in which [next_seq] is not
    negative and the window is not overfull. *)
Theorem send_window_fills s :
  0 <= Client.next_seq (Client.self s) ->
  Client.current_window_usage (Client.self s) <= Client.window_size_bytes (Client.self s) ->
  0 <= Client.min_packet_size (Client.self s) <= Client.max_packet_size (Client.self s) ->
  Client.max_packet_size (Client.self s) <= 255 ->
  Client.target_packets (Client.self s) <= 65536 ->
  0 <= Client.window_size_bytes (Client.self s) <= 65535 ->
  let s' := exec Client.send_window_packets s in
  result Client.send_window_packets s = Return tt /\
  (Client.target_packets (Client.self s) <= Client.next_seq (Client.self s') \/
   Client.current_window_usage (Client.self s') =
     Client.window_size_bytes (Client.self s)).
Proof.
  intros Hns Hfit Hsz Hmax Htp Hw s'.
  assert (Hrun : result Client.send_window_packets s = Return tt /\
                 Client.current_window_usage (Client.self s')
                   <= Client.window_size_bytes (Client.self s)).
  { subst s'. unfold Client.send_window_packets, result, exec.
    rewrite (bind_returns _ _ _ _ _ (eq_refl : gets Client.send_window_fuel s = (_, s))).
    apply send_window_loop_returns; assumption. }
  destruct Hrun as [Hret Husage]. split; [exact Hret|].
  pose proof (send_window_packets_done s Hret) as Hdone.
  destruct (send_window_packets_ledger s) as ((_ & Hw1 & _ & _ & _ & Htp1 & _) & _).
  fold s' in Hdone, Hw1, Htp1.
  unfold window_open in Hdone. apply andb_false_iff in Hdone.
  rewrite Hw1, Htp1 in Hdone.
  destruct Hdone as [H|H]; apply Z.ltb_ge in H; [left|right]; lia.
Qed.

Lemma send_window_fills_witness :
  let s := demo [] in
  result Client.send_window_packets s = Return tt /\
  (30 <= Client.next_seq (Client.self (exec Client.send_window_packets s)) \/
   Client.current_window_usage (Client.self (exec Client.send_window_packets s)) = 400).
Proof.
  intros s.
  apply (send_window_fills s).
  - vm_compute; discriminate.
  - vm_compute; discriminate.
  - vm_compute; split; discriminate.
  - vm_compute; discriminate.
  - vm_compute; discriminate.
  - vm_compute; split; discriminate.
Defined.


(* ------------------------------------------------------------------ *)
(** ** The cumulative ACK at the initiator                              *)
(* ------------------------------------------------------------------ *)

Lemma Zseq_length b n : List.length (Zseq b n) = n.
Proof. revert b. induction n as [|n IH]; intros b; cbn; [|rewrite IH]; reflexivity. Qed.

Lemma Zseq_In k n : forall b, In k (Zseq b n) -> b <= k < b + Z.of_nat n.
Proof.
  induction n as [|n IH]; intros b; cbn [Zseq In]; [intros []|].
  intros [<-|H]; [lia|]. apply IH in H. lia.
Qed.

Lemma Zseq_NoDup n : forall b, List.NoDup (Zseq b n).
Proof.
  induction n as [|n IH]; intros b; cbn [Zseq]; constructor.
  - intros H. apply Zseq_In in H. lia.
  - apply IH.
Qed.

Lemma Zseq_firstn m : forall n b, (m <= n)%nat -> firstn m (Zseq b n) = Zseq b m.
Proof.
  induction m as [|m IH]; intros n b Hle; [apply firstn_O|].
  destruct n as [|n]; [lia|]. cbn [Zseq]. rewrite firstn_cons, IH by lia. reflexivity.
Qed.

Lemma Zseq_skipn m : forall n b,
  skipn m (Zseq b n) = Zseq (b + Z.of_nat m) (n - m).
Proof.
  induction m as [|m IH]; intros n b.
  - rewrite skipn_O, Z.add_0_r, Nat.sub_0_r. reflexivity.
  - destruct n as [|n]; [rewrite skipn_nil; reflexivity|].
    cbn [Zseq]. rewrite skipn_cons, IH.
    replace (b + 1 + Z.of_nat m) with (b + Z.of_nat (S m)) by lia. reflexivity.
Qed.

Lemma Zseq_snoc n : forall b, Zseq b (S n) = Zseq b n ++ [b + Z.of_nat n].
Proof.
  induction n as [|n IH]; intros b.
  - cbn. rewrite Z.add_0_r. reflexivity.
  - change (Zseq b (S (S n))) with (b :: Zseq (b + 1) (S n)). rewrite IH.
    cbn [Zseq app]. replace (b + 1 + Z.of_nat n) with (b + Z.of_nat (S n)) by lia.
    reflexivity.
Qed.

Lemma dict_get_app_fresh {V} (d1 d2 : list (Z * V)) k :
  ~ In k (Dict.keys d1) -> Dict.get (d1 ++ d2) k = Dict.get d2 k.
Proof.
  induction d1 as [|[k' v'] d1 IH]; intros Hk; [reflexivity|].
  cbn in *. destruct (k' =? k) eqn:E; [apply Z.eqb_eq in E; tauto|].
  apply IH. tauto.
Qed.

Lemma dict_set_app_fresh {V} (d1 d2 : list (Z * V)) k v :
  ~ In k (Dict.keys d1) -> Dict.set (d1 ++ d2) k v = d1 ++ Dict.set d2 k v.
Proof.
  induction d1 as [|[k' v'] d1 IH]; intros Hk; [reflexivity|].
  cbn in *. destruct (k' =? k) eqn:E; [apply Z.eqb_eq in E; tauto|].
  rewrite IH by tauto. reflexivity.
Qed.

Lemma dict_keys_app {V} (d1 d2 : list (Z * V)) :
  Dict.keys (d1 ++ d2) = Dict.keys d1 ++ Dict.keys d2.
Proof. unfold Dict.keys. apply map_app. Qed.

Lemma acked_form_ext buf buf' r r' u u' n n' s :
  buf = buf' -> r = r' -> u = u' -> n = n' ->
  acked_form buf r u n s = acked_form buf' r' u' n' s.
Proof. intros; subst; reflexivity. Qed.

(** The [for] loop of [receive_ack], on a buffer whose keys are distinct:
    every entry that passes the test is marked, its bytes are released and
    one sample is recorded for it. *)
Lemma ack_loop_marks ack :
  forall todo done s,
    Client.buffer (Client.self s) = done ++ todo ->
    List.NoDup (Dict.keys (done ++ todo)) ->
    exists new,
      Client.ack_loop ack (Dict.keys todo) s =
        (Return tt,
         acked_form (done ++ map (mark ack) todo)
           (Client.rtt_list (Client.self s) ++ new)
           (Client.current_window_usage (Client.self s)
            - released (List.filter (marked ack) todo))
           (List.length new) s) /\
      List.length new = List.length (List.filter (marked ack) todo).
Proof.
  induction todo as [|[k i] todo IH]; intros done s Hbuf Hnd.
  - exists []. split; [|reflexivity]. cbn [Dict.keys map Client.ack_loop List.filter released].
    unfold ret. f_equal. rewrite <- (acked_form_id s) at 1.
    apply acked_form_ext; try reflexivity; [|lia].
    rewrite Hbuf. reflexivity.
  - assert (Hfresh : ~ In k (Dict.keys done)).
    { rewrite dict_keys_app in Hnd. cbn in Hnd. apply List.NoDup_remove_2 in Hnd.
      intros H. apply Hnd. apply in_or_app. left. exact H. }
    assert (Hget : Dict.get (Client.buffer (Client.self s)) k = Some i).
    { rewrite Hbuf, dict_get_app_fresh by exact Hfresh. cbn. rewrite Z.eqb_refl.
      reflexivity. }
    change (Dict.keys ((k, i) :: todo)) with (k :: Dict.keys todo).
    cbn [Client.ack_loop]. unfold bind at 1. rewrite (ack_one_spec ack k s i Hget).
    assert (Hm : marked ack (k, i) = (k <? ack) && negb (Client.acked i)) by reflexivity.
    destruct ((k <? ack) && negb (Client.acked i)) eqn:Htest.
    + match goal with |- context [Client.ack_loop ack _ ?s1] =>
        destruct (IH (done ++ [(k, Client.set_acked true i)]) s1) as (new & Hrun & Hlen) end.
      { rewrite acked_form_buffer, Hbuf, dict_set_app_fresh by exact Hfresh.
        cbn. rewrite Z.eqb_refl, <- app_assoc. reflexivity. }
      { rewrite <- app_assoc. cbn [app]. rewrite dict_keys_app in *. exact Hnd. }
      rewrite Hrun, acked_form_compose.
      eexists (_ :: new). split.
      * f_equal. apply acked_form_ext.
        -- rewrite <- app_assoc. cbn [app map]. unfold mark at 2. rewrite Hm. reflexivity.
        -- rewrite <- app_assoc. reflexivity.
        -- cbn [List.filter]. rewrite Hm. cbn [released Client.current_window_usage
             Client.self acked_form Client.set_current_window_usage]. lia.
        -- cbn [List.length]. lia.
      * cbn [List.filter]. rewrite Hm. cbn [List.length]. lia.
    + destruct (IH (done ++ [(k, i)]) s) as (new & Hrun & Hlen).
      { rewrite Hbuf, <- app_assoc. reflexivity. }
      { rewrite <- app_assoc. exact Hnd. }
      rewrite Hrun. exists new. split.
      * f_equal. apply acked_form_ext; try reflexivity.
        -- rewrite <- app_assoc. cbn [app map]. unfold mark at 2. rewrite Hm. reflexivity.
        -- cbn [List.filter]. rewrite Hm. reflexivity.
      * cbn [List.filter]. rewrite Hm. exact Hlen.
Qed.


Lemma slid_form_ext buf buf' b b' s :
  buf = buf' -> b = b' -> slid_form buf b s = slid_form buf' b' s.
Proof. intros; subst; reflexivity. Qed.

(** The [while] loop of [receive_ack], on a buffer that begins with
    acknowledged entries of keys [base], [base + 1], ..., followed by
    entries that are not acknowledged: the former are evicted and [base]
    moves past them. *)
Lemma slide_loop_prefix :
  forall pre post fuel s,
    Client.buffer (Client.self s) = pre ++ post ->
    Dict.keys pre = Zseq (Client.base (Client.self s)) (List.length pre) ->
    Forall (fun e => Client.acked (snd e) = true) pre ->
    Forall (fun e => Client.acked (snd e) = false) post ->
    (List.length pre <= fuel)%nat ->
    Client.slide_loop fuel s =
    (Return tt,
     slid_form post (Client.base (Client.self s) + Z.of_nat (List.length pre)) s).
Proof.
  induction pre as [|[k i] pre IH]; intros post fuel s Hbuf Hkeys Hpre Hpost Hfuel.
  - assert (Hs : slid_form post (Client.base (Client.self s) + Z.of_nat 0) s = s).
    { rewrite <- (slid_form_id s) at 3. apply slid_form_ext; [|lia].
      rewrite Hbuf. reflexivity. }
    cbn [List.length]. rewrite Hs. destruct fuel as [|fuel]; [reflexivity|].
    cbn [Client.slide_loop]. unfold_client. unfold_m. cbn.
    destruct (Dict.get (Client.buffer (Client.self s)) (Client.base (Client.self s)))
      as [info|] eqn:Hget; [|reflexivity].
    apply dict_get_in in Hget. rewrite Hbuf in Hget. cbn [app] in Hget.
    rewrite List.Forall_forall in Hpost. specialize (Hpost _ Hget). cbn [snd] in Hpost.
    rewrite Hpost. reflexivity.
  - cbn [Dict.keys map List.length Zseq fst] in Hkeys.
    injection Hkeys as Hk Hkeys. subst k.
    inversion Hpre as [|e l Hi Hpre']; subst. cbn [snd] in Hi.
    destruct fuel as [|fuel]; [cbn in Hfuel; lia|].
    cbn [Client.slide_loop]. unfold_client. unfold_m. cbn.
    rewrite Hbuf. cbn. rewrite Z.eqb_refl, Hi.
    match goal with |- context [Client.slide_loop fuel ?s1] =>
      rewrite (IH post fuel s1) end.
    + f_equal. cbn. unfold slid_form. cbn.
      replace (Client.base (Client.self s) + 1 + Z.of_nat (List.length pre))
        with (Client.base (Client.self s) + Z.pos (Pos.of_succ_nat (List.length pre)))
        by lia.
      reflexivity.
    + cbn. rewrite Hbuf. cbn. rewrite Z.eqb_refl. reflexivity.
    + cbn. exact Hkeys.
    + exact Hpre'.
    + exact Hpost.
    + cbn in Hfuel. lia.
Qed.

Lemma mark_far ack :
  forall buf b,
    Dict.keys buf = Zseq b (List.length buf) -> ack <= b ->
    map (mark ack) buf = buf /\ List.filter (marked ack) buf = [].
Proof.
  induction buf as [|[k i] buf IH]; intros b Hkeys Hb; [split; reflexivity|].
  cbn [Dict.keys map List.length Zseq fst] in Hkeys. injection Hkeys as Hk Hkeys. subst k.
  destruct (IH (b + 1) Hkeys ltac:(lia)) as [IH1 IH2].
  assert (Hm : marked ack (b, i) = false)
    by (unfold marked; cbn [fst]; replace (b <? ack) with false;
        [reflexivity|symmetry; apply Z.ltb_ge; lia]).
  cbn [map List.filter]. unfold mark at 1. rewrite Hm, IH1, IH2. split; reflexivity.
Qed.

(** On a buffer of the packets [b], [b + 1], ..., none acknowledged, the
    test of the [for] loop of [receive_ack] holds for the packets below
    [ack], which come first. *)
Lemma mark_contiguous ack :
  forall buf b,
    Dict.keys buf = Zseq b (List.length buf) ->
    Forall (fun e => Client.acked (snd e) = false) buf ->
    let m := Z.to_nat (Z.min ack (b + Z.of_nat (List.length buf)) - b) in
    map (mark ack) buf =
      map (fun e => (fst e, Client.set_acked true (snd e))) (firstn m buf)
      ++ skipn m buf /\
    List.filter (marked ack) buf = firstn m buf.
Proof.
  induction buf as [|[k i] buf IH]; intros b Hkeys Hun m.
  - subst m. rewrite firstn_nil, skipn_nil. split; reflexivity.
  - cbn [Dict.keys map List.length Zseq fst] in Hkeys.
    injection Hkeys as Hk Hkeys. subst k.
    inversion Hun as [|e l Hi Hun']; subst e l. cbn [snd] in Hi.
    destruct (Z.ltb_spec b ack) as [Hlt|Hge].
    + assert (Hm : marked ack (b, i) = true)
        by (unfold marked; cbn [fst snd]; rewrite Hi;
            replace (b <? ack) with true; [reflexivity|symmetry; apply Z.ltb_lt; lia]).
      specialize (IH (b + 1) Hkeys Hun'). cbv zeta in IH.
      set (m' := Z.to_nat (Z.min ack (b + 1 + Z.of_nat (List.length buf)) - (b + 1))) in IH.
      assert (Em : m = S m') by (subst m m'; cbn [List.length]; lia).
      rewrite Em. destruct IH as [IH1 IH2].
      rewrite firstn_cons, skipn_cons. cbn [map List.filter app].
      unfold mark at 1. rewrite Hm, IH1, IH2. split; reflexivity.
    + assert (Em : m = 0%nat) by (subst m; cbn [List.length]; lia).
      rewrite Em, firstn_O, skipn_O. cbn [map app].
      apply (mark_far ack ((b, i) :: buf) b); [|exact Hge].
      cbn [Dict.keys map List.length Zseq fst]. f_equal. exact Hkeys.
Qed.


Lemma Forall_skipn_keeps {A} (P : A -> Prop) m :
  forall l, Forall P l -> Forall P (skipn m l).
Proof.
  induction m as [|m IH]; intros l Hl; [rewrite skipn_O; exact Hl|].
  destruct l as [|x l]; [rewrite skipn_nil; exact Hl|].
  rewrite skipn_cons. apply IH. inversion Hl; assumption.
Qed.

Lemma keys_acked (l : list (Z * Client.packet_info)) :
  Dict.keys (map (fun e => (fst e, Client.set_acked true (snd e))) l) = Dict.keys l /\
  Forall (fun e => Client.acked (snd e) = true)
    (map (fun e => (fst e, Client.set_acked true (snd e))) l).
Proof.
  induction l as [|[k i] l [IH1 IH2]]; [split; [reflexivity|constructor]|].
  split.
  - cbn [map Dict.keys fst] in *. f_equal. exact IH1.
  - cbn [map]. constructor; [reflexivity|exact IH2].
Qed.

Lemma in_flight_length s :
  in_flight s ->
  Client.next_seq (Client.self s) =
    Client.base (Client.self s) + Z.of_nat (List.length (Client.buffer (Client.self s))) /\
  Dict.keys (Client.buffer (Client.self s)) =
    Zseq (Client.base (Client.self s)) (List.length (Client.buffer (Client.self s))).
Proof.
  intros (Hle & Hkeys & _).
  assert (Hlen : List.length (Client.buffer (Client.self s)) =
                 Z.to_nat (Client.next_seq (Client.self s) - Client.base (Client.self s))).
  { rewrite <- (Zseq_length (Client.base (Client.self s))
                  (Z.to_nat (Client.next_seq (Client.self s)
                             - Client.base (Client.self s)))).
    rewrite <- Hkeys. unfold Dict.keys. rewrite length_map. reflexivity. }
  split; [lia|]. rewrite Hlen. exact Hkeys.
Qed.

Lemma after_timer_keeps ack s :
  Client.base (Client.self (after_timer ack s)) =
    Client.base (Client.self (after_slide ack s)) /\
  Client.next_seq (Client.self (after_timer ack s)) =
    Client.next_seq (Client.self (after_slide ack s)) /\
  Client.buffer (Client.self (after_timer ack s)) =
    Client.buffer (Client.self (after_slide ack s)) /\
  Client.current_window_usage (Client.self (after_timer ack s)) =
    Client.current_window_usage (Client.self (after_slide ack s)) /\
  Client.rtt_list (Client.self (after_timer ack s)) =
    Client.rtt_list (Client.self (after_slide ack s)).
Proof. unfold after_timer. destruct (_ && _); repeat split; reflexivity. Qed.

Lemma cumulative_ack_fact s d rest sq ack w l :
  in_flight s ->
  Client.inbox (Client.env s) = Some d :: rest ->
  Codec.parse_header d = Return (4, sq, ack, w, l) ->
  0 < ack ->
  let s' := exec Client.receive_ack s in
  let base' := Z.max (Client.base (Client.self s))
                     (Z.min ack (Client.next_seq (Client.self s))) in
  let m := Z.to_nat (base' - Client.base (Client.self s)) in
  result Client.receive_ack s = Return tt /\
  Client.base (Client.self s') = base' /\
  Client.next_seq (Client.self s') = Client.next_seq (Client.self s) /\
  Client.buffer (Client.self s') = skipn m (Client.buffer (Client.self s)) /\
  Client.current_window_usage (Client.self s') =
    Client.current_window_usage (Client.self s)
    - released (firstn m (Client.buffer (Client.self s))) /\
  List.length (Client.rtt_list (Client.self s')) =
    (List.length (Client.rtt_list (Client.self s)) + m)%nat /\
  in_flight s'.
Proof.
  intros Hfl Hin Hp Hack s' base' m.
  destruct (in_flight_length s Hfl) as [Hns Hkeys].
  destruct Hfl as (Hle & _ & Hun).
  set (buf := Client.buffer (Client.self s)) in *.
  set (b := Client.base (Client.self s)) in *.
  set (n := List.length buf) in *.
  assert (Em : m = Z.to_nat (Z.min ack (b + Z.of_nat n) - b))
    by (subst m base'; rewrite <- Hns; lia).
  assert (Hmn : (m <= n)%nat) by lia.
  assert (Eb : base' = b + Z.of_nat m) by (subst m base'; lia).
  destruct (mark_contiguous ack buf b Hkeys Hun) as [Hmark Hfilter].
  cbv zeta in Hmark, Hfilter. fold n in Hmark, Hfilter. rewrite <- Em in Hmark, Hfilter.
  destruct (ack_loop_marks ack buf [] (received s) eq_refl) as (new & Hrun & Hnew).
  { cbn [app]. rewrite Hkeys. apply Zseq_NoDup. }
  cbn [app] in Hrun. rewrite Hfilter in Hrun, Hnew. rewrite length_firstn in Hnew.
  assert (Hloop : after_ack_loop ack (received s) =
    acked_form (map (mark ack) buf)
      (Client.rtt_list (Client.self s) ++ new)
      (Client.current_window_usage (Client.self s) - released (firstn m buf))
      (List.length new) (received s)).
  { unfold after_ack_loop, exec.
    change (Client.buffer (Client.self (received s))) with buf.
    rewrite Hrun. reflexivity. }
  destruct (keys_acked (firstn m buf)) as [Hk1 Hk2].
  assert (Hslide : after_slide ack (received s) =
    slid_form (skipn m buf) (b + Z.of_nat m) (after_ack_loop ack (received s))).
  { unfold after_slide, exec.
    rewrite (slide_loop_prefix
               (map (fun e => (fst e, Client.set_acked true (snd e))) (firstn m buf))
               (skipn m buf)).
    - rewrite length_map, length_firstn, Hloop. cbn [snd].
      replace (Nat.min m (List.length buf)) with m by (fold n; lia). reflexivity.
    - rewrite Hloop, acked_form_buffer. exact Hmark.
    - rewrite Hk1, length_map, length_firstn, Hloop.
      replace (Nat.min m (List.length buf)) with m by (fold n; lia).
      unfold Dict.keys. rewrite <- firstn_map. fold (Dict.keys buf). rewrite Hkeys.
      apply Zseq_firstn. exact Hmn.
    - exact Hk2.
    - apply Forall_skipn_keeps. exact Hun.
    - rewrite length_map, length_firstn, Hloop, acked_form_buffer, length_map.
      fold n. lia. }
  destruct (adjust_timeout_frame (after_timer ack (received s)))
    as (_ & _ & A1 & A2 & A3 & A4 & A5).
  destruct (after_timer_keeps ack (received s)) as (T1 & T2 & T3 & T4 & T5).
  assert (Hrun' : Client.receive_ack s =
    (Return tt, exec Client.adjust_timeout (after_timer ack (received s))))
    by (eapply receive_ack_on_ack; eassumption).
  assert (Es : s' = exec Client.adjust_timeout (after_timer ack (received s)))
    by (subst s'; unfold exec at 1; rewrite Hrun'; reflexivity).
  rewrite Hslide, Hloop in T1, T2, T3, T4, T5.
  cbn [slid_form acked_form Client.self Client.base Client.next_seq Client.buffer
       Client.current_window_usage Client.rtt_list Client.set_base Client.set_buffer
       Client.set_current_window_usage Client.set_rtt_list received] in T1, T2, T3, T4, T5.
  assert (B1 : Client.base (Client.self s') = base')
    by (rewrite Es, A1, T1; symmetry; exact Eb).
  assert (B2 : Client.next_seq (Client.self s') = Client.next_seq (Client.self s))
    by (rewrite Es, A5, T2; reflexivity).
  assert (B3 : Client.buffer (Client.self s') = skipn m buf)
    by (rewrite Es, A2, T3; reflexivity).
  split; [unfold result; rewrite Hrun'; reflexivity|].
  split; [exact B1|]. split; [exact B2|]. split; [exact B3|].
  split; [rewrite Es, A4, T4; reflexivity|].
  split; [rewrite Es, A3, T5, length_app, Hnew; fold n; lia|].
  unfold in_flight. rewrite B1, B2, B3. split; [lia|]. split.
  - unfold Dict.keys. rewrite <- skipn_map. fold (Dict.keys buf).
    rewrite Hkeys, Zseq_skipn, <- Eb. f_equal. lia.
  - apply Forall_skipn_keeps. exact Hun.
Qed.



(** X18. The ACK is cumulative. With the packets [base], ..., [next_seq - 1] in
    the buffer, none acknowledged, an ACK whose ack field is [ack] moves
    [base] to [ack], or to [next_seq] when [ack] is beyond it, and not at
    all when [ack] is not above [base]; the packets below the new [base]
    leave the buffer and the others stay as they were; one RTT sample is
    recorded for each packet that leaves, and [end - start + 1] is taken
    off the window usage for each. The buffer then holds the packets from
    the new [base] to [next_seq - 1], none acknowledged. *)
Theorem cumulative_ack s d rest sq ack w l :
  in_flight s ->
  Client.inbox (Client.env s) = Some d :: rest ->
  Codec.parse_header d = Return (4, sq, ack, w, l) ->
  0 < ack ->
  let s' := exec Client.receive_ack s in
  let base' := Z.max (Client.base (Client.self s))
                     (Z.min ack (Client.next_seq (Client.self s))) in
  let m := Z.to_nat (base' - Client.base (Client.self s)) in
  result Client.receive_ack s = Return tt /\
  Client.base (Client.self s') = base' /\
  Client.next_seq (Client.self s') = Client.next_seq (Client.self s) /\
  Client.buffer (Client.self s') = skipn m (Client.buffer (Client.self s)) /\
  Client.current_window_usage (Client.self s') =
    Client.current_window_usage (Client.self s)
    - released (firstn m (Client.buffer (Client.self s))) /\
  List.length (Client.rtt_list (Client.self s')) =
    (List.length (Client.rtt_list (Client.self s)) + m)%nat /\
  in_flight s'.
Proof. exact (cumulative_ack_fact s d rest sq ack w l). Qed.
Lemma cumulative_ack_witness :
  let s := filled [Some ack_1] in
  result Client.receive_ack s = Return tt /\
  Client.base (Client.self (exec Client.receive_ack s)) = 1 /\
  in_flight (exec Client.receive_ack s).
Proof.
  intros s.
  destruct (cumulative_ack s ack_1 [] 0 1 400 0) as (H1 & H2 & _ & _ & _ & _ & H3).
  - split; [vm_compute; discriminate|]. split; [vm_compute; reflexivity|].
    vm_compute. repeat constructor.
  - vm_compute. reflexivity.
  - vm_compute. reflexivity.
  - lia.
  - split; [exact H1|]. split; [rewrite H2; vm_compute; reflexivity|exact H3].
Defined.


(* ------------------------------------------------------------------ *)
(** ** The contents of the buffer, kept by the sending loop             *)
(* ------------------------------------------------------------------ *)

Lemma in_flight_self s s' :
  Client.base (Client.self s') = Client.base (Client.self s) ->
  Client.next_seq (Client.self s') = Client.next_seq (Client.self s) ->
  Client.buffer (Client.self s') = Client.buffer (Client.self s) ->
  in_flight s -> in_flight s'.
Proof. unfold in_flight. intros -> -> ->. exact (fun H => H). Qed.

(** A new packet enters the buffer after the others. *)
Lemma in_flight_entry s s' info :
  Client.acked info = false ->
  Client.base (Client.self s') = Client.base (Client.self s) ->
  Client.next_seq (Client.self s') = Client.next_seq (Client.self s) + 1 ->
  Client.buffer (Client.self s') =
    Dict.set (Client.buffer (Client.self s)) (Client.next_seq (Client.self s)) info ->
  in_flight s -> in_flight s'.
Proof.
  intros Hinfo Hb Hn Hbuf Hfl.
  destruct (in_flight_length s Hfl) as [Hns Hkeys]. destruct Hfl as (Hle & _ & Hun).
  assert (Hfresh : ~ In (Client.next_seq (Client.self s))
                        (Dict.keys (Client.buffer (Client.self s)))).
  { rewrite Hkeys. intros H. apply Zseq_In in H. lia. }
  assert (Hset : Client.buffer (Client.self s') =
                 Client.buffer (Client.self s) ++ [(Client.next_seq (Client.self s), info)]).
  { rewrite Hbuf. rewrite <- (app_nil_r (Client.buffer (Client.self s))) at 1.
    rewrite dict_set_app_fresh by exact Hfresh. reflexivity. }
  unfold in_flight. rewrite Hb, Hn, Hset. split; [lia|]. split.
  - rewrite dict_keys_app, Hkeys.
    replace (Z.to_nat (Client.next_seq (Client.self s) + 1 - Client.base (Client.self s)))
      with (S (List.length (Client.buffer (Client.self s)))) by lia.
    rewrite Zseq_snoc. cbn [Dict.keys map fst]. rewrite Hns at 1. reflexivity.
  - apply Forall_app. split; [exact Hun|]. constructor; [exact Hinfo|constructor].
Qed.

(** An entry of the buffer is replaced by one that is not acknowledged
    either. *)
Lemma in_flight_update s s' seq info info' :
  Dict.get (Client.buffer (Client.self s)) seq = Some info ->
  Client.acked info' = false ->
  Client.base (Client.self s') = Client.base (Client.self s) ->
  Client.next_seq (Client.self s') = Client.next_seq (Client.self s) ->
  Client.buffer (Client.self s') = Dict.set (Client.buffer (Client.self s)) seq info' ->
  in_flight s -> in_flight s'.
Proof.
  intros Hget Hinfo Hb Hn Hbuf (Hle & Hkeys & Hun).
  unfold in_flight. rewrite Hb, Hn, Hbuf. split; [exact Hle|]. split.
  - rewrite dict_keys_set; [exact Hkeys|]. apply dict_get_keys. eauto.
  - rewrite List.Forall_forall in *. intros [k i] Hin.
    apply dict_in_set in Hin. destruct Hin as [Heq|Hin].
    + injection Heq as -> ->. exact Hinfo.
    + apply (Hun _ Hin).
Qed.

Lemma send_window_pass_in_flight s :
  in_flight s -> in_flight (exec Client.send_window_pass s).
Proof.
  intros Hfl. unfold Client.send_window_pass, Client.calculate_data_range.
  unfold_client. unfold_m. cbn.
  match goal with |- context [Codec.build_header ?a ?b ?c ?d ?e] =>
    destruct (Codec.build_header a b c d e) as [hdr|ex] end; cbn;
    [|revert Hfl; apply in_flight_self; reflexivity].
  destruct (Client.timer_running (Client.self s)); cbn.
  - eapply in_flight_entry; [| | |reflexivity|exact Hfl]; reflexivity.
  - match goal with |- context [Client.nonempty ?b] =>
      destruct (Client.nonempty b) end;
      (eapply in_flight_entry; [| | |reflexivity|exact Hfl]; reflexivity).
Qed.

Lemma send_window_loop_in_flight fuel :
  forall s, in_flight s -> in_flight (exec (Client.send_window_loop fuel) s).
Proof.
  induction fuel as [|fuel IH]; intros s Hfl; [exact Hfl|].
  cbn [Client.send_window_loop]. unfold exec.
  rewrite (bind_returns _ _ _ _ _ (attr_returns _ s)).
  rewrite (bind_returns _ _ _ _ _ (attr_returns _ s)).
  rewrite (bind_returns _ _ _ _ _ (attr_returns _ s)).
  rewrite (bind_returns _ _ _ _ _ (attr_returns _ s)).
  destruct ((Client.next_seq (Client.self s) <? Client.target_packets (Client.self s))
            && (Client.current_window_usage (Client.self s)
                <? Client.window_size_bytes (Client.self s))); [|exact Hfl].
  pose proof (send_window_pass_in_flight s Hfl) as H1. unfold exec in H1.
  unfold bind.
  destruct (Client.send_window_pass s) as [[[]|ex] s1]; cbn [snd] in H1.
  - apply (IH s1 H1).
  - exact H1.
Qed.

Lemma send_window_packets_in_flight s :
  in_flight s -> in_flight (exec Client.send_window_packets s).
Proof.
  intros Hfl. unfold Client.send_window_packets, exec.
  rewrite (bind_returns _ _ _ _ _ (eq_refl : gets Client.send_window_fuel s = (_, s))).
  apply send_window_loop_in_flight, Hfl.
Qed.

Lemma retransmit_one_in_flight seq s :
  in_flight s -> in_flight (exec (Client.retransmit_one seq) s).
Proof.
  intros Hfl. unfold Client.retransmit_one. unfold_client. unfold_m. unfold Dict.item. cbn.
  destruct (Dict.get (Client.buffer (Client.self s)) seq) as [info|] eqn:Hget; cbn;
    [|exact Hfl].
  destruct (Client.acked info) eqn:Hacked; cbn; [exact Hfl|].
  rewrite Hget. cbn.
  set (info1 := Client.set_send_time
         (Client.time_src (Client.env s) (Client.time_ix (Client.env s))) info).
  assert (Hmid : in_flight
    {| Client.self := Client.set_buffer
         (Dict.set (Client.buffer (Client.self s)) seq info1) (Client.self s);
       Client.env := Client.env s |})
    by (apply (in_flight_update s _ seq info info1); try reflexivity; assumption).
  rewrite dict_get_set_same. cbn.
  match type of Hmid with in_flight ?sm =>
    apply (in_flight_update sm _ seq info1
             (Client.set_retries (Client.retries info1 + 1) info1));
      [apply dict_get_set_same|exact Hacked| | | |exact Hmid]; reflexivity
  end.
Qed.

Lemma retransmit_loop_in_flight keys :
  forall s, in_flight s -> in_flight (exec (Client.retransmit_loop keys) s).
Proof.
  induction keys as [|seq rest IH]; intros s Hfl; [exact Hfl|].
  cbn [Client.retransmit_loop]. rewrite exec_bind.
  pose proof (retransmit_one_in_flight seq s Hfl) as H1. unfold exec in H1.
  destruct (Client.retransmit_one seq s) as [[[]|ex] s1]; cbn [snd] in H1.
  - apply IH, H1.
  - exact H1.
Qed.

Lemma handle_timeout_in_flight s :
  in_flight s -> in_flight (exec Client.handle_timeout s).
Proof.
  intros Hfl. unfold Client.handle_timeout. rewrite exec_bind.
  change (Client.stop_timer s) with
    (Return tt, {| Client.self := Client.set_timer_running false (Client.self s);
                   Client.env := Client.env s |}).
  cbv iota beta. rewrite exec_bind. rewrite attr_returns. cbv iota beta.
  rewrite exec_bind.
  match goal with |- context [Client.retransmit_loop ?k ?s0] =>
    assert (H0 : in_flight s0) by (revert Hfl; apply in_flight_self; reflexivity);
    pose proof (retransmit_loop_in_flight k s0 H0) as H1; unfold exec in H1;
    destruct (Client.retransmit_loop k s0) as [[[]|ex] s1] end; cbn [snd] in H1.
  - rewrite exec_bind, attr_returns. cbv iota beta.
    destruct (Client.buffer (Client.self s1)) eqn:E; cbn; [exact H1|].
    revert H1. apply in_flight_self; reflexivity.
  - exact H1.
Qed.

Lemma receive_ack_in_flight s :
  in_flight s -> in_flight (exec Client.receive_ack s).
Proof.
  intros Hfl.
  destruct (receive_ack_cases s)
    as [(d & rest & sq & ack & w & l & Hin & Hp & Hack & _)|Hrun].
  - apply (cumulative_ack_fact s d rest sq ack w l Hfl Hin Hp Hack).
  - unfold exec. rewrite Hrun. cbn [snd]. revert Hfl. apply in_flight_self; reflexivity.
Qed.

Lemma check_timer_in_flight s :
  in_flight s -> in_flight (exec Client.check_timer s).
Proof.
  intros Hfl. unfold Client.check_timer. unfold_client. unfold_m. cbn.
  destruct (Client.timer_running (Client.self s)); cbn; [|exact Hfl].
  revert Hfl. apply in_flight_self; reflexivity.
Qed.

Lemma send_data_pass_in_flight s :
  in_flight s -> in_flight (exec Client.send_data_pass s).
Proof.
  intros Hfl. unfold Client.send_data_pass. rewrite exec_bind.
  pose proof (send_window_packets_in_flight s Hfl) as H1. unfold exec in H1.
  destruct (Client.send_window_packets s) as [[[]|ex] s1]; cbn [snd] in H1; [|exact H1].
  rewrite exec_bind.
  pose proof (receive_ack_in_flight s1 H1) as H2. unfold exec in H2.
  destruct (Client.receive_ack s1) as [[[]|ex] s2]; cbn [snd] in H2; [|exact H2].
  rewrite exec_bind.
  pose proof (check_timer_in_flight s2 H2) as H3. unfold exec in H3.
  destruct (Client.check_timer s2) as [[expired|ex] s3]; cbn [snd] in H3; [|exact H3].
  destruct expired; cbn [when]; [apply handle_timeout_in_flight, H3|exact H3].
Qed.

Lemma send_data_passes_in_flight n :
  forall s, in_flight s -> in_flight (exec (send_data_passes n) s).
Proof.
  induction n as [|n IH]; intros s Hfl; [exact Hfl|].
  cbn [send_data_passes]. unfold exec.
  rewrite (bind_returns _ _ _ _ _ (attr_returns _ s)).
  rewrite (bind_returns _ _ _ _ _ (attr_returns _ s)).
  destruct (Client.base (Client.self s) <? Client.target_packets (Client.self s));
    [|exact Hfl].
  change (in_flight (exec (Client.send_data_pass ;;; send_data_passes n) s)).
  rewrite exec_bind.
  pose proof (send_data_pass_in_flight s Hfl) as H1. unfold exec in H1.
  destruct (Client.send_data_pass s) as [[[]|ex] s1]; cbn [snd] in H1; [|exact H1].
  apply IH, H1.
Qed.


Lemma blank_in_flight s : blank s -> in_flight s.
Proof.
  intros [Hbuf Hb]. unfold in_flight. rewrite Hbuf, Hb, Z.sub_diag.
  split; [lia|]. split; [reflexivity|constructor].
Qed.

Lemma connect_pass_blank my_seq retries s :
  blank s -> blank (exec (Client.connect_pass my_seq retries) s).
Proof.
  intros Hbl. unfold Client.connect_pass.
  unfold_client. unfold_m. cbn.
  destruct (Codec.build_header 1 my_seq 0 (Client.window_size_bytes (Client.self s)) 0)
    as [syn|ex]; cbn; [|exact Hbl].
  destruct (Client.inbox (Client.env s)) as [|[d|] rest]; cbn; try exact Hbl.
  destruct (Codec.parse_header (slice_to d 1024)) as [[[[[pt sq] ak] wd] ln]|ex]; cbn.
  - destruct ((pt =? 2) && (ak =? my_seq + 1)); cbn; [|exact Hbl].
    destruct (Codec.build_header 4 (my_seq + 1) (sq + 1)
                (Client.window_size_bytes (Client.self s)) 0) as [ap|ex]; cbn.
    + split; [exact (proj1 Hbl)|reflexivity].
    + destruct ex; exact Hbl.
  - destruct ex; exact Hbl.
Qed.

Lemma connect_loop_blank fuel :
  forall my_seq retries s,
    blank s -> blank (exec (Client.connect_loop fuel my_seq retries) s).
Proof.
  induction fuel as [|fuel IH]; intros my_seq retries s Hbl; [exact Hbl|].
  cbn [Client.connect_loop]. destruct (retries <? Client.max_retries); [|exact Hbl].
  rewrite exec_bind.
  pose proof (connect_pass_blank my_seq retries s Hbl) as H1. unfold exec in H1.
  destruct (Client.connect_pass my_seq retries s) as [[[b|r']|ex] s1]; cbn [snd] in H1.
  - exact H1.
  - apply IH, H1.
  - exact H1.
Qed.

Lemma connect_blank s : blank s -> blank (exec Client.connect s).
Proof.
  intros Hbl. unfold exec. rewrite connect_unfold.
  apply (connect_loop_blank _ _ _ (after_draw s)). exact Hbl.
Qed.

(** X19. From the creation of the initiator on, through [connect] and any
    number of passes of the loop of [send_data], whatever arrives and
    whatever the clock and the generator give: the buffer holds the packets
    [base], ..., [next_seq - 1], in this order, and none of them is marked
    as acknowledged, since [receive_ack] evicts every packet it marks. *)
Theorem buffer_holds_window ip port target e n :
  let s := {| Client.self := Client.init ip port target; Client.env := e |} in
  in_flight (exec (send_data_passes n) (exec Client.connect s)).
Proof.
  intros s. apply send_data_passes_in_flight, blank_in_flight, connect_blank.
  split; reflexivity.
Qed.

(** X20. No number of passes of the loop of [send_data] changes the server
    address, the window size, the packet sizes, the number of packets to
    send or the data, and [base] and [next_seq] never go back. *)
Theorem sender_keeps_config n s :
  let s' := exec (send_data_passes n) s in
  same_config (Client.self s) (Client.self s') /\
  Client.base (Client.self s) <= Client.base (Client.self s') /\
  Client.next_seq (Client.self s) <= Client.next_seq (Client.self s').
Proof.
  intros s'. destruct (send_data_passes_ledger n s) as (H0 & H1 & H2 & _).
  split; [exact H0|]. split; assumption.
Qed.

(** X21. The counters of the initiator tell the truth. Over any number of passes
    of the loop of [send_data], [sent_count] grows by the number of
    datagrams put on the wire; each of them is counted once more, as a
    first transmission in [initial_sent] or as a retransmission in
    [retransmit_count]; and [initial_sent] grows as [next_seq] does. *)
Theorem sender_accounting n s :
  let s' := exec (send_data_passes n) s in
  exists out,
    Client.wire (Client.env s') = Client.wire (Client.env s) ++ out /\
    Client.sent_count (Client.self s') = Client.sent_count (Client.self s) + sendtos out /\
    sendtos out =
      (Client.initial_sent (Client.self s') - Client.initial_sent (Client.self s)) +
      (Client.retransmit_count (Client.self s')
       - Client.retransmit_count (Client.self s)) /\
    Client.initial_sent (Client.self s') - Client.initial_sent (Client.self s) =
      Client.next_seq (Client.self s') - Client.next_seq (Client.self s) /\
    0 <= Client.initial_sent (Client.self s') - Client.initial_sent (Client.self s) /\
    0 <= Client.retransmit_count (Client.self s')
         - Client.retransmit_count (Client.self s).
Proof.
  intros s'.
  destruct (send_data_passes_ledger n s) as (_ & _ & H2 & H3 & H4 & out & H5 & H6 & H7).
  fold s' in H2, H3, H4, H5, H6, H7.
  exists out. repeat split; try assumption; lia.
Qed.


(* ------------------------------------------------------------------ *)
(** ** The retransmission of the window                                 *)
(* ------------------------------------------------------------------ *)

Lemma dict_set_set {V} (d : list (Z * V)) k v v' :
  Dict.set (Dict.set d k v) k v' = Dict.set d k v'.
Proof.
  induction d as [|[k0 v0] d IH]; cbn.
  - rewrite Z.eqb_refl. reflexivity.
  - destruct (k0 =? k) eqn:E; cbn; [rewrite Z.eqb_refl; reflexivity|].
    rewrite E, IH. reflexivity.
Qed.

Lemma insert_Z_last x l : Forall (fun y => y < x) l -> insert_Z x l = l ++ [x].
Proof.
  induction l as [|y l IH]; intros Hl; [reflexivity|].
  inversion Hl as [|y' l' Hy Hl']; subst. cbn.
  replace (x <? y) with false by (symmetry; apply Z.ltb_ge; lia).
  rewrite IH by exact Hl'. reflexivity.
Qed.

Lemma Zseq_sorted_fold m :
  forall k b,
    fold_left (fun acc x => insert_Z x acc) (Zseq (b + Z.of_nat k) m) (Zseq b k) =
    Zseq b (k + m).
Proof.
  induction m as [|m IH]; intros k b.
  - cbn. rewrite Nat.add_0_r. reflexivity.
  - cbn [Zseq fold_left]. rewrite insert_Z_last.
    + rewrite <- Zseq_snoc.
      replace (b + Z.of_nat k + 1) with (b + Z.of_nat (S k)) by lia.
      rewrite IH. f_equal. lia.
    + apply List.Forall_forall. intros y Hy. apply Zseq_In in Hy. lia.
Qed.

Lemma sorted_Z_Zseq n b : sorted_Z (Zseq b n) = Zseq b n.
Proof.
  unfold sorted_Z. pose proof (Zseq_sorted_fold n 0%nat b) as Hgen.
  cbn [Zseq Z.of_nat Nat.add] in Hgen. rewrite Z.add_0_r in Hgen. exact Hgen.
Qed.

Lemma resent_form_ext buf buf' n n' out out' s :
  buf = buf' -> n = n' -> out = out' ->
  resent_form buf n out s = resent_form buf' n' out' s.
Proof. intros; subst; reflexivity. Qed.

Lemma resent_form_id s : resent_form (Client.buffer (Client.self s)) 0 [] s = s.
Proof.
  destruct s as [c e]. destruct c, e. unfold resent_form. cbn.
  rewrite !Z.add_0_r, app_nil_r. reflexivity.
Qed.

Lemma resent_form_compose buf1 n1 out1 buf2 n2 out2 s :
  resent_form buf2 n2 out2 (resent_form buf1 n1 out1 s) =
  resent_form buf2 (n1 + n2) (out1 ++ out2) s.
Proof.
  unfold resent_form. cbn.
  rewrite <- !Z.add_assoc, <- Nat2Z.inj_add, <- app_assoc, Nat.add_assoc.
  rewrite (Nat.add_comm n2 n1). reflexivity.
Qed.

(** [handle_timeout]: the body of the [for] loop, on an entry that is not
    acknowledged. *)
Lemma retransmit_one_spec seq s info :
  Dict.get (Client.buffer (Client.self s)) seq = Some info ->
  Client.acked info = false ->
  Client.retransmit_one seq s =
  (Return tt,
   resent_form
     (Dict.set (Client.buffer (Client.self s)) seq
        (Client.set_retries (Client.retries info + 1)
           (Client.set_send_time
              (Client.time_src (Client.env s) (Client.time_ix (Client.env s))) info)))
     1 [Client.Sendto (Client.packet info) (Client.server_addr (Client.self s))] s).
Proof.
  intros Hget Hacked. unfold Client.retransmit_one.
  unfold_client. unfold_m. unfold Dict.item. cbn.
  rewrite Hget. cbn. rewrite Hacked. cbn. rewrite Hget. cbn.
  rewrite dict_get_set_same. cbn. rewrite dict_set_set. reflexivity.
Qed.

(** The [for] loop of [handle_timeout], on entries none of which is
    acknowledged: every one is retransmitted, in the order of the keys. *)
Lemma retransmit_loop_all :
  forall todo done s,
    Client.buffer (Client.self s) = done ++ todo ->
    List.NoDup (Dict.keys (done ++ todo)) ->
    Forall (fun e => Client.acked (snd e) = false) todo ->
    Client.retransmit_loop (Dict.keys todo) s =
    (Return tt,
     resent_form
       (done ++ resent (Client.time_src (Client.env s)) (Client.time_ix (Client.env s)) todo)
       (List.length todo)
       (resends (Client.server_addr (Client.self s)) todo) s).
Proof.
  induction todo as [|[k i] todo IH]; intros done s Hbuf Hnd Hun.
  - cbn. unfold ret. f_equal. rewrite <- (resent_form_id s) at 1.
    apply resent_form_ext; try reflexivity. rewrite Hbuf. reflexivity.
  - assert (Hfresh : ~ In k (Dict.keys done)).
    { rewrite dict_keys_app in Hnd. cbn in Hnd. apply List.NoDup_remove_2 in Hnd.
      intros H. apply Hnd. apply in_or_app. left. exact H. }
    assert (Hget : Dict.get (Client.buffer (Client.self s)) k = Some i).
    { rewrite Hbuf, dict_get_app_fresh by exact Hfresh. cbn. rewrite Z.eqb_refl.
      reflexivity. }
    inversion Hun as [|e l Hi Hun']; subst e l. cbn [snd] in Hi.
    change (Dict.keys ((k, i) :: todo)) with (k :: Dict.keys todo).
    cbn [Client.retransmit_loop]. unfold bind at 1.
    rewrite (retransmit_one_spec k s i Hget Hi).
    match goal with |- context [Client.retransmit_loop _ (resent_form ?b1 1 ?o1 s)] =>
      set (buf1 := b1); set (out1 := o1) end.
    set (i' := Client.set_retries (Client.retries i + 1)
                 (Client.set_send_time
                    (Client.time_src (Client.env s) (Client.time_ix (Client.env s))) i))
      in *.
    rewrite (IH (done ++ [(k, i')]) (resent_form buf1 1 out1 s)).
    + rewrite resent_form_compose. f_equal. apply resent_form_ext.
      * rewrite <- app_assoc. reflexivity.
      * reflexivity.
      * reflexivity.
    + subst buf1. cbn [resent_form Client.self Client.buffer Client.set_buffer
        Client.set_sent_count Client.set_retransmit_count].
      rewrite Hbuf, dict_set_app_fresh by exact Hfresh.
      cbn. rewrite Z.eqb_refl, <- app_assoc. reflexivity.
    + rewrite <- app_assoc. cbn [app]. rewrite dict_keys_app in *. exact Hnd.
    + exact Hun'.
Qed.


Lemma resent_nonempty t ix es : Client.nonempty (resent t ix es) = Client.nonempty es.
Proof. destruct es as [|[k i] es]; reflexivity. Qed.

(** X22. A time-out retransmits the whole window. With the packets [base], ...,
    [next_seq - 1] in the buffer, none acknowledged, [handle_timeout]
    returns normally; it sends again every packet of the buffer, in the
    order of the sequence numbers and as it was first sent; every entry
    gets a new [send_time] and one more retry; [retransmit_count] and
    [sent_count] grow by the number of packets of the buffer; [base],
    [next_seq] and the window usage are left as they were; and the timer
    runs afterwards exactly when the buffer is not empty. *)
Theorem timeout_resends_window s :
  in_flight s ->
  let s' := exec Client.handle_timeout s in
  let buf := Client.buffer (Client.self s) in
  result Client.handle_timeout s = Return tt /\
  Client.wire (Client.env s') =
    Client.wire (Client.env s) ++ resends (Client.server_addr (Client.self s)) buf /\
  Client.buffer (Client.self s') =
    resent (Client.time_src (Client.env s)) (Client.time_ix (Client.env s)) buf /\
  Client.retransmit_count (Client.self s') =
    Client.retransmit_count (Client.self s) + len buf /\
  Client.sent_count (Client.self s') = Client.sent_count (Client.self s) + len buf /\
  Client.base (Client.self s') = Client.base (Client.self s) /\
  Client.next_seq (Client.self s') = Client.next_seq (Client.self s) /\
  Client.current_window_usage (Client.self s') =
    Client.current_window_usage (Client.self s) /\
  Client.timer_running (Client.self s') = Client.nonempty buf.
Proof.
  intros Hfl s' buf.
  destruct (in_flight_length s Hfl) as [_ Hkeys]. destruct Hfl as (_ & _ & Hun).
  fold buf in Hkeys, Hun.
  set (s0 := {| Client.self := Client.set_timer_running false (Client.self s);
                Client.env := Client.env s |}).
  assert (Hnd : List.NoDup (Dict.keys ([] ++ buf)))
    by (cbn [app]; rewrite Hkeys; apply Zseq_NoDup).
  pose proof (retransmit_loop_all buf [] s0 eq_refl Hnd Hun) as Hloop.
  cbn [app] in Hloop.
  assert (Hrun : exists sf,
    Client.handle_timeout s = (Return tt, sf) /\
    Client.wire (Client.env sf) =
      Client.wire (Client.env s) ++ resends (Client.server_addr (Client.self s)) buf /\
    Client.buffer (Client.self sf) =
      resent (Client.time_src (Client.env s)) (Client.time_ix (Client.env s)) buf /\
    Client.retransmit_count (Client.self sf) =
      Client.retransmit_count (Client.self s) + len buf /\
    Client.sent_count (Client.self sf) = Client.sent_count (Client.self s) + len buf /\
    Client.base (Client.self sf) = Client.base (Client.self s) /\
    Client.next_seq (Client.self sf) = Client.next_seq (Client.self s) /\
    Client.current_window_usage (Client.self sf) =
      Client.current_window_usage (Client.self s) /\
    Client.timer_running (Client.self sf) = Client.nonempty buf).
  { unfold Client.handle_timeout.
    rewrite (bind_returns _ _ _ _ _ (eq_refl : Client.stop_timer s = (Return tt, s0))).
    rewrite (bind_returns _ _ _ _ _ (attr_returns _ s0)).
    change (Client.buffer (Client.self s0)) with buf.
    rewrite Hkeys, sorted_Z_Zseq, <- Hkeys.
    rewrite (bind_returns _ _ _ _ _ Hloop).
    rewrite (bind_returns _ _ _ _ _ (attr_returns _ _)).
    cbn [resent_form Client.self Client.buffer Client.set_buffer
         Client.set_sent_count Client.set_retransmit_count].
    rewrite resent_nonempty.
    destruct (Client.nonempty buf) eqn:Hne; cbn [when];
      eexists; (split; [reflexivity|]); cbn; repeat split; reflexivity. }
  destruct Hrun as (sf & Hrun & Hres).
  subst s'. unfold result, exec. rewrite Hrun. cbn [fst snd].
  split; [reflexivity|exact Hres].
Qed.

Lemma timeout_resends_window_witness :
  let s := filled [] in
  let s' := exec Client.handle_timeout s in
  result Client.handle_timeout s = Return tt /\
  Client.retransmit_count (Client.self s') = 10 /\
  Client.timer_running (Client.self s') = true.
Proof.
  intros s.
  destruct (timeout_resends_window s) as (H1 & _ & _ & H2 & _ & _ & _ & _ & H3).
  - split; [vm_compute; discriminate|]. split; [vm_compute; reflexivity|].
    vm_compute. repeat constructor.
  - split; [exact H1|]. split; [rewrite H2|rewrite H3]; vm_compute; reflexivity.
Defined.


(* ------------------------------------------------------------------ *)
(** ** What [receive_ack] ignores                                       *)
(* ------------------------------------------------------------------ *)

Lemma receive_ack_skips s :
  (forall d rest, Client.inbox (Client.env s) = Some d :: rest -> ~ positive_ack d) ->
  Client.receive_ack s = (Return tt, received s).
Proof.
  intros Hno. apply receive_ack_idle.
  destruct (Client.inbox (Client.env s)) as [|[d|] rest] eqn:Hin; try exact I.
  destruct (Codec.parse_header d) as [[[[[pt sq] ak] wd] ln]|ex] eqn:Hp; [|exact I].
  destruct ((pt =? 4) && (0 <? ak)) eqn:Hc; [|reflexivity].
  apply andb_true_iff in Hc. destruct Hc as [Hpt Hak].
  apply Z.eqb_eq in Hpt. apply Z.ltb_lt in Hak. subst pt.
  exfalso. apply (Hno d rest eq_refl). exists sq, ak, wd, ln. split; assumption.
Qed.

(** X23. [receive_ack] ignores everything but an ACK whose ack field is
    positive. When nothing arrives within the 0.1 second, or when what
    arrives is shorter than a header, is of another type, or is an ACK that
    acknowledges 0, the method returns normally and [self] is left as it
    was: no packet is acknowledged, the window, the timer and the time-out
    do not move. The datagram is consumed. *)
Theorem receive_ack_ignores s :
  (forall d rest, Client.inbox (Client.env s) = Some d :: rest -> ~ positive_ack d) ->
  let s' := exec Client.receive_ack s in
  result Client.receive_ack s = Return tt /\
  Client.self s' = Client.self s /\
  Client.inbox (Client.env s') = tl (Client.inbox (Client.env s)) /\
  Client.wire (Client.env s') = Client.wire (Client.env s) ++ [Client.Settimeout 0.1].
Proof.
  intros Hno s'.
  pose proof (receive_ack_skips s Hno) as Hrun.
  subst s'. unfold result, exec. rewrite Hrun. repeat split; reflexivity.
Qed.

Lemma receive_ack_ignores_witness :
  let s := filled [Some valid_syn_ack] in
  result Client.receive_ack s = Return tt /\
  Client.self (exec Client.receive_ack s) = Client.self s.
Proof.
  intros s.
  destruct (receive_ack_ignores s) as (H1 & H2 & _).
  - intros d rest Hin (sq & ack & w & l & Hp & _).
    vm_compute in Hin. injection Hin as <- <-. vm_compute in Hp. discriminate.
  - split; [exact H1|exact H2].
Defined.


(* ------------------------------------------------------------------ *)
(** ** The data phase, end to end                                       *)
(* ------------------------------------------------------------------ *)

(** X24. The two programs agree on the data phase. When the responder expects
    the oldest packet of the window of the initiator and does not drop it,
    what it sends back is an ACK that makes [receive_ack] move [base] by
    one, evict that packet and keep the others. *)
Theorem data_end_to_end (c : Client.Sys) (sv : Server.Sys) (me : address)
    conn info a w l rest :
  in_flight c ->
  0 <= Client.base (Client.self c) < Client.next_seq (Client.self c) ->
  Client.base (Client.self c) < 65535 ->
  Dict.get (Client.buffer (Client.self c)) (Client.base (Client.self c)) = Some info ->
  Codec.parse_header (Client.packet info) =
    Return (3, Client.base (Client.self c), a, w, l) ->
  table sv !! me = Some conn ->
  Server.state conn = Server.ESTABLISHED ->
  Server.expected_seq conn = Client.base (Client.self c) ->
  Qltb (next_draw sv) (Server.drop_rate (Server.self sv)) = false ->
  let sv' := Server.start [(Client.packet info, me)] sv in
  exists reply,
    Server.wire (Server.env sv') = Server.wire (Server.env sv) ++ [(reply, me)] /\
    (exists conn', table sv' !! me = Some conn' /\
                   Server.expected_seq conn' = Client.base (Client.self c) + 1) /\
    (Client.inbox (Client.env c) = Some reply :: rest ->
     let c' := exec Client.receive_ack c in
     result Client.receive_ack c = Return tt /\
     Client.base (Client.self c') = Client.base (Client.self c) + 1 /\
     Client.buffer (Client.self c') = skipn 1 (Client.buffer (Client.self c)) /\
     in_flight c').
Proof.
  intros Hfl Hb Hmax Hget Hp Hconn Hst Hexp Hdraw sv'.
  set (b := Client.base (Client.self c)) in *.
  assert (Hp' : Codec.parse_header (slice_to (Client.packet info) 1024) =
                Return (3, b, a, w, l)) by (rewrite parse_header_recv; exact Hp).
  assert (Esv : sv' = exec (Server.on_data b me) sv).
  { subst sv'. rewrite start_cons. cbn [Server.start]. unfold exec.
    rewrite (handle_client_data _ me sv conn b a w l Hconn Hp'). reflexivity. }
  destruct (on_data_spec b me sv conn Hconn Hst Hdraw)
    as [(conn' & Hconn' & _ & Hexp' & _) Hack].
  assert (Hnext : next_expected b conn = b + 1)
    by (unfold next_expected; rewrite Hexp, Z.eqb_refl; reflexivity).
  rewrite Hnext in Hexp', Hack.
  destruct (header_bytes_built 4 0 (b + 1) 400 15) as (Hbuild & Hparse & _); try lia.
  rewrite Hbuild in Hack. destruct Hack as (_ & stamp & _ & Hwire).
  rewrite <- Esv in Hwire, Hconn'.
  exists (header_bytes 4 0 (b + 1) 400 15 ++ stamp).
  split; [exact Hwire|]. split; [exists conn'; split; assumption|].
  intros Hin c'.
  assert (Hparse' : Codec.parse_header (header_bytes 4 0 (b + 1) 400 15 ++ stamp) =
                    Return (4, 0, b + 1, 400, 15)).
  { rewrite <- parse_header_prefix, (slice_to_app _ stamp 8) by reflexivity.
    exact Hparse. }
  destruct (cumulative_ack_fact c _ rest 0 (b + 1) 400 15 Hfl Hin Hparse' ltac:(lia))
    as (R1 & R2 & _ & R3 & _ & _ & R4).
  fold b in R2, R3.
  replace (Z.max b (Z.min (b + 1) (Client.next_seq (Client.self c)))) with (b + 1)
    in R2, R3 by lia.
  replace (Z.to_nat (b + 1 - b)) with 1%nat in R3 by lia.
  split; [exact R1|]. split; [exact R2|]. split; [exact R3|exact R4].
Qed.


Lemma data_end_to_end_witness :
  result Client.receive_ack answered = Return tt /\
  Client.base (Client.self (exec Client.receive_ack answered)) = 1 /\
  in_flight (exec Client.receive_ack answered).
Proof.
  destruct (data_end_to_end answered (established 0) peer
              {| Server.state := Server.ESTABLISHED; Server.expected_seq := 0;
                 Server.my_seq := 100 |}
              (oldest answered) 0 400 40 [])
    as (reply & Hw & _ & Hc).
  - split; [vm_compute; discriminate|]. split; [vm_compute; reflexivity|].
    vm_compute. repeat constructor.
  - vm_compute. split; [discriminate|reflexivity].
  - vm_compute. reflexivity.
  - vm_compute. reflexivity.
  - vm_compute. reflexivity.
  - vm_compute. reflexivity.
  - reflexivity.
  - reflexivity.
  - vm_compute. reflexivity.
  - vm_compute in Hw. injection Hw as <-.
    destruct Hc as (H1 & H2 & _ & H3); [vm_compute; reflexivity|].
    split; [exact H1|]. split; [rewrite H2; vm_compute; reflexivity|exact H3].
Defined.


(* ------------------------------------------------------------------ *)
(** ** The window, kept by the sending loop                             *)
(* ------------------------------------------------------------------ *)







(* ------------------------------------------------------------------ *)
(** ** The CONFIG packet                                                *)
(* ------------------------------------------------------------------ *)

Lemma slice_to_app_long {A} (h p : list A) n :
  0 <= n <= len h -> slice_to (h ++ p) n = slice_to h n.
Proof.
  intros Hn. rewrite !slice_to_firstn by lia. unfold len in Hn.
  rewrite firstn_app. replace (Z.to_nat n - List.length h)%nat with 0%nat by lia.
  rewrite firstn_O, app_nil_r. reflexivity.
Qed.

(** X26. The CONFIG packet is never read. The packet by which the responder
    tells its drop rate, sent when the handshake ends, is of type 6:
    [receive_ack], the only method of the initiator that receives after
    [connect], consumes it and leaves [self] as it was. *)
Theorem config_packet_ignored (sv : Server.Sys) (c : Client.Sys)
    data addr seq ack w l conn rest :
  Codec.parse_header data = Return (4, seq, ack, w, l) ->
  table sv !! addr = Some conn ->
  Server.state conn = Server.SYN_RECEIVED ->
  0 <= rate_percent sv <= 255 ->
  let sv' := exec (Server.handle_client data addr) sv in
  exists config,
    Server.wire (Server.env sv') = Server.wire (Server.env sv) ++ [(config, addr)] /\
    (exists sq' ack' w' l', Codec.parse_header config = Return (6, sq', ack', w', l')) /\
    (Client.inbox (Client.env c) = Some config :: rest ->
     result Client.receive_ack c = Return tt /\
     Client.self (exec Client.receive_ack c) = Client.self c /\
     Client.inbox (Client.env (exec Client.receive_ack c)) = rest).
Proof.
  intros Hp Hconn Hst Hrate sv'.
  destruct (ack_establishes_fact sv data addr seq ack w l conn Hp Hconn Hst Hrate)
    as (_ & _ & hdr & Hwire & Hparse).
  fold sv' in Hwire.
  exists (hdr ++ [byte_of_Z (rate_percent sv)]).
  assert (Hcfg : Codec.parse_header (hdr ++ [byte_of_Z (rate_percent sv)]) =
                 Return (6, 0, 0, 400, 1)).
  { pose proof (parse_header_len _ _ Hparse) as Hlen.
    rewrite <- parse_header_prefix, slice_to_app_long by lia.
    rewrite parse_header_prefix. exact Hparse. }
  split; [exact Hwire|]. split; [eauto|].
  intros Hin.
  assert (Hrun : Client.receive_ack c = (Return tt, received c)).
  { apply receive_ack_idle. rewrite Hin, Hcfg. reflexivity. }
  unfold result, exec. rewrite Hrun. cbn. rewrite Hin. auto.
Qed.

Lemma config_packet_ignored_witness :
  let sv := exec (Server.handle_client syn_dgram peer) fresh_server in
  let c := filled [Some [x6f; x00; x00; x00; x00; x01; x90; x01; x00]%byte] in
  Server.wire (Server.env (exec (Server.handle_client ack_1 peer) sv)) =
    Server.wire (Server.env sv) ++
    [([x6f; x00; x00; x00; x00; x01; x90; x01; x00]%byte, peer)] /\
  result Client.receive_ack c = Return tt /\
  Client.self (exec Client.receive_ack c) = Client.self c.
Proof.
  intros sv c.
  destruct (config_packet_ignored sv c ack_1 peer 0 1 400 0
              {| Server.state := Server.SYN_RECEIVED; Server.expected_seq := 0;
                 Server.my_seq := 100 |} [])
    as (config & Hw & _ & Hc);
    [reflexivity|vm_compute; reflexivity|reflexivity|vm_compute; split; discriminate|].
  assert (Hcfg : config = [x6f; x00; x00; x00; x00; x01; x90; x01; x00]%byte).
  { vm_compute in Hw. injection Hw as <-. reflexivity. }
  subst config. split; [exact Hw|].
  destruct Hc as (H1 & H2 & _); [vm_compute; reflexivity|].
  split; [exact H1|exact H2].
Defined.


(* ------------------------------------------------------------------ *)
(** ** The list of samples is not capped                                *)
(* ------------------------------------------------------------------ *)

Lemma after_slide_rtt ack s :
  Client.rtt_list (Client.self (after_slide ack s)) =
  Client.rtt_list (Client.self (after_ack_loop ack s)).
Proof.
  unfold after_slide, exec.
  destruct (slide_loop_spec
              (List.length (Client.buffer (Client.self (after_ack_loop ack s))))
              (after_ack_loop ack s)) as (buf & b & Hrun & _).
  rewrite Hrun. reflexivity.
Qed.

(** [receive_ack] on an ACK: one sample is appended for each entry of the
    buffer that the ACK newly acknowledges. *)
Lemma receive_ack_samples s d rest sq ack w l :
  List.NoDup (Dict.keys (Client.buffer (Client.self s))) ->
  Client.inbox (Client.env s) = Some d :: rest ->
  Codec.parse_header d = Return (4, sq, ack, w, l) ->
  0 < ack ->
  exists new,
    Client.rtt_list (Client.self (exec Client.receive_ack s)) =
      Client.rtt_list (Client.self s) ++ new /\
    List.length new =
      List.length (List.filter (marked ack) (Client.buffer (Client.self s))).
Proof.
  intros Hnd Hin Hp Hack.
  destruct (ack_loop_marks ack (Client.buffer (Client.self s)) [] (received s) eq_refl Hnd)
    as (new & Hrun & Hnew).
  exists new. split; [|exact Hnew].
  unfold exec at 1. rewrite (receive_ack_on_ack s d rest sq ack w l Hin Hp Hack). cbn [snd].
  rewrite (proj1 (proj2 (proj2 (proj2 (proj2
             (adjust_timeout_frame (after_timer ack (received s)))))))).
  rewrite (proj2 (after_timer_frame ack (received s))), after_slide_rtt.
  unfold after_ack_loop, exec.
  change (Client.buffer (Client.self (received s))) with (Client.buffer (Client.self s)).
  cbn [app] in Hrun. rewrite Hrun. reflexivity.
Qed.

Lemma receive_ack_appends s :
  exists new,
    Client.rtt_list (Client.self (exec Client.receive_ack s)) =
    Client.rtt_list (Client.self s) ++ new.
Proof.
  unfold exec.
  destruct (receive_ack_cases s)
    as [(d & rest & sq & ack & w & l & Hin & Hp & Hack & Hrun)|Hrun]; rewrite Hrun; cbn [snd].
  - rewrite (proj1 (proj2 (proj2 (proj2 (proj2
               (adjust_timeout_frame (after_timer ack (received s)))))))).
    rewrite (proj2 (after_timer_frame ack (received s))).
    destruct (after_slide_frame ack (received s))
      as (_ & _ & _ & _ & _ & _ & new & Hnew & _).
    exists new. exact Hnew.
  - exists []. rewrite app_nil_r. reflexivity.
Qed.

Lemma check_timer_rtt s :
  Client.rtt_list (Client.self (exec Client.check_timer s)) =
  Client.rtt_list (Client.self s).
Proof.
  unfold Client.check_timer. unfold_client. unfold_m. cbn.
  destruct (Client.timer_running (Client.self s)); reflexivity.
Qed.

Lemma send_data_pass_appends s :
  exists new,
    Client.rtt_list (Client.self (exec Client.send_data_pass s)) =
    Client.rtt_list (Client.self s) ++ new.
Proof.
  unfold Client.send_data_pass. rewrite exec_bind.
  pose proof (send_window_packets_rtt s) as H1. unfold exec in H1.
  destruct (Client.send_window_packets s) as [[[]|ex] s1]; cbn [snd] in H1;
    [|exists []; rewrite app_nil_r; exact H1].
  rewrite exec_bind.
  destruct (receive_ack_appends s1) as (new & H2). unfold exec in H2. rewrite H1 in H2.
  destruct (Client.receive_ack s1) as [[[]|ex] s2]; cbn [snd] in H2;
    [|exists new; exact H2].
  rewrite exec_bind.
  pose proof (check_timer_rtt s2) as H3. unfold exec in H3.
  destruct (Client.check_timer s2) as [[expired|ex] s3]; cbn [snd] in H3;
    [|exists new; rewrite H3; exact H2].
  exists new. destruct expired; cbn [when].
  - rewrite handle_timeout_rtt, H3. exact H2.
  - unfold exec, ret. cbn [snd]. rewrite H3. exact H2.
Qed.

Lemma send_data_passes_appends n :
  forall s, exists new,
    Client.rtt_list (Client.self (exec (send_data_passes n) s)) =
    Client.rtt_list (Client.self s) ++ new.
Proof.
  induction n as [|n IH]; intros s; [exists []; rewrite app_nil_r; reflexivity|].
  cbn [send_data_passes]. unfold exec.
  rewrite (bind_returns _ _ _ _ _ (attr_returns _ s)).
  rewrite (bind_returns _ _ _ _ _ (attr_returns _ s)).
  destruct (Client.base (Client.self s) <? Client.target_packets (Client.self s));
    [|exists []; rewrite app_nil_r; reflexivity].
  change (exists new,
    Client.rtt_list (Client.self (exec (Client.send_data_pass ;;; send_data_passes n) s)) =
    Client.rtt_list (Client.self s) ++ new).
  rewrite exec_bind.
  destruct (send_data_pass_appends s) as (new1 & H1). unfold exec in H1.
  destruct (Client.send_data_pass s) as [[[]|ex] s1]; cbn [snd] in H1;
    [|exists new1; exact H1].
  destruct (IH s1) as (new2 & H2). exists (new1 ++ new2).
  rewrite H2, H1, app_assoc. reflexivity.
Qed.

Lemma slice_last_le {A} (l : list A) : len (slice l (-10) (len l)) <= 10.
Proof.
  unfold slice, slice_bound. replace (-10 <? 0) with true by reflexivity.
  pose proof (len_nonneg l) as Hl.
  destruct (len l <? 0) eqn:E; [apply Z.ltb_lt in E; lia|].
  unfold len at 1. rewrite length_firstn. unfold len in *. lia.
Qed.

(** C8, amended. The list of samples is not capped. [receive_ack] appends
    one sample for each packet that an ACK newly acknowledges, the entries
    of the buffer below the ack field that are not yet marked, and none
    when it processes no ACK; [send_window_packets], [handle_timeout] and
    [adjust_timeout] leave the list as it is; over any number of passes of
    the loop of [send_data] the list only grows at its end, no sample ever
    leaves it. The cap of ten is on what the recomputation of the time-out
    reads: [adjust_timeout] uses [rtt_list[-10:]] only, the ten most recent
    samples, a sequence of length at most 10. *)
Theorem rtt_samples_window s :
  (List.NoDup (Dict.keys (Client.buffer (Client.self s))) ->
   forall d rest sq ack w l,
     Client.inbox (Client.env s) = Some d :: rest ->
     Codec.parse_header d = Return (4, sq, ack, w, l) ->
     0 < ack ->
     exists new,
       Client.rtt_list (Client.self (exec Client.receive_ack s)) =
         Client.rtt_list (Client.self s) ++ new /\
       List.length new =
         List.length (List.filter (marked ack) (Client.buffer (Client.self s)))) /\
  ((forall d rest, Client.inbox (Client.env s) = Some d :: rest -> ~ positive_ack d) ->
   Client.rtt_list (Client.self (exec Client.receive_ack s)) =
     Client.rtt_list (Client.self s)) /\
  Client.rtt_list (Client.self (exec Client.send_window_packets s)) =
    Client.rtt_list (Client.self s) /\
  Client.rtt_list (Client.self (exec Client.handle_timeout s)) =
    Client.rtt_list (Client.self s) /\
  Client.rtt_list (Client.self (exec Client.adjust_timeout s)) =
    Client.rtt_list (Client.self s) /\
  (forall n, exists new,
     Client.rtt_list (Client.self (exec (send_data_passes n) s)) =
       Client.rtt_list (Client.self s) ++ new) /\
  Client.timeout (Client.self (exec Client.adjust_timeout s)) =
    (if 10 <=? len (Client.rtt_list (Client.self s))
     then (5 * nth 5 (sorted_Q (slice (Client.rtt_list (Client.self s)) (-10)
                                  (len (Client.rtt_list (Client.self s))))) 0 / 1000)%Q
     else Client.timeout (Client.self s)) /\
  len (slice (Client.rtt_list (Client.self s)) (-10)
         (len (Client.rtt_list (Client.self s)))) <= 10.
Proof.
  split; [|split; [|split; [|split; [|split; [|split; [|split]]]]]].
  - intros Hnd d rest sq ack w l Hin Hp Hack.
    apply (receive_ack_samples s d rest sq ack w l); assumption.
  - intros Hno. unfold exec. rewrite (receive_ack_skips s Hno). reflexivity.
  - apply send_window_packets_rtt.
  - apply handle_timeout_rtt.
  - apply (adjust_timeout_frame s).
  - intros n. apply send_data_passes_appends.
  - unfold exec. rewrite adjust_timeout_spec. cbn [snd].
    destruct (10 <=? len (Client.rtt_list (Client.self s))) eqn:E; [|reflexivity].
    apply Z.leb_le in E. rewrite slice_last_ten by exact E. reflexivity.
  - apply slice_last_le.
Qed.

Lemma rtt_samples_window_witness :
  let s := filled [Some ack_10] in
  exists new,
    Client.rtt_list (Client.self (exec Client.receive_ack s)) =
      Client.rtt_list (Client.self s) ++ new /\
    List.length new = 10%nat.
Proof.
  intros s.
  destruct (proj1 (rtt_samples_window s)) with (d := ack_10) (rest := @nil (option bytes))
    (sq := 0) (ack := 10) (w := 400) (l := 0) as (new & H1 & H2).
  - vm_compute.
    repeat (apply List.NoDup_cons; [cbn; intuition discriminate|]). apply List.NoDup_nil.
  - vm_compute. reflexivity.
  - vm_compute. reflexivity.
  - lia.
  - exists new. split; [exact H1|]. rewrite H2. vm_compute. reflexivity.
Defined.
